(** * Security scanner: probes, scoring and report aggregation

    A shallow embedding of the scanner's two services:

    - [src/mcp/main.py], the probe server (TLS, vulnerability, security
      header, port and DNS probes together with the [clean_url] helper);
    - [src/backend/main.py], the aggregator behind [POST /scan].

    Conventions of the embedding.

    - Python [str] is [string], one character for each code point; the
      strings of the model are those whose code points lie below 256
      (U+0000 to U+00FF).  On them [strip] removes what [str.strip] removes
      (the ASCII white space, U+0085 and U+00A0) and [lower] maps what
      [str.lower] maps (['A'..'Z'], U+00C0..U+00D6 and U+00D8..U+00DE, each
      to the code point 32 above it).  A string with a code point from
      U+0100 on is outside the model.
    - Python [float] scores are exact rationals ([Q]) in the probes;
      [round(x, 1)] rounds the exact value half-to-even to a multiple of one
      tenth.  [Binary64] repeats the score arithmetic on binary64 floats,
      and Part II shows that the published scores, risk tiers and grades of
      the two agree on every run.
    - JSON-like payloads (dicts, lists, strings, numbers) are values of
      [pyval]; a dict is an insertion-ordered association list.
    - The network, the resolver, the clock and the text generator are
      deterministic oracles gathered in records; every call to one of them
      is recorded in a trace.
    - Functions with [try]/[except] and local mutable variables are written
      in a state-and-exception monad whose state holds the trace and the
      locals of the function. *)

From Stdlib Require Import Bool Ascii String List ZArith QArith Qround Qminmax Lia Lqa.
From Stdlib Require Import Numbers.DecimalString.
From Stdlib Require Floats.PrimFloat Floats.FloatOps Floats.SpecFloat.
From Stdlib Require Numbers.Cyclic.Int63.Uint63.
Import ListNotations.

Set Warnings "-register-all".
Set Warnings "-inexact-float".

Local Open Scope list_scope.
Local Open Scope string_scope.

(* ===================================================================== *)
(** * Part I: definitions                                                  *)
(* ===================================================================== *)

(** ** Python string primitives *)

Module Py.

Definition in_range (lo hi : nat) (c : ascii) : bool :=
  let n := nat_of_ascii c in (lo <=? n)%nat && (n <=? hi)%nat.

(** The code points below 256 that [str.lower] changes: ['A' .. 'Z'],
    U+00C0 .. U+00D6 and U+00D8 .. U+00DE (U+00D7 is the multiplication
    sign).  The lower case of each is the code point 32 above it. *)
Definition is_upper_char (c : ascii) : bool :=
  in_range 65 90 c || in_range 192 214 c || in_range 216 222 c.

(** ['a' .. 'z'] *)
Definition is_lower_char (c : ascii) : bool := in_range 97 122 c.

Definition lower_char (c : ascii) : ascii :=
  if is_upper_char c then ascii_of_nat (nat_of_ascii c + 32) else c.

Definition upper_char (c : ascii) : ascii :=
  if is_lower_char c then ascii_of_nat (nat_of_ascii c - 32) else c.

Fixpoint map_chars (f : ascii -> ascii) (s : string) : string :=
  match s with
  | EmptyString => EmptyString
  | String c r => String (f c) (map_chars f r)
  end.

(** [s.lower()] *)
Definition lower (s : string) : string := map_chars lower_char s.

(** [s.upper()] on the ASCII range.  Characters above 127 are left alone:
    below 256 the upper case of such a character is another character above
    127, the two letters [SS] for U+00DF, or a code point from U+0100 on.
    The code looks in the result for the names [PUT], [DELETE] and [TRACE]
    only, which have no letter that these supply. *)
Definition upper (s : string) : string := map_chars upper_char s.

(** [str.isspace] on one code point below 256: TAB, LF, VT, FF, CR, the
    four separators FS, GS, RS, US, the space, the next-line control U+0085
    and the no-break space U+00A0. *)
Definition is_space (c : ascii) : bool :=
  in_range 9 13 c || in_range 28 32 c || in_range 133 133 c || in_range 160 160 c.

(** [s.lstrip()] *)
Fixpoint lstrip (s : string) : string :=
  match s with
  | EmptyString => EmptyString
  | String c r => if is_space c then lstrip r else s
  end.

(** Drop the trailing characters that satisfy [p]. *)
Fixpoint rstrip_with (p : ascii -> bool) (s : string) : string :=
  match s with
  | EmptyString => EmptyString
  | String c r =>
      match rstrip_with p r with
      | EmptyString => if p c then EmptyString else String c EmptyString
      | r' => String c r'
      end
  end.

(** [s.rstrip()] *)
Definition rstrip (s : string) : string := rstrip_with is_space s.

(** [s.rstrip(ch)] for a one-character argument *)
Definition rstrip_char (ch : ascii) (s : string) : string :=
  rstrip_with (Ascii.eqb ch) s.

(** [s.strip()] *)
Definition strip (s : string) : string := rstrip (lstrip s).

(** [s.startswith(p)] *)
Definition startswith (p s : string) : bool := String.prefix p s.

(** [s.startswith((p1, p2, ...))] *)
Definition startswith_any (ps : list string) (s : string) : bool :=
  existsb (fun p => startswith p s) ps.

(** [sub in s] for strings *)
Fixpoint contains (sub s : string) : bool :=
  String.prefix sub s ||
  match s with
  | EmptyString => false
  | String _ r => contains sub r
  end.

(** [x in xs] for a list of strings *)
Definition in_list (x : string) (xs : list string) : bool :=
  existsb (String.eqb x) xs.

(** [s.replace(old, new)], scanning left to right over non-overlapping
    occurrences; [skip] counts the characters of a matched occurrence that
    are still to be passed over. *)
Fixpoint replace_from (old new : string) (skip : nat) (s : string) : string :=
  match s with
  | EmptyString => EmptyString
  | String c r =>
      match skip with
      | S k => replace_from old new k r
      | O =>
          if String.prefix old s
          then new ++ replace_from old new (pred (String.length old)) r
          else String c (replace_from old new O r)
      end
  end.

(** The sources only replace non-empty patterns; for the empty pattern
    Python interleaves [new], which is the identity when [new] is empty too
    and is not needed otherwise. *)
Definition replace (old new s : string) : string :=
  match old with
  | EmptyString => s
  | _ => replace_from old new O s
  end.

(** [s.split(sep)] for a non-empty separator: the piece being read, and the
    pieces after it. *)
Fixpoint split_from (sep : string) (skip : nat) (s : string)
  : string * list string :=
  match s with
  | EmptyString => (EmptyString, [])
  | String c r =>
      match skip with
      | S k => split_from sep k r
      | O =>
          if String.prefix sep s
          then (EmptyString,
                let (p, ps) := split_from sep (pred (String.length sep)) r in
                p :: ps)
          else let (p, ps) := split_from sep O r in (String c p, ps)
      end
  end.

Definition split (sep s : string) : list string :=
  let (p, ps) := split_from sep O s in p :: ps.

(** [str(n)] for an integer *)
Definition str_of_int (z : Z) : string := NilEmpty.string_of_int (Z.to_int z).

(** Line feed, for multi-line string literals. *)
Definition nl : string := String (ascii_of_nat 10) EmptyString.

End Py.

(** ** Python values, exceptions and the effect monad *)

(** JSON-like values.  A dict keeps its insertion order. *)
Inductive pyval : Type :=
| PNone
| PBool (b : bool)
| PInt (z : Z)
| PFloat (q : Q)
| PStr (s : string)
| PList (l : list pyval)
| PDict (d : list (string * pyval)).

(** [d.get(k)] on an insertion-ordered dict *)
Fixpoint dict_get {V : Type} (k : string) (d : list (string * V)) : option V :=
  match d with
  | [] => None
  | (k', v) :: r => if String.eqb k k' then Some v else dict_get k r
  end.

(** [d[k] = v]: overwrite in place, or append a new key *)
Fixpoint dict_set {V : Type} (k : string) (v : V) (d : list (string * V))
  : list (string * V) :=
  match d with
  | [] => [(k, v)]
  | (k', v') :: r =>
      if String.eqb k k' then (k, v) :: r else (k', v') :: dict_set k v r
  end.

Definition dict_keys {V : Type} (d : list (string * V)) : list string :=
  map fst d.

(** [len(xs)] as a Python integer *)
Definition py_len {A : Type} (xs : list A) : Z := Z.of_nat (List.length xs).

(** The exception classes the handlers of the two services tell apart.
    [socket.timeout], [socket.gaierror], [ssl.SSLError] and
    [requests.RequestException] all derive from [OSError] (alias
    [socket.error]); [dns.resolver.NoAnswer] and everything else derive
    from [Exception] only. *)
Inductive exn_class : Type :=
| RequestException
| SocketTimeout
| SocketGaierror
| SSLError
| OSError
| DnsNoAnswer
| OtherException.

Record exn : Type := MkExn { exn_kind : exn_class; exn_str : string }.

(** [isinstance(e, OSError)] *)
Definition is_os_error (e : exn) : bool :=
  match exn_kind e with
  | RequestException | SocketTimeout | SocketGaierror | SSLError | OSError => true
  | DnsNoAnswer | OtherException => false
  end.

Inductive outcome (A : Type) : Type :=
| Ok (a : A)
| Raise (e : exn).
Arguments Ok {A} a.
Arguments Raise {A} e.

(** One call to the outside world. *)
Inductive io_event : Type :=
| EvGet (url : string) (timeout : Z)
| EvOptions (url : string) (timeout : Z)
| EvPost (url : string) (body : pyval) (timeout : Z)
| EvConnect (host : string) (port : Z) (timeout : Z)
| EvTlsHandshake (host : string) (port : Z) (timeout : Z)
| EvResolve (domain rtype : string)
| EvLlm (prompt : string).

(** The state of a running function: the calls made so far (oldest first)
    and the function's local variables. *)
Record frame (L : Type) : Type := MkFrame { trace : list io_event; locals : L }.
Arguments MkFrame {L} trace locals.
Arguments trace {L} f.
Arguments locals {L} f.

Definition M (L A : Type) : Type := frame L -> outcome A * frame L.

Definition ret {L A : Type} (a : A) : M L A := fun s => (Ok a, s).

Definition bind {L A B : Type} (m : M L A) (k : A -> M L B) : M L B :=
  fun s =>
    match m s with
    | (Ok a, s') => k a s'
    | (Raise e, s') => (Raise e, s')
    end.

Definition raise {L A : Type} (e : exn) : M L A := fun s => (Raise e, s).

(** [try: m  except <any>: h(e)]; what [m] did to the state before it
    raised stays done, as in Python. *)
Definition try_except {L A : Type} (m : M L A) (h : exn -> M L A) : M L A :=
  fun s =>
    match m s with
    | (Ok a, s') => (Ok a, s')
    | (Raise e, s') => h e s'
    end.

Definition get_locals {L : Type} : M L L := fun s => (Ok (locals s), s).

Definition modify {L : Type} (f : L -> L) : M L unit :=
  fun s => (Ok tt, MkFrame (trace s) (f (locals s))).

(** Perform a call: log it, then return or raise what the oracle says. *)
Definition perform {L A : Type} (ev : io_event) (r : outcome A) : M L A :=
  fun s => (r, MkFrame (trace s ++ [ev])%list (locals s)).

(** The result of a pure step that may raise. *)
Definition lift {L A : Type} (o : outcome A) : M L A := fun s => (o, s).

Declare Scope py_scope.
Delimit Scope py_scope with py.
Notation "x <- m ;; k" := (bind m (fun x => k))
  (at level 100, m at next level, right associativity) : py_scope.
Notation "m ;; k" := (bind m (fun _ => k))
  (at level 100, right associativity) : py_scope.
Local Open Scope py_scope.

(** [for x in xs: body(x)] *)
Fixpoint for_each {L X : Type} (xs : list X) (body : X -> M L unit) : M L unit :=
  match xs with
  | [] => ret tt
  | x :: r => body x ;; for_each r body
  end.

(** Run a function from an empty trace. *)
Definition run {L A : Type} (m : M L A) (l0 : L) : outcome A * frame L :=
  m (MkFrame [] l0).

(** ** Scores *)

(** Round to the nearest integer, ties to the even one. *)
Definition round_half_even (x : Q) : Z :=
  let f := Qfloor x in
  match Qcompare (x - inject_Z f) (1 # 2) with
  | Lt => f
  | Gt => (f + 1)%Z
  | Eq => if Z.even f then f else (f + 1)%Z
  end.

(** [round(x, 1)] *)
Definition round1 (x : Q) : Q := inject_Z (round_half_even (x * 10)) / 10.

(** [max(a, b)] on floats: the first argument unless the second is larger *)
Definition py_max (a b : Q) : Q := if Qlt_le_dec a b then b else a.

(** The numeric value of a published number, integer or float. *)
Definition num_value (v : pyval) : option Q :=
  match v with
  | PInt z => Some (inject_Z z)
  | PFloat q => Some q
  | _ => None
  end.

(** ** What the probes talk to *)

(** A [requests.Response]: the headers are the items of the
    case-insensitive dict, in the case they were received in. *)
Record HttpResponse : Type := MkResponse {
  status_code : Z;
  headers : list (string * string);
  text : string
}.

(** [key in response.headers]: the lookup ignores case. *)
Definition headers_contains (key : string) (hs : list (string * string)) : bool :=
  existsb (fun kv => String.eqb (Py.lower (fst kv)) (Py.lower key)) hs.

(** [response.headers[key]] *)
Definition headers_get (key : string) (hs : list (string * string)) : option string :=
  match find (fun kv => String.eqb (Py.lower (fst kv)) (Py.lower key)) hs with
  | Some kv => Some (snd kv)
  | None => None
  end.

(** A number that may be an [int] or a [float], for expressions that mix
    the two. *)
Inductive pynum : Type :=
| NInt (z : Z)
| NFloat (q : Q).

Definition num_q (n : pynum) : Q :=
  match n with
  | NInt z => inject_Z z
  | NFloat q => q
  end.

(** [a < b] *)
Definition num_ltb (a b : pynum) : bool := negb (Qle_bool (num_q b) (num_q a)).

(** [a >= b] *)
Definition num_geb (a b : pynum) : bool := Qle_bool (num_q b) (num_q a).

(** [min(a, b)]: the first argument unless the second is smaller *)
Definition builtin_min (a b : pynum) : pynum := if num_ltb b a then b else a.

(** [max(a, b)]: the first argument unless the second is larger *)
Definition builtin_max (a b : pynum) : pynum := if num_ltb a b then b else a.

(** [round(n, 1)]: an [int] is returned as it is *)
Definition builtin_round1 (n : pynum) : pynum :=
  match n with
  | NInt z => NInt z
  | NFloat q => NFloat (round1 q)
  end.

Definition pyval_of_num (n : pynum) : pyval :=
  match n with
  | NInt z => PInt z
  | NFloat q => PFloat q
  end.

(** ** The probe server, [src/mcp/main.py] *)

Module Mcp.

(** The dict [SSLSocket.getpeercert()] is built from.  The relative
    distinguished names of [subject] and [issuer] are tuples of
    (attribute, value) pairs; [subjectAltName] is a tuple of (kind, value)
    pairs such as [("DNS", "example.com")]. *)
Record PeerCert : Type := MkPeerCert {
  cert_subject : list (list (string * string));
  cert_issuer : list (list (string * string));
  cert_version : Z;
  cert_serialNumber : string;
  cert_notBefore : string;
  cert_notAfter : string;
  cert_subjectAltName : list (string * string);
  cert_OCSP : list string;
  cert_caIssuers : list string;
  cert_crlDistributionPoints : list string
}.

(** What the probes reach outside the process. *)
Record World : Type := MkWorld {
  (** [requests.get(url, timeout=t)], redirects followed *)
  requests_get : string -> Z -> outcome HttpResponse;
  (** [requests.options(url, timeout=t)] *)
  requests_options : string -> Z -> outcome HttpResponse;
  (** [socket.create_connection((host, port), timeout=t)] *)
  create_connection : string -> Z -> Z -> outcome unit;
  (** connect to [(host, port)], wrap the socket with the default context
      and read the peer certificate *)
  tls_peercert : string -> Z -> Z -> outcome PeerCert;
  (** [[str(a) for a in dns.resolver.resolve(domain, rtype)]] *)
  dns_resolve : string -> string -> outcome (list string);
  (** [datetime.now(timezone.utc).isoformat()] *)
  utc_now_isoformat : string;
  (** [datetime.now()], in seconds *)
  now : Z;
  (** [datetime.strptime(s, '%b %d %H:%M:%S %Y %Z')], in seconds; a string
      that does not parse raises [ValueError] *)
  strptime : string -> outcome Z;
  (** [d.isoformat()] *)
  isoformat : Z -> string;
  (** the builtin [str] on values *)
  py_str : pyval -> string
}.

(** *** [clean_url] *)

Definition clean_url (url : string) : string :=
  let url := Py.lower (Py.strip url) in
  let url := Py.replace "https://" "" (Py.replace "http://" "" url) in
  if Py.contains "/" url then hd EmptyString (Py.split "/" url) else url.

(** *** [scan_vulnerabilities] *)

Record VulnerabilityRequest : Type := MkVulnerabilityRequest {
  vr_url : string;
  scan_depth : string
}.

Record vuln_locals : Type := MkVulnLocals {
  vulnerabilities : list pyval;
  score : Q
}.

(** [vulnerabilities.append(v)] *)
Definition append_vulnerability (v : pyval) : M vuln_locals unit :=
  modify (fun l => MkVulnLocals (vulnerabilities l ++ [v])%list (score l)).

(** [score -= d] *)
Definition deduct (d : Q) : M vuln_locals unit :=
  modify (fun l => MkVulnLocals (vulnerabilities l) (score l - d)).

Definition security_headers : list (string * string) :=
  [ ("x-frame-options", "Clickjacking protection missing");
    ("x-content-type-options", "MIME-sniffing protection missing");
    ("x-xss-protection", "XSS protection header missing");
    ("strict-transport-security", "HSTS header missing");
    ("content-security-policy", "CSP header missing") ].

Definition vulnerable_paths : list string :=
  ["/admin"; "/wp-admin"; "/.env"; "/config.php"].

Definition dangerous_methods : list string := ["TRACE"; "DELETE"; "PUT"].

Definition missing_header_finding (header description : string) : pyval :=
  PDict [ ("type", PStr "Missing Security Header");
          ("severity", PStr "medium");
          ("description", PStr description);
          ("header", PStr header) ].

Definition information_disclosure_finding (server_info : string) : pyval :=
  PDict [ ("type", PStr "Information Disclosure");
          ("severity", PStr "low");
          ("description", PStr ("Server information disclosed: " ++ server_info));
          ("detail", PStr server_info) ].

Definition sql_error_finding : pyval :=
  PDict [ ("type", PStr "Potential SQL Error");
          ("severity", PStr "medium");
          ("description", PStr "Possible SQL error messages in content") ].

Definition exposed_endpoint_finding (path : string) (code : Z) : pyval :=
  PDict [ ("type", PStr "Exposed Endpoint");
          ("severity", PStr "high");
          ("description", PStr ("Potentially sensitive endpoint accessible: " ++ path));
          ("path", PStr path);
          ("status_code", PInt code) ].

Definition directory_listing_finding : pyval :=
  PDict [ ("type", PStr "Directory Listing");
          ("severity", PStr "medium");
          ("description", PStr "Directory listing may be enabled") ].

Definition dangerous_method_finding (method : string) : pyval :=
  PDict [ ("type", PStr "Dangerous HTTP Method");
          ("severity", PStr "medium");
          ("description", PStr ("Dangerous HTTP method enabled: " ++ method));
          ("method", PStr method) ].

(** Missing security headers *)
Definition check_missing_headers (hs : list (string * string)) : M vuln_locals unit :=
  for_each security_headers (fun hd =>
    let (header, description) := hd in
    if negb (Py.in_list header (map Py.lower (map fst hs))) then
      append_vulnerability (missing_header_finding header description) ;;
      deduct 0.5
    else ret tt).

(** Check for information disclosure *)
Definition check_information_disclosure (hs : list (string * string))
  : M vuln_locals unit :=
  match headers_get "server" hs with
  | Some server_info =>
      if existsb (fun tech => Py.contains tech (Py.lower server_info))
                 ["apache"; "nginx"; "iis"]
      then
        append_vulnerability (information_disclosure_finding server_info) ;;
        deduct 0.2
      else ret tt
  | None => ret tt
  end.

(** Basic content checks *)
Definition check_content (content : string) : M vuln_locals unit :=
  if Py.contains "sql" content && Py.contains "error" content then
    append_vulnerability sql_error_finding ;;
    deduct 1.0
  else ret tt.

(** Check for common vulnerable paths *)
Definition check_vulnerable_paths (w : World) (url : string) : M vuln_locals unit :=
  for_each vulnerable_paths (fun path =>
    try_except
      (test_response <- perform (EvGet (url ++ path) 5)
                                (requests_get w (url ++ path) 5) ;;
       if (status_code test_response =? 200)%Z then
         append_vulnerability
           (exposed_endpoint_finding path (status_code test_response)) ;;
         deduct 1.5
       else ret tt)
      (fun _ => ret tt)).

(** Check for directory listing *)
Definition check_directory_listing (w : World) (url : string) : M vuln_locals unit :=
  try_except
    (let dir_url := Py.rstrip_char "/" url ++ "/" in
     dir_response <- perform (EvGet dir_url 5) (requests_get w dir_url 5) ;;
     if Py.contains "index of" (Py.lower (text dir_response)) then
       append_vulnerability directory_listing_finding ;;
       deduct 0.8
     else ret tt)
    (fun _ => ret tt).

(** Check for HTTP methods *)
Definition check_http_methods (w : World) (url : string) : M vuln_locals unit :=
  try_except
    (options_response <- perform (EvOptions url 5) (requests_options w url 5) ;;
     match headers_get "allow" (headers options_response) with
     | Some allowed_methods =>
         for_each dangerous_methods (fun method =>
           if Py.contains method (Py.upper allowed_methods) then
             append_vulnerability (dangerous_method_finding method) ;;
             deduct 0.5
           else ret tt)
     | None => ret tt
     end)
    (fun _ => ret tt).

(** The URL the probe requests: [https://] is put in front unless the
    request already starts with a scheme. *)
Definition request_url (url : string) : string :=
  if negb (Py.startswith_any ["http://"; "https://"] url)
  then "https://" ++ url else url.

Definition risk_level_of (score : Q) : string :=
  if Qle_bool 8.0 score then "low"
  else if Qle_bool 6.0 score then "medium"
  else if Qle_bool 4.0 score then "high"
  else "critical".

Definition scan_vulnerabilities (w : World) (request : VulnerabilityRequest)
  : M vuln_locals pyval :=
  try_except
    (let url := request_url (vr_url request) in
     modify (fun _ => MkVulnLocals [] 10.0) ;;
     early <-
       try_except
         (response <- perform (EvGet url 10) (requests_get w url 10) ;;
          let hs := headers response in
          let content := Py.lower (text response) in
          check_missing_headers hs ;;
          check_information_disclosure hs ;;
          check_content content ;;
          (if Py.in_list (scan_depth request) ["medium"; "deep"] then
             check_vulnerable_paths w url ;;
             check_directory_listing w url
           else ret tt) ;;
          (if String.eqb (scan_depth request) "deep" then
             check_http_methods w url
           else ret tt) ;;
          ret None)
         (fun e =>
            match exn_kind e with
            | RequestException =>
                ret (Some (PDict
                  [ ("error", PStr ("Could not connect to " ++ url ++ ": " ++ exn_str e));
                    ("vulnerabilities", PList []);
                    ("score", PFloat 0.0) ]))
            | _ => raise e
            end) ;;
     match early with
     | Some payload => ret payload
     | None =>
         l <- get_locals ;;
         (* Ensure score doesn't go below 0 *)
         let score := py_max 0.0 (score l) in
         let risk_level := risk_level_of score in
         ret (PDict
           [ ("url", PStr url);
             ("scan_depth", PStr (scan_depth request));
             ("vulnerabilities", PList (vulnerabilities l));
             ("vulnerability_count", PInt (py_len (vulnerabilities l)));
             ("security_score", PFloat (round1 score));
             ("risk_level", PStr risk_level);
             ("scan_timestamp", PStr (utc_now_isoformat w)) ])
     end)
    (fun e => ret (PDict [("error", PStr ("Vulnerability scan failed: " ++ exn_str e))])).

(** *** [analyze_security_headers] *)

Record SecurityHeadersRequest : Type := MkSecurityHeadersRequest {
  shr_url : string
}.

Record header_info : Type := MkHeaderInfo {
  hi_name : string;
  hi_importance : string;
  hi_description : string
}.

Definition security_headers_check : list (string * header_info) :=
  [ ("strict-transport-security",
     MkHeaderInfo "HTTP Strict Transport Security (HSTS)" "high"
                  "Prevents protocol downgrade attacks");
    ("content-security-policy",
     MkHeaderInfo "Content Security Policy (CSP)" "high"
                  "Prevents XSS and data injection attacks");
    ("x-frame-options",
     MkHeaderInfo "X-Frame-Options" "medium" "Prevents clickjacking attacks");
    ("x-content-type-options",
     MkHeaderInfo "X-Content-Type-Options" "medium" "Prevents MIME-sniffing attacks");
    ("x-xss-protection",
     MkHeaderInfo "X-XSS-Protection" "low"
                  "Legacy XSS protection (deprecated but still useful)");
    ("referrer-policy",
     MkHeaderInfo "Referrer Policy" "medium" "Controls referrer information");
    ("permissions-policy",
     MkHeaderInfo "Permissions Policy" "medium" "Controls browser features and APIs") ].

(** The two accumulators of the lookup loop.  An entry of
    [present_headers] keeps the header's value next to its catalog data. *)
Record header_locals : Type := MkHeaderLocals {
  present_headers : list (string * (string * header_info));
  missing_headers : list (string * header_info)
}.

(** The inner loop: the value of the first item whose lower-cased name is
    [header_name], or [None]. *)
Fixpoint find_header_value (header_name : string) (items : list (string * string))
  : option string :=
  match items with
  | [] => None
  | (h, v) :: r =>
      if String.eqb (Py.lower h) header_name then Some v
      else find_header_value header_name r
  end.

(** [if header_value:] holds for a value that is neither [None] nor empty. *)
Definition truthy (header_value : option string) : bool :=
  match header_value with
  | Some v => negb (String.eqb v EmptyString)
  | None => false
  end.

(** One round of the outer loop. *)
Definition check_header (items : list (string * string)) (acc : header_locals)
  (entry : string * header_info) : header_locals :=
  let (header_name, info) := entry in
  let header_value := find_header_value header_name items in
  if truthy header_value then
    MkHeaderLocals
      (dict_set header_name
                (match header_value with Some v => v | None => EmptyString end, info)
                (present_headers acc))
      (missing_headers acc)
  else
    MkHeaderLocals (present_headers acc)
                   (missing_headers acc ++ [(header_name, info)])%list.

Definition check_headers (items : list (string * string)) : header_locals :=
  fold_left (check_header items) security_headers_check (MkHeaderLocals [] []).

Definition high_importance : list string :=
  map fst (filter (fun e => String.eqb (hi_importance (snd e)) "high")
                  security_headers_check).

(** The score before rounding: the share of present headers on a scale of
    ten, the bonus or the penalty, then the clamp. *)
Definition header_score (present : list (string * (string * header_info))) : pynum :=
  let total_headers := py_len security_headers_check in
  let present_count := py_len present in
  let score := (inject_Z present_count / inject_Z total_headers) * 10 in
  let high_present :=
    filter (fun h => Py.in_list h high_importance) (dict_keys present) in
  let score :=
    if (py_len high_present =? py_len high_importance)%Z then score + 1
    else if (py_len high_present =? 0)%Z then score - 2
    else score in
  builtin_max (NInt 0) (builtin_min (NInt 10) (NFloat score)).

Definition grade_of (score : pynum) : string :=
  if num_geb score (NInt 9) then "A"
  else if num_geb score (NInt 7) then "B"
  else if num_geb score (NInt 5) then "C"
  else if num_geb score (NInt 3) then "D"
  else "F".

Definition present_entry (e : string * (string * header_info)) : string * pyval :=
  let '(header_name, (value, info)) := e in
  (header_name,
   PDict [ ("value", PStr value);
           ("name", PStr (hi_name info));
           ("importance", PStr (hi_importance info));
           ("description", PStr (hi_description info)) ]).

Definition missing_entry (e : string * header_info) : pyval :=
  let (header_name, info) := e in
  PDict [ ("header", PStr header_name);
          ("name", PStr (hi_name info));
          ("importance", PStr (hi_importance info));
          ("description", PStr (hi_description info)) ].

Definition analyze_security_headers (w : World) (request : SecurityHeadersRequest)
  : M unit pyval :=
  try_except
    (let url := request_url (shr_url request) in
     response <- perform (EvGet url 10) (requests_get w url 10) ;;
     let acc := check_headers (headers response) in
     (* Calculate security score *)
     let total_headers := py_len security_headers_check in
     let present_count := py_len (present_headers acc) in
     let score := header_score (present_headers acc) in
     let grade := grade_of score in
     ret (PDict
       [ ("url", PStr url);
         ("security_score", pyval_of_num (builtin_round1 score));
         ("grade", PStr grade);
         ("present_headers", PDict (map present_entry (present_headers acc)));
         ("missing_headers", PList (map missing_entry (missing_headers acc)));
         ("total_headers_checked", PInt total_headers);
         ("headers_present", PInt present_count);
         ("scan_timestamp", PStr (utc_now_isoformat w));
         ("recommendations",
          PList (map (fun h => PStr ("Implement " ++ hi_name (snd h)))
                     (filter (fun h => String.eqb (hi_importance (snd h)) "high")
                             (missing_headers acc)))) ]))
    (fun e =>
       match exn_kind e with
       | RequestException =>
           ret (PDict [("error", PStr ("Could not analyze headers for "
                                        ++ shr_url request ++ ": " ++ exn_str e))])
       | _ => ret (PDict [("error", PStr ("Header analysis failed: " ++ exn_str e))])
       end).

(** *** [scan_ports] *)

Record PortScanRequest : Type := MkPortScanRequest {
  psr_url : string;
  ports : option (list Z)
}.

Record port_locals : Type := MkPortLocals {
  open_ports : list Z;
  closed_ports : list Z
}.

Definition default_ports : list Z :=
  [21; 22; 23; 25; 53; 80; 110; 143; 443; 993; 995; 8080; 8443]%Z.

(** [request.ports or default_ports]: [None] and the empty list are falsy. *)
Definition ports_to_scan (request : PortScanRequest) : list Z :=
  match ports request with
  | Some (p :: r) => p :: r
  | Some [] | None => default_ports
  end.

(** [port in ports] *)
Definition port_in (port : Z) (ps : list Z) : bool := existsb (Z.eqb port) ps.

(** Analyze findings *)
Definition port_concerns (open : list Z) : list string :=
  let security_concerns := [] in
  let security_concerns :=
    if port_in 21 open
    then (security_concerns ++ ["FTP port 21 is open - consider using SFTP instead"])%list
    else security_concerns in
  let security_concerns :=
    if port_in 23 open
    then (security_concerns ++ ["Telnet port 23 is open - unencrypted protocol"])%list
    else security_concerns in
  let security_concerns :=
    if port_in 80 open && negb (port_in 443 open)
    then (security_concerns ++ ["Only HTTP (port 80) available - no HTTPS"])%list
    else security_concerns in
  security_concerns.

Definition scan_ports (w : World) (request : PortScanRequest) : M port_locals pyval :=
  try_except
    (let domain := clean_url (psr_url request) in
     let ports_to_scan := ports_to_scan request in
     modify (fun _ => MkPortLocals [] []) ;;
     for_each ports_to_scan (fun port =>
       try_except
         (perform (EvConnect domain port 3) (create_connection w domain port 3) ;;
          modify (fun l => MkPortLocals (open_ports l ++ [port])%list (closed_ports l)))
         (fun e =>
            if is_os_error e
            then modify (fun l => MkPortLocals (open_ports l) (closed_ports l ++ [port])%list)
            else raise e)) ;;
     l <- get_locals ;;
     let security_concerns := port_concerns (open_ports l) in
     ret (PDict
       [ ("domain", PStr domain);
         ("open_ports", PList (map PInt (open_ports l)));
         ("closed_ports", PList (map PInt (closed_ports l)));
         ("total_scanned", PInt (py_len ports_to_scan));
         ("security_concerns", PList (map PStr security_concerns));
         ("scan_timestamp", PStr (utc_now_isoformat w)) ]))
    (fun e => ret (PDict [("error", PStr ("Port scan failed: " ++ exn_str e))])).

(** *** [analyze_dns] *)

Record DNSRequest : Type := MkDNSRequest {
  dns_domain : string
}.

Definition record_types : list string := ["A"; "AAAA"; "MX"; "TXT"; "NS"; "CNAME"].

(** The double quote that opens the text form of a TXT record. *)
Definition dquote : string := String (ascii_of_nat 34) EmptyString.

Definition spf_prefix : string := dquote ++ "v=spf1".
Definition dmarc_prefix : string := dquote ++ "v=DMARC1".

(** The loop over the TXT records, on the pair [(spf_found, dmarc_found)]. *)
Definition scan_txt_records (txt : list string) : bool * bool :=
  fold_left
    (fun (found : bool * bool) txt_record =>
       let (spf_found, dmarc_found) := found in
       let spf_found :=
         if Py.startswith spf_prefix txt_record then true else spf_found in
       let dmarc_found :=
         if Py.startswith dmarc_prefix txt_record then true else dmarc_found in
       (spf_found, dmarc_found))
    txt (false, false).

(** [dns_info.get(rtype, [])] *)
Definition records_of (rtype : string) (dns_info : list (string * list string))
  : list string :=
  match dict_get rtype dns_info with
  | Some l => l
  | None => []
  end.

Definition dns_issues (spf_found dmarc_found : bool) (a_records : list string)
  : list string :=
  let security_issues := [] in
  let security_issues :=
    if negb spf_found
    then (security_issues
            ++ ["No SPF record found - email spoofing protection missing"])%list
    else security_issues in
  let security_issues :=
    if negb dmarc_found
    then (security_issues
            ++ ["No DMARC record found - email authentication policy missing"])%list
    else security_issues in
  let security_issues :=
    if (5 <? py_len a_records)%Z
    then (security_issues
            ++ ["Many A records found - potential load balancing or CDN setup"])%list
    else security_issues in
  security_issues.

Definition analyze_dns (w : World) (request : DNSRequest)
  : M (list (string * list string)) pyval :=
  try_except
    (let domain := Py.lower (Py.strip (dns_domain request)) in
     let domain := Py.replace "https://" "" (Py.replace "http://" "" domain) in
     let domain :=
       if Py.contains "/" domain then hd EmptyString (Py.split "/" domain)
       else domain in
     modify (fun _ => []) ;;
     for_each record_types (fun record_type =>
       try_except
         (answers <- perform (EvResolve domain record_type)
                             (dns_resolve w domain record_type) ;;
          modify (dict_set record_type answers))
         (fun e =>
            match exn_kind e with
            | DnsNoAnswer => modify (dict_set record_type [])
            | _ => modify (dict_set record_type ["Error resolving"])
            end)) ;;
     dns_info <- get_locals ;;
     let (spf_found, dmarc_found) := scan_txt_records (records_of "TXT" dns_info) in
     let security_issues := dns_issues spf_found dmarc_found (records_of "A" dns_info) in
     ret (PDict
       [ ("domain", PStr domain);
         ("dns_records",
          PDict (map (fun kv => (fst kv, PList (map PStr (snd kv)))) dns_info));
         ("security_issues", PList (map PStr security_issues));
         ("spf_configured", PBool spf_found);
         ("dmarc_configured", PBool dmarc_found);
         ("scan_timestamp", PStr (utc_now_isoformat w)) ]))
    (fun e => ret (PDict [("error", PStr ("DNS analysis failed: " ++ exn_str e))])).

(** *** [check_ssl_certificate] *)

Record SSLRequest : Type := MkSSLRequest {
  ssl_url : string;
  check_chain : bool
}.

Definition pair_val (kv : string * string) : pyval := PList [PStr (fst kv); PStr (snd kv)].

Definition name_val (rdns : list (list (string * string))) : pyval :=
  PList (map (fun rdn => PList (map pair_val rdn)) rdns).

Definition optional_entry (key : string) (items : list pyval) : list (string * pyval) :=
  match items with
  | [] => []
  | _ => [(key, PList items)]
  end.

(** The dict returned by [ssock.getpeercert()] for a validated
    certificate: these keys and no others; the last four only when the
    certificate carries the extension. *)
Definition getpeercert (c : PeerCert) : list (string * pyval) :=
  ([ ("subject", name_val (cert_subject c));
     ("issuer", name_val (cert_issuer c));
     ("version", PInt (cert_version c));
     ("serialNumber", PStr (cert_serialNumber c));
     ("notBefore", PStr (cert_notBefore c));
     ("notAfter", PStr (cert_notAfter c)) ]
   ++ optional_entry "subjectAltName" (map pair_val (cert_subjectAltName c))
   ++ optional_entry "OCSP" (map PStr (cert_OCSP c))
   ++ optional_entry "caIssuers" (map PStr (cert_caIssuers c))
   ++ optional_entry "crlDistributionPoints" (map PStr (cert_crlDistributionPoints c)))%list.

Definition type_error {A : Type} (msg : string) : outcome A :=
  Raise (MkExn OtherException msg).

(** [cert.get(key, [])], about to be iterated *)
Definition get_items (key : string) (cert : list (string * pyval))
  : outcome (list pyval) :=
  match dict_get key cert with
  | None => Ok []
  | Some (PList l) => Ok l
  | Some _ => type_error "object is not iterable"
  end.

(** [x[0]], then taken as a (key, value) item of [dict(...)] *)
Definition first_attribute (x : pyval) : outcome (string * pyval) :=
  match x with
  | PList (PList [PStr k; v] :: _) => Ok (k, v)
  | PList [] => Raise (MkExn OtherException "tuple index out of range")
  | _ => type_error "cannot convert dictionary update sequence element"
  end.

(** [dict(x[0] for x in xs)] *)
Fixpoint dict_of_first_attributes (xs : list pyval) (d : list (string * pyval))
  : outcome (list (string * pyval)) :=
  match xs with
  | [] => Ok d
  | x :: r =>
      match first_attribute x with
      | Ok (k, v) => dict_of_first_attributes r (dict_set k v d)
      | Raise e => Raise e
      end
  end.

(** [cert[key]] handed to [strptime] *)
Definition get_time (w : World) (key : string) (cert : list (string * pyval))
  : outcome Z :=
  match dict_get key cert with
  | None => Raise (MkExn OtherException ("'" ++ key ++ "'"))
  | Some (PStr s) => strptime w s
  | Some _ => type_error "strptime() argument 1 must be str"
  end.

(** One round of the loop over [cert.get('extensions', [])]. *)
Definition san_of_extension (w : World) (san_list : list string) (ext : pyval)
  : list string :=
  if Py.contains "subjectAltName" (py_str w ext) then
    map (fun name => nth 1 (Py.split ":" name) EmptyString)
        (filter (fun name => Py.contains ":" name) (Py.split ", " (py_str w ext)))
  else san_list.

Definition check_ssl_certificate (w : World) (request : SSLRequest) : M unit pyval :=
  try_except
    (let domain := clean_url (ssl_url request) in
     (* Connect and get certificate *)
     peer <- perform (EvTlsHandshake domain 443 10) (tls_peercert w domain 443 10) ;;
     let cert := getpeercert peer in
     (* Parse certificate information *)
     subject_items <- lift (get_items "subject" cert) ;;
     subject <- lift (dict_of_first_attributes subject_items []) ;;
     issuer_items <- lift (get_items "issuer" cert) ;;
     issuer <- lift (dict_of_first_attributes issuer_items []) ;;
     (* Check expiration *)
     not_after <- lift (get_time w "notAfter" cert) ;;
     not_before <- lift (get_time w "notBefore" cert) ;;
     let days_until_expiry := ((not_after - now w) / 86400)%Z in
     (* Basic security checks *)
     let issues := [] in
     let issues :=
       if (days_until_expiry <? 30)%Z
       then (issues ++ [("Certificate expires in "
                           ++ Py.str_of_int days_until_expiry ++ " days")%string])%list
       else issues in
     let issues :=
       match dict_get "CN" subject with
       | None => (issues ++ ["No Common Name in certificate"])%list
       | Some _ => issues
       end in
     (* Check Subject Alternative Names *)
     extensions <- lift (get_items "extensions" cert) ;;
     let san_list := fold_left (san_of_extension w) extensions [] in
     ret (PDict
       [ ("valid", PBool true);
         ("domain", PStr domain);
         ("subject", PDict subject);
         ("issuer", PDict issuer);
         ("not_before", PStr (isoformat w not_before));
         ("not_after", PStr (isoformat w not_after));
         ("days_until_expiry", PInt days_until_expiry);
         ("subject_alt_names", PList (map PStr san_list));
         ("issues", PList (map PStr issues));
         ("chain_valid", PBool (check_chain request)) ]))
    (fun e =>
       match exn_kind e with
       | SocketTimeout =>
           ret (PDict [ ("valid", PBool false); ("error", PStr "Connection timeout");
                        ("domain", PStr (ssl_url request)) ])
       | SocketGaierror =>
           ret (PDict [ ("valid", PBool false); ("error", PStr "Domain not found");
                        ("domain", PStr (ssl_url request)) ])
       | SSLError =>
           ret (PDict [ ("valid", PBool false);
                        ("error", PStr ("SSL error: " ++ exn_str e));
                        ("domain", PStr (ssl_url request)) ])
       | _ =>
           ret (PDict [ ("valid", PBool false);
                        ("error", PStr ("Unexpected error: " ++ exn_str e));
                        ("domain", PStr (ssl_url request)) ])
       end).

End Mcp.

(** ** The aggregator, [src/backend/main.py] *)

Module Backend.

(** The [content] of a message: a string, or a list of content blocks. *)
Inductive Content : Type :=
| Text (text : string)
| Blocks (blocks : list pyval).

(** What [llm.invoke] returns: the [content] attribute when the object has
    one, and its [str]. *)
Record LlmResponse : Type := MkLlmResponse {
  content : option Content;
  response_str : string
}.

Record World : Type := MkWorld {
  (** the setting [MCP_URL] *)
  MCP_URL : string;
  (** [requests.post(url, json=body, timeout=t)] followed by
      [raise_for_status()] and [json()] *)
  requests_post : string -> pyval -> Z -> outcome pyval;
  (** [llm.invoke(prompt)] *)
  llm_invoke : string -> outcome LlmResponse;
  (** [json.dumps(v, indent=2)] *)
  json_dumps : pyval -> string;
  (** [str(e)] for the [ValidationError] that [ScanResponse] raises when
      its [summary], declared [str], is given a list of content blocks *)
  validation_error : list pyval -> string
}.

Record ScanRequest : Type := MkScanRequest {
  url : string;
  prompt : string
}.

(** What [POST /scan] answers: the [ScanResponse] model, or the error
    FastAPI makes of the [HTTPException]. *)
Inductive reply : Type :=
| ScanResponse (results : list (string * pyval)) (summary : string)
| HTTPException (status_code : Z) (detail : string).

(** The three tools that call the probe server. *)

Definition check_ssl_certificate (w : World) (url : string) (check_chain : bool)
  : M unit pyval :=
  try_except
    (let body := PDict [("url", PStr url); ("check_chain", PBool check_chain)] in
     perform (EvPost (MCP_URL w ++ "/check_ssl") body 30)
             (requests_post w (MCP_URL w ++ "/check_ssl") body 30))
    (fun e => ret (PDict [("error", PStr ("SSL check failed: " ++ exn_str e))])).

Definition scan_vulnerabilities (w : World) (url : string) (scan_depth : string)
  : M unit pyval :=
  try_except
    (let body := PDict [("url", PStr url); ("scan_depth", PStr scan_depth)] in
     perform (EvPost (MCP_URL w ++ "/scan_vulnerabilities") body 60)
             (requests_post w (MCP_URL w ++ "/scan_vulnerabilities") body 60))
    (fun e => ret (PDict [("error", PStr ("Vulnerability scan failed: " ++ exn_str e))])).

Definition analyze_security_headers (w : World) (url : string) : M unit pyval :=
  try_except
    (let body := PDict [("url", PStr url)] in
     perform (EvPost (MCP_URL w ++ "/analyze_security_headers") body 30)
             (requests_post w (MCP_URL w ++ "/analyze_security_headers") body 30))
    (fun e => ret (PDict [("error", PStr ("Security headers analysis failed: "
                                           ++ exn_str e))])).

(** Clean URL *)
Definition cleaned_url (raw : string) : string :=
  let url := Py.lower (Py.strip raw) in
  Py.replace "https://" "" (Py.replace "http://" "" url).

Definition summary_prompt (w : World) (url : string)
  (ssl_result vuln_result headers_result : pyval) : string :=
  Py.nl ++ "Analyze these security scan results for the website " ++ url ++ ":" ++ Py.nl
  ++ Py.nl
  ++ "SSL Certificate Check:" ++ Py.nl
  ++ json_dumps w ssl_result ++ Py.nl
  ++ Py.nl
  ++ "Vulnerability Scan:" ++ Py.nl
  ++ json_dumps w vuln_result ++ Py.nl
  ++ Py.nl
  ++ "Security Headers Analysis:" ++ Py.nl
  ++ json_dumps w headers_result ++ Py.nl
  ++ Py.nl
  ++ "Please provide a comprehensive security assessment including:" ++ Py.nl
  ++ "1. Overall security rating (Excellent/Good/Fair/Poor/Critical)" ++ Py.nl
  ++ "2. Key security findings" ++ Py.nl
  ++ "3. Critical vulnerabilities that need immediate attention" ++ Py.nl
  ++ "4. Recommended improvements" ++ Py.nl
  ++ "5. Priority action items" ++ Py.nl
  ++ Py.nl
  ++ "Keep the summary clear and actionable." ++ Py.nl.

Definition scan_website (w : World) (request : ScanRequest) : M unit reply :=
  try_except
    (let url := cleaned_url (url request) in
     (* Execute all security checks *)
     ssl_result <- check_ssl_certificate w url true ;;
     vuln_result <- scan_vulnerabilities w url "light" ;;
     headers_result <- analyze_security_headers w url ;;
     let aggregated_results :=
       [ ("ssl", ssl_result);
         ("vulnerabilities", vuln_result);
         ("security_headers", headers_result) ] in
     (* Generate summary with LLM *)
     let summary_prompt := summary_prompt w url ssl_result vuln_result headers_result in
     summary_response <- perform (EvLlm summary_prompt) (llm_invoke w summary_prompt) ;;
     let summary :=
       match content summary_response with
       | Some c => c
       | None => Text (response_str summary_response)
       end in
     match summary with
     | Text summary => ret (ScanResponse aggregated_results summary)
     | Blocks blocks => raise (MkExn OtherException (validation_error w blocks))
     end)
    (fun e => ret (HTTPException 500 ("Scan failed: " ++ exn_str e))).

End Backend.

(** ** The aggregator's settings and its other endpoint *)

Module Startup.

(** What the module-level code of [src/backend/main.py] reaches. *)
Record World : Type := MkWorld {
  (** [os.getenv(name)], after [load_dotenv()] *)
  getenv : string -> option string;
  (** [ChatGoogleGenerativeAI(model=..., temperature=0, google_api_key=...)]:
      the exception the constructor raises, if any *)
  ChatGoogleGenerativeAI : string -> string -> option exn
}.

(** The client the module keeps in [llm]. *)
Record Llm : Type := MkLlm {
  model : string;
  google_api_key : string
}.

Record Settings : Type := MkSettings {
  llm : Llm;
  MCP_URL : string
}.

(** [a or b] on two results of [os.getenv]: [None] and the empty string are
    falsy. *)
Definition py_or (a b : option string) : option string :=
  match a with
  | Some s => if String.eqb s EmptyString then b else Some s
  | None => b
  end.

Definition api_key (w : World) : option string :=
  py_or (getenv w "GEMINI_API_KEY") (getenv w "GOOGLE_API_KEY").

Definition models : list string := ["gemini-1.5-flash"; "gemini-1.5-pro"; "gemini-pro"].

Definition new_llm (w : World) (model api_key : string) : outcome Llm :=
  match ChatGoogleGenerativeAI w model api_key with
  | None => Ok (MkLlm model api_key)
  | Some e => Raise e
  end.

(** The statements of the module from [api_key = ...] to [MCP_URL = ...]:
    the settings, or the exception that ends the import. *)
Definition load (w : World) : outcome Settings :=
  match api_key w with
  | None =>
      Raise (MkExn OtherException
               "Please set GEMINI_API_KEY or GOOGLE_API_KEY environment variable")
  | Some api_key =>
      if String.eqb api_key EmptyString
      then Raise (MkExn OtherException
                    "Please set GEMINI_API_KEY or GOOGLE_API_KEY environment variable")
      else
        let llm :=
          match new_llm w "gemini-1.5-flash" api_key with
          | Ok llm => Ok llm
          | Raise e =>
              match new_llm w "gemini-1.5-pro" api_key with
              | Ok llm => Ok llm
              | Raise e2 => new_llm w "gemini-pro" api_key
              end
          end in
        match llm with
        | Ok llm =>
            Ok (MkSettings llm
                  (match getenv w "MCP_URL" with
                   | Some v => v
                   | None => "http://localhost:8001"
                   end))
        | Raise e => Raise e
        end
  end.

(** A variable that holds a value that is not empty. *)
Definition is_set (w : World) (name : string) : bool :=
  match getenv w name with
  | Some v => negb (String.eqb v EmptyString)
  | None => false
  end.

End Startup.

Definition hello_prompt : string :=
  "Hello, please respond with 'LLM is working correctly'".

(** The JSON value of a message's content. *)
Definition content_value (c : Backend.Content) : pyval :=
  match c with
  | Backend.Text text => PStr text
  | Backend.Blocks blocks => PList blocks
  end.

(** [GET /test-llm].  [no_content] is the text of the [AttributeError] that
    [response.content] raises on an object without that attribute. *)
Definition test_llm (w : Backend.World) (no_content : string) : M unit pyval :=
  try_except
    (response <- perform (EvLlm hello_prompt) (Backend.llm_invoke w hello_prompt) ;;
     content <- lift (match Backend.content response with
                      | Some c => Ok c
                      | None => Raise (MkExn OtherException no_content)
                      end) ;;
     ret (PDict [("status", PStr "success"); ("response", content_value content)]))
    (fun e => ret (PDict [("status", PStr "error"); ("error", PStr (exn_str e))])).

(** What [POST /scan] takes as the summary of what the text generator
    returned. *)
Definition summary_of (response : Backend.LlmResponse) : Backend.Content :=
  match Backend.content response with
  | Some c => c
  | None => Backend.Text (Backend.response_str response)
  end.

(** What [POST /scan] answers once the generator has returned: the report
    when the summary is a string, and otherwise the error made of the
    [ValidationError] that [ScanResponse] raises. *)
Definition scan_reply (w : Backend.World) (results : list (string * pyval))
  (response : Backend.LlmResponse) : Backend.reply :=
  match summary_of response with
  | Backend.Text summary => Backend.ScanResponse results summary
  | Backend.Blocks blocks =>
      Backend.HTTPException 500 ("Scan failed: " ++ Backend.validation_error w blocks)
  end.

(** ** Binary64 arithmetic

    The scores are Python floats.  This module repeats the score arithmetic
    of the two scoring probes on primitive binary64 floats, operation for
    operation, so that the rational scores used everywhere else can be
    checked against it. *)

Module Binary64.

Import PrimFloat FloatOps SpecFloat.

(** The exact value of a finite float. *)
Definition value (x : float) : option Q :=
  match Prim2SF x with
  | S754_zero _ => Some 0
  | S754_finite s m e =>
      let v := inject_Z (Zpos m) * 2 ^ e in
      Some (if s then - v else v)
  | S754_infinity _ | S754_nan => None
  end.

(** [float(z)], for an integer that a float holds exactly. *)
Definition of_Z (z : Z) : float :=
  if (z <? 0)%Z then PrimFloat.opp (PrimFloat.of_uint63 (Uint63.of_Z (- z)))
  else PrimFloat.of_uint63 (Uint63.of_Z z).

(** The float nearest to [n / 10]: the division is correctly rounded. *)
Definition of_tenths (n : Z) : float := PrimFloat.div (of_Z n) 10%float.

(** The float nearest to a rational that is a multiple of one tenth. *)
Definition nearest (q : Q) : float := of_tenths (round_half_even (q * 10)).

(** [round(x, 1)]: the exact value of [x] is rounded half-to-even at the
    first decimal, and the float nearest to that decimal is returned. *)
Definition round1 (x : float) : float :=
  match value x with
  | Some q => nearest q
  | None => x
  end.

(** [max(a, b)] on floats *)
Definition max (a b : float) : float := if PrimFloat.ltb a b then b else a.

(** *** The arithmetic of [scan_vulnerabilities] *)

Definition deduction_table : list (string * float) :=
  [ ("Missing Security Header", 0.5%float);
    ("Information Disclosure", 0.2%float);
    ("Potential SQL Error", 1.0%float);
    ("Exposed Endpoint", 1.5%float);
    ("Directory Listing", 0.8%float);
    ("Dangerous HTTP Method", 0.5%float) ].

Definition deduction (kind : string) : float :=
  match dict_get kind deduction_table with
  | Some d => d
  | None => 0%float
  end.

(** The score after the deductions of the findings of these kinds, in the
    order they were found, floored at 0.0. *)
Definition floored_score (kinds : list string) : float :=
  max 0.0%float
      (fold_left (fun score kind => PrimFloat.sub score (deduction kind)) kinds 10.0%float).

Definition security_score (kinds : list string) : float :=
  round1 (floored_score kinds).

Definition risk_level (kinds : list string) : string :=
  let score := floored_score kinds in
  if PrimFloat.leb 8.0%float score then "low"
  else if PrimFloat.leb 6.0%float score then "medium"
  else if PrimFloat.leb 4.0%float score then "high"
  else "critical".

(** *** The arithmetic of [analyze_security_headers] *)

Inductive num : Type :=
| Int (z : Z)
| Float (x : float).

Definition to_float (n : num) : float :=
  match n with
  | Int z => of_Z z
  | Float x => x
  end.

Definition num_ltb (a b : num) : bool := PrimFloat.ltb (to_float a) (to_float b).

Definition num_geb (a b : num) : bool := PrimFloat.leb (to_float b) (to_float a).

Definition builtin_min (a b : num) : num := if num_ltb b a then b else a.

Definition builtin_max (a b : num) : num := if num_ltb a b then b else a.

Definition builtin_round1 (n : num) : num :=
  match n with
  | Int z => Int z
  | Float x => Float (round1 x)
  end.

Definition header_score (present : list (string * (string * Mcp.header_info))) : num :=
  let total_headers := py_len Mcp.security_headers_check in
  let present_count := py_len present in
  let score :=
    PrimFloat.mul (PrimFloat.div (of_Z present_count) (of_Z total_headers)) 10%float in
  let high_present :=
    filter (fun h => Py.in_list h Mcp.high_importance) (dict_keys present) in
  let score :=
    if (py_len high_present =? py_len Mcp.high_importance)%Z
    then PrimFloat.add score 1%float
    else if (py_len high_present =? 0)%Z then PrimFloat.sub score 2%float
    else score in
  builtin_max (Int 0) (builtin_min (Int 10) (Float score)).

Definition grade_of (score : num) : string :=
  if num_geb score (Int 9) then "A"
  else if num_geb score (Int 7) then "B"
  else if num_geb score (Int 5) then "C"
  else if num_geb score (Int 3) then "D"
  else "F".

(** A float number and a rational number are the same published value. *)
Definition same_number (n : num) (m : pynum) : Prop :=
  match n, m with
  | Int z, NInt z' => z = z'
  | Float x, NFloat q => x = nearest q
  | _, _ => False
  end.

End Binary64.

(** ** Notions used in the statements *)

(** The entry [k] of the dict a function returned. *)
Definition field {L : Type} (k : string) (r : outcome pyval * frame L) : option pyval :=
  match fst r with
  | Ok (PDict d) => dict_get k d
  | _ => None
  end.

(** The list published under [k]; empty when there is none. *)
Definition list_field {L : Type} (k : string) (r : outcome pyval * frame L)
  : list pyval :=
  match field k r with
  | Some (PList l) => l
  | _ => []
  end.

(** The number published under [k]. *)
Definition number_field {L : Type} (k : string) (r : outcome pyval * frame L)
  : option Q :=
  match field k r with
  | Some v => num_value v
  | None => None
  end.

(** The calls a run made. *)
Definition calls {L A : Type} (r : outcome A * frame L) : list io_event :=
  trace (snd r).

(** [subseq xs ys]: the elements of [xs] occur in [ys], in the same order. *)
Inductive subseq {A : Type} : list A -> list A -> Prop :=
| subseq_nil : forall ys, subseq [] ys
| subseq_keep : forall x xs ys, subseq xs ys -> subseq (x :: xs) (x :: ys)
| subseq_skip : forall y xs ys, subseq xs ys -> subseq xs (y :: ys).

Definition clamp (lo hi x : Q) : Q := Qmax lo (Qmin hi x).

(** *** Targets *)

(** Every character of the string satisfies [p]. *)
Fixpoint all_chars (p : ascii -> bool) (s : string) : bool :=
  match s with
  | EmptyString => true
  | String c r => p c && all_chars p r
  end.

Definition not_upper (c : ascii) : bool := negb (Py.is_upper_char c).

Definition not_slash (c : ascii) : bool := negb (Ascii.eqb c "/"%char).

(** *** Vulnerability probe *)

(** The deduction the design gives each kind of finding. *)
Definition deduction_table : list (string * Q) :=
  [ ("Missing Security Header", 0.5);
    ("Information Disclosure", 0.2);
    ("Potential SQL Error", 1.0);
    ("Exposed Endpoint", 1.5);
    ("Directory Listing", 0.8);
    ("Dangerous HTTP Method", 0.5) ].

Definition deduction_of (finding : pyval) : Q :=
  match finding with
  | PDict d =>
      match dict_get "type" d with
      | Some (PStr kind) =>
          match dict_get kind deduction_table with
          | Some q => q
          | None => 0
          end
      | _ => 0
      end
  | _ => 0
  end.

(** The kind of a finding: its [type] entry. *)
Definition finding_kind (finding : pyval) : string :=
  match finding with
  | PDict d =>
      match dict_get "type" d with
      | Some (PStr kind) => kind
      | _ => EmptyString
      end
  | _ => EmptyString
  end.

Definition kind_deduction (kind : string) : Q :=
  match dict_get kind deduction_table with
  | Some q => q
  | None => 0
  end.

(** The kinds of the findings of a scan come in this order: [m] missing
    headers, then [s] disclosures, and so on. *)
Definition kinds_shape (m s q p d t : nat) : list string :=
  (repeat "Missing Security Header" m
   ++ repeat "Information Disclosure" s
   ++ repeat "Potential SQL Error" q
   ++ repeat "Exposed Endpoint" p
   ++ repeat "Directory Listing" d
   ++ repeat "Dangerous HTTP Method" t)%list.

(** The sum of the deductions of a list of findings. *)
Definition total_deductions (findings : list pyval) : Q :=
  fold_right (fun f acc => deduction_of f + acc) 0 findings.

(** Record a finding together with its deduction. *)
Definition record_finding (l : Mcp.vuln_locals) (f : pyval) : Mcp.vuln_locals :=
  Mcp.MkVulnLocals (Mcp.vulnerabilities l ++ [f])%list (Mcp.score l - deduction_of f).

Definition record_findings (fs : list pyval) (l : Mcp.vuln_locals) : Mcp.vuln_locals :=
  fold_left record_finding fs l.

(** What each check contributes, read off the responses. *)

Definition missing_header_findings (hs : list (string * string)) : list pyval :=
  flat_map
    (fun hd =>
       if negb (Py.in_list (fst hd) (map Py.lower (map fst hs)))
       then [Mcp.missing_header_finding (fst hd) (snd hd)] else [])
    Mcp.security_headers.

Definition disclosure_findings (hs : list (string * string)) : list pyval :=
  match headers_get "server" hs with
  | Some server_info =>
      if existsb (fun tech => Py.contains tech (Py.lower server_info))
                 ["apache"; "nginx"; "iis"]
      then [Mcp.information_disclosure_finding server_info] else []
  | None => []
  end.

Definition content_findings (content : string) : list pyval :=
  if Py.contains "sql" content && Py.contains "error" content
  then [Mcp.sql_error_finding] else [].

Definition baseline_findings (resp : HttpResponse) : list pyval :=
  (missing_header_findings (headers resp)
   ++ disclosure_findings (headers resp)
   ++ content_findings (Py.lower (text resp)))%list.

Definition path_findings (w : Mcp.World) (url path : string) : list pyval :=
  match Mcp.requests_get w (url ++ path) 5 with
  | Ok r =>
      if (status_code r =? 200)%Z
      then [Mcp.exposed_endpoint_finding path (status_code r)] else []
  | Raise _ => []
  end.

Definition directory_findings (w : Mcp.World) (url : string) : list pyval :=
  match Mcp.requests_get w (Py.rstrip_char "/" url ++ "/") 5 with
  | Ok r =>
      if Py.contains "index of" (Py.lower (text r))
      then [Mcp.directory_listing_finding] else []
  | Raise _ => []
  end.

Definition method_findings (w : Mcp.World) (url : string) : list pyval :=
  match Mcp.requests_options w url 5 with
  | Ok r =>
      match headers_get "allow" (headers r) with
      | Some allowed_methods =>
          flat_map
            (fun method =>
               if Py.contains method (Py.upper allowed_methods)
               then [Mcp.dangerous_method_finding method] else [])
            Mcp.dangerous_methods
      | None => []
      end
  | Raise _ => []
  end.

Definition medium_findings (w : Mcp.World) (url : string) : list pyval :=
  (flat_map (path_findings w url) Mcp.vulnerable_paths ++ directory_findings w url)%list.

(** The supplementary findings of a depth. *)
Definition supplementary_findings (w : Mcp.World) (url depth : string) : list pyval :=
  ((if Py.in_list depth ["medium"; "deep"] then medium_findings w url else [])
   ++ (if String.eqb depth "deep" then method_findings w url else []))%list.

(** The supplementary requests of a depth, in the order they are sent. *)
Definition supplementary_calls (url depth : string) : list io_event :=
  ((if Py.in_list depth ["medium"; "deep"]
    then map (fun path => EvGet (url ++ path) 5) Mcp.vulnerable_paths
         ++ [EvGet (Py.rstrip_char "/" url ++ "/") 5]
    else [])
   ++ (if String.eqb depth "deep" then [EvOptions url 5] else []))%list.

(** A frame after more calls, and after more findings. *)
Definition add_calls {L : Type} (evs : list io_event) (s : frame L) : frame L :=
  MkFrame (trace s ++ evs)%list (locals s).

Definition add_findings (fs : list pyval) (s : frame Mcp.vuln_locals)
  : frame Mcp.vuln_locals :=
  MkFrame (trace s) (record_findings fs (locals s)).

(** The locals every run starts from; the probe overwrites them first. *)
Definition no_locals : Mcp.vuln_locals := Mcp.MkVulnLocals [] 0.

(** A response that triggers no supplementary finding. *)
Definition quiet (r : HttpResponse) : Prop :=
  status_code r <> 200%Z
  /\ Py.contains "index of" (Py.lower (text r)) = false
  /\ headers_get "allow" (headers r) = None.

(** Two answers to one supplementary request: the same, or an exception
    on one side and a quiet response on the other. *)
Definition same_or_swallowed (o o' : outcome HttpResponse) : Prop :=
  o = o' \/ exists e r, o = Raise e /\ o' = Ok r /\ quiet r.

(** *** Header probe *)

(** The names of the catalog, in its order. *)
Definition catalog : list string := dict_keys Mcp.security_headers_check.

(** Found by a case-insensitive lookup in the response. *)
Definition header_found (hs : list (string * string)) (name : string) : bool :=
  headers_contains name hs.

(** Found by a case-insensitive lookup, with a value that is not empty. *)
Definition header_supplied (hs : list (string * string)) (name : string) : bool :=
  Mcp.truthy (headers_get name hs).

Definition present_count (present : string -> bool) : Z :=
  py_len (filter present catalog).

(** +1 when every high-importance header is present, -2 when none is. *)
Definition adjustment (present : string -> bool) : Q :=
  if forallb present Mcp.high_importance then 1
  else if negb (existsb present Mcp.high_importance) then -2
  else 0.

(** [clamp((present_count / 7) * 10 + adjustment, 0, 10)] *)
Definition score_formula (present : string -> bool) : Q :=
  clamp 0 10 ((inject_Z (present_count present) / 7) * 10 + adjustment present).

(** An entry of [present_headers] of which only the key matters. *)
Definition blank (k : string) : string * (string * Mcp.header_info) :=
  (k, (EmptyString, Mcp.MkHeaderInfo EmptyString EmptyString EmptyString)).

(** *** DNS probe *)

(** What the probe records for one record type: the answers, nothing when
    there is no answer, the sentinel on any other failure. *)
Definition resolved (w : Mcp.World) (domain rtype : string) : list string :=
  match Mcp.dns_resolve w domain rtype with
  | Ok answers => answers
  | Raise e =>
      match exn_kind e with
      | DnsNoAnswer => []
      | _ => ["Error resolving"]
      end
  end.

Definition missing_spf : string :=
  "No SPF record found - email spoofing protection missing".

Definition missing_dmarc : string :=
  "No DMARC record found - email authentication policy missing".

(** *** Port probe *)

(** The connection to the port succeeds. *)
Definition port_is_open (w : Mcp.World) (domain : string) (port : Z) : bool :=
  match Mcp.create_connection w domain port 3 with
  | Ok _ => true
  | Raise _ => false
  end.




(** *** Aggregator *)

(** What a tool hands back: the probe server's JSON, or the tool's own
    error payload when the call raised. *)
Definition tool_result (w : Backend.World) (endpoint : string) (body : pyval)
  (timeout : Z) (label : string) : pyval :=
  match Backend.requests_post w (Backend.MCP_URL w ++ endpoint) body timeout with
  | Ok v => v
  | Raise e => PDict [("error", PStr (label ++ exn_str e))]
  end.

(** The endpoints of the probe server, one per probe. *)
Definition probe_endpoints : list string :=
  ["/check_ssl"; "/scan_vulnerabilities"; "/analyze_security_headers";
   "/scan_ports"; "/analyze_dns"].

(** The run posted to [endpoint] of the probe server. *)
Definition invokes {A : Type} (w : Backend.World) (r : outcome A * frame unit)
  (endpoint : string) : Prop :=
  exists body timeout,
    In (EvPost (Backend.MCP_URL w ++ endpoint) body timeout) (calls r).

(** The report of a run that answered with one. *)
Definition report_of (r : outcome Backend.reply * frame unit)
  : option (list (string * pyval)) :=
  match fst r with
  | Ok (Backend.ScanResponse results _) => Some results
  | _ => None
  end.

(** *** Hosts *)

Definition not_colon (c : ascii) : bool := negb (Ascii.eqb c ":"%char).

Definition not_space (c : ascii) : bool := negb (Py.is_space c).

(** A character of a bare host name: no slash, no colon, no white space. *)
Definition host_char (c : ascii) : bool := not_slash c && not_colon c && not_space c.

(** *** What the probes report *)

(** The kinds of finding the baseline checks can report. *)
Definition baseline_kinds : list string :=
  ["Missing Security Header"; "Information Disclosure"; "Potential SQL Error"].

(** The published score of a successful scan; 0 when there is none. *)
Definition published_score {L : Type} (r : outcome pyval * frame L) : Q :=
  match number_field "security_score" r with
  | Some q => q
  | None => 0
  end.

(** The text under [k] of an entry of a published list; empty when there
    is none. *)
Definition entry_text (k : string) (entry : pyval) : string :=
  match entry with
  | PDict d =>
      match dict_get k d with
      | Some (PStr s) => s
      | _ => EmptyString
      end
  | _ => EmptyString
  end.

Definition hsts_recommendation : string :=
  "Implement HTTP Strict Transport Security (HSTS)".

Definition csp_recommendation : string :=
  "Implement Content Security Policy (CSP)".

(** The value a response gives a header; empty when it has none. *)
Definition header_value (hs : list (string * string)) (name : string) : string :=
  match headers_get name hs with
  | Some v => v
  | None => EmptyString
  end.

Definition many_a_records : string :=
  "Many A records found - potential load balancing or CDN setup".

(** The attribute names that [dict(x[0] for x in name)] keeps of a
    distinguished name: the first one of each relative name. *)
Definition first_attribute_names (rdns : list (list (string * string))) : list string :=
  flat_map (fun rdn => match rdn with [] => [] | (k, _) :: _ => [k] end) rdns.

Definition no_common_name : string := "No Common Name in certificate".

Definition expiry_notice (days_until_expiry : Z) : string :=
  "Certificate expires in " ++ Py.str_of_int days_until_expiry ++ " days".

(** The answer of the TLS probe to a failure. *)
Definition tls_failure (request : Mcp.SSLRequest) (message : string) : pyval :=
  PDict [ ("valid", PBool false); ("error", PStr message);
          ("domain", PStr (Mcp.ssl_url request)) ].

(** ** A sample site *)

Module Demo.

Definition refused : exn := MkExn RequestException "connection refused".

Definition home : HttpResponse :=
  MkResponse 200
    [ ("Server", "nginx/1.18.0");
      ("X-Frame-Options", "DENY");
      ("Strict-Transport-Security", "max-age=63072000") ]
    "<html><body>You have an error in your SQL syntax</body></html>".

Definition cert : Mcp.PeerCert :=
  Mcp.MkPeerCert
    [[("countryName", "US")]; [("commonName", "example.com")]]
    [[("organizationName", "Example CA")]]
    3 "0A1B2C" "Jan  1 00:00:00 2024 GMT" "Jan  1 00:00:00 2025 GMT"
    [("DNS", "example.com"); ("DNS", "www.example.com")]
    [] [] [].

(** The site answers on its home page, on [/admin] and with a directory
    listing on [/]; every other path refuses the connection.  Ports 80 and
    443 are open, the zone publishes an SPF record and no DMARC record. *)
Definition world : Mcp.World :=
  Mcp.MkWorld
    (fun url _ =>
       if String.eqb url "https://example.com" then Ok home
       else if String.eqb url "https://example.com/admin"
       then Ok (MkResponse 200 [] "admin console")
       else if String.eqb url "https://example.com/"
       then Ok (MkResponse 200 [] "<title>Index of /</title>")
       else Raise refused)
    (fun _ _ => Ok (MkResponse 200 [("Allow", "GET, HEAD, put, Trace")] ""))
    (fun _ port _ =>
       if Mcp.port_in port [80; 443]%Z then Ok tt
       else Raise (MkExn OSError "Connection refused"))
    (fun _ _ _ => Ok cert)
    (fun _ rtype =>
       if String.eqb rtype "TXT"
       then Ok [Mcp.dquote ++ "v=spf1 include:_spf.example.com ~all" ++ Mcp.dquote]
       else if String.eqb rtype "A" then Ok ["93.184.216.34"]
       else Raise (MkExn DnsNoAnswer "The DNS response does not contain an answer"))
    "2024-06-01T12:00:00+00:00"
    1717243200
    (fun s =>
       if String.eqb s "Jan  1 00:00:00 2024 GMT" then Ok 1704067200%Z
       else if String.eqb s "Jan  1 00:00:00 2025 GMT" then Ok 1735689600%Z
       else Raise (MkExn OtherException "time data does not match format"))
    (fun t =>
       if (t =? 1704067200)%Z then "2024-01-01T00:00:00" else "2025-01-01T00:00:00")
    (fun _ => "").

(** The same site, except that the paths that refused the connection now
    answer 404. *)
Definition world_404 : Mcp.World :=
  Mcp.MkWorld
    (fun url _ =>
       if String.eqb url "https://example.com" then Ok home
       else if String.eqb url "https://example.com/admin"
       then Ok (MkResponse 200 [] "admin console")
       else if String.eqb url "https://example.com/"
       then Ok (MkResponse 200 [] "<title>Index of /</title>")
       else Ok (MkResponse 404 [] "not found"))
    (Mcp.requests_options world)
    (Mcp.create_connection world)
    (Mcp.tls_peercert world)
    (Mcp.dns_resolve world)
    (Mcp.utc_now_isoformat world)
    (Mcp.now world)
    (Mcp.strptime world)
    (Mcp.isoformat world)
    (Mcp.py_str world).

(** A host that refuses every connection. *)
Definition down : Mcp.VulnerabilityRequest :=
  Mcp.MkVulnerabilityRequest "down.example.com" "deep".

(** A depth outside the three tiers. *)
Definition extreme : Mcp.VulnerabilityRequest :=
  Mcp.MkVulnerabilityRequest "example.com" "extreme".

(** The site of [world], answering every GET with [resp]. *)
Definition serving (resp : HttpResponse) : Mcp.World :=
  Mcp.MkWorld
    (fun _ _ => Ok resp)
    (Mcp.requests_options world)
    (Mcp.create_connection world)
    (Mcp.tls_peercert world)
    (Mcp.dns_resolve world)
    (Mcp.utc_now_isoformat world)
    (Mcp.now world)
    (Mcp.strptime world)
    (Mcp.isoformat world)
    (Mcp.py_str world).

(** Two catalog headers, one of them of high importance. *)
Definition two_headers : HttpResponse :=
  MkResponse 200
    [ ("Strict-Transport-Security", "max-age=31536000");
      ("X-Frame-Options", "DENY") ]
    "ok".

(** Every catalog header, the content security policy with an empty value. *)
Definition empty_csp : HttpResponse :=
  MkResponse 200
    [ ("Strict-Transport-Security", "max-age=31536000");
      ("Content-Security-Policy", "");
      ("X-Frame-Options", "DENY");
      ("X-Content-Type-Options", "nosniff");
      ("X-XSS-Protection", "1; mode=block");
      ("Referrer-Policy", "no-referrer");
      ("Permissions-Policy", "geolocation=()") ]
    "ok".

Definition headers_request : Mcp.SecurityHeadersRequest :=
  Mcp.MkSecurityHeadersRequest "example.com".

Definition dns_request : Mcp.DNSRequest := Mcp.MkDNSRequest "Example.com".

Definition ports_request : Mcp.PortScanRequest :=
  Mcp.MkPortScanRequest "https://Example.com/login" (Some [21; 23; 80; 443]%Z).

Definition ssl_request : Mcp.SSLRequest := Mcp.MkSSLRequest "https://Example.com/" true.

Definition light : Mcp.VulnerabilityRequest :=
  Mcp.MkVulnerabilityRequest "example.com" "light".

Definition medium : Mcp.VulnerabilityRequest :=
  Mcp.MkVulnerabilityRequest "example.com" "medium".

Definition deep : Mcp.VulnerabilityRequest :=
  Mcp.MkVulnerabilityRequest "example.com" "deep".

(** A probe server whose vulnerability endpoint is down, and a text
    generator that answers. *)
Definition backend : Backend.World :=
  Backend.MkWorld
    "http://localhost:8001"
    (fun url _ _ =>
       if String.eqb url "http://localhost:8001/check_ssl"
       then Ok (PDict [("valid", PBool true); ("domain", PStr "example.com")])
       else if String.eqb url "http://localhost:8001/analyze_security_headers"
       then Ok (PDict [("security_score", PFloat 2.9); ("grade", PStr "F")])
       else Raise (MkExn RequestException "500 Server Error"))
    (fun _ => Ok (Backend.MkLlmResponse
                    (Some (Backend.Text "Overall security rating: Poor")) "AIMessage"))
    (fun _ => "{}")
    (fun _ => "1 validation error for ScanResponse").

Definition scan_request : Backend.ScanRequest :=
  Backend.MkScanRequest "  HTTPS://Example.com/Admin " "Check for security breaches".

End Demo.

(** More sample sites. *)
Module Cases.

(** A port list with a port out of range between two ports in range. *)
Definition ports_request : Mcp.PortScanRequest :=
  Mcp.MkPortScanRequest "example.com" (Some [80; 70000; 443]%Z).

(** The site of [Demo.world]; a connection to a port above 65535 raises an
    exception that is not a socket error. *)
Definition strict_ports : Mcp.World :=
  Mcp.MkWorld
    (Mcp.requests_get Demo.world)
    (Mcp.requests_options Demo.world)
    (fun host port timeout =>
       if (65535 <? port)%Z
       then Raise (MkExn OtherException "port must be 0-65535.")
       else Mcp.create_connection Demo.world host port timeout)
    (Mcp.tls_peercert Demo.world)
    (Mcp.dns_resolve Demo.world)
    (Mcp.utc_now_isoformat Demo.world)
    (Mcp.now Demo.world)
    (Mcp.strptime Demo.world)
    (Mcp.isoformat Demo.world)
    (Mcp.py_str Demo.world).

(** The site of [Demo.world] behind a resolver that times out. *)
Definition no_resolver : Mcp.World :=
  Mcp.MkWorld
    (Mcp.requests_get Demo.world)
    (Mcp.requests_options Demo.world)
    (Mcp.create_connection Demo.world)
    (Mcp.tls_peercert Demo.world)
    (fun _ _ => Raise (MkExn OtherException "The DNS operation timed out."))
    (Mcp.utc_now_isoformat Demo.world)
    (Mcp.now Demo.world)
    (Mcp.strptime Demo.world)
    (Mcp.isoformat Demo.world)
    (Mcp.py_str Demo.world).

(** What [requests.get] raises for a host name with an empty label: an
    error of the URL parser below [requests], which is not a
    [RequestException]. *)
Definition location_parse_error : exn :=
  MkExn OtherException "Failed to parse: 'a..b', label empty or too long".

(** The site of [Demo.world]; a URL whose host has an empty label cannot
    be requested. *)
Definition unparsable : Mcp.World :=
  Mcp.MkWorld
    (fun url timeout =>
       if Py.contains ".." url then Raise location_parse_error
       else Mcp.requests_get Demo.world url timeout)
    (Mcp.requests_options Demo.world)
    (Mcp.create_connection Demo.world)
    (Mcp.tls_peercert Demo.world)
    (Mcp.dns_resolve Demo.world)
    (Mcp.utc_now_isoformat Demo.world)
    (Mcp.now Demo.world)
    (Mcp.strptime Demo.world)
    (Mcp.isoformat Demo.world)
    (Mcp.py_str Demo.world).

(** A text generator whose answer holds a list of content blocks. *)
Definition blocks_backend : Backend.World :=
  Backend.MkWorld
    (Backend.MCP_URL Demo.backend)
    (Backend.requests_post Demo.backend)
    (fun _ => Ok (Backend.MkLlmResponse
                    (Some (Backend.Blocks [PStr "Overall security rating: Poor"]))
                    "AIMessage"))
    (Backend.json_dumps Demo.backend)
    (Backend.validation_error Demo.backend).

(** The no-break space U+00A0, and the letter E with an acute accent in
    upper case, U+00C9, and in lower case, U+00E9. *)
Definition nbsp : string := String (ascii_of_nat 160) EmptyString.
Definition E_acute : string := String (ascii_of_nat 201) EmptyString.
Definition e_acute : string := String (ascii_of_nat 233) EmptyString.

(** An empty [GEMINI_API_KEY] beside a [GOOGLE_API_KEY]; the first model
    is refused. *)
Definition startup : Startup.World :=
  Startup.MkWorld
    (fun name =>
       if String.eqb name "GEMINI_API_KEY" then Some EmptyString
       else if String.eqb name "GOOGLE_API_KEY" then Some "g-key"
       else None)
    (fun model _ =>
       if String.eqb model "gemini-1.5-flash"
       then Some (MkExn OtherException "model not found")
       else None).

End Cases.

(* ===================================================================== *)
(** * Part II: properties                                                  *)
(* ===================================================================== *)

Local Open Scope Q_scope.

(** ** The string primitives on sample values *)

Example lower_mixed : Py.lower "HTTP://Example.COM/a_Z[`{" = "http://example.com/a_z[`{".
Proof. reflexivity. Qed.
Example strip_ws : Py.strip "  a b  " = "a b". Proof. reflexivity. Qed.
Example replace_twice : Py.replace "ab" "" "xababyabz-a-b" = "xyz-a-b". Proof. reflexivity. Qed.
Example replace_overlap : Py.replace "aa" "b" "aaaaa" = "bba". Proof. reflexivity. Qed.
Example split_slash : Py.split "/" "a/b//c" = ["a"; "b"; ""; "c"]. Proof. reflexivity. Qed.
Example split_multi : Py.split ", " "DNS:a, DNS:b,c" = ["DNS:a"; "DNS:b,c"]. Proof. reflexivity. Qed.
Example rstrip_slashes : Py.rstrip_char "/" "https://x//" = "https://x". Proof. reflexivity. Qed.
Example contains_mid : Py.contains "sql" "mysql error" = true. Proof. reflexivity. Qed.
Example str_neg : Py.str_of_int (-12) = "-12". Proof. reflexivity. Qed.
Example str_zero : Py.str_of_int 0 = "0". Proof. reflexivity. Qed.

(** ** The effect monad *)

Lemma for_each_steps {L X : Type} (body : X -> M L unit)
  (step : X -> frame L -> frame L) (xs : list X) :
  (forall x s, body x s = (Ok tt, step x s)) ->
  forall s, for_each xs body s = (Ok tt, fold_left (fun s x => step x s) xs s).
Proof.
  intros Hbody. induction xs as [|x xs IH]; intros s; simpl.
  - reflexivity.
  - unfold bind. rewrite Hbody. apply IH.
Qed.

(** ** The vulnerability probe, block by block *)

Lemma record_findings_app fs gs l :
  record_findings (fs ++ gs) l = record_findings gs (record_findings fs l).
Proof. unfold record_findings. apply fold_left_app. Qed.

Lemma add_findings_app fs gs s :
  add_findings (fs ++ gs) s = add_findings gs (add_findings fs s).
Proof. unfold add_findings. simpl. now rewrite record_findings_app. Qed.

Lemma add_findings_nil s : add_findings [] s = s.
Proof. now destruct s. Qed.

Lemma add_calls_nil {L : Type} (s : frame L) : add_calls [] s = s.
Proof. destruct s. unfold add_calls. simpl. now rewrite app_nil_r. Qed.

Lemma check_missing_headers_run hs s :
  Mcp.check_missing_headers hs s = (Ok tt, add_findings (missing_header_findings hs) s).
Proof.
  unfold Mcp.check_missing_headers, missing_header_findings.
  destruct s as [tr l]. unfold add_findings, record_findings. simpl.
  unfold bind, Mcp.append_vulnerability, Mcp.deduct, modify, ret. simpl.
  repeat match goal with
  | |- context [Py.in_list ?h ?l] => destruct (Py.in_list h l); simpl
  end; reflexivity.
Qed.

Ltac unfold_monad :=
  unfold bind, try_except, perform, ret, raise, modify, get_locals, lift,
    Mcp.append_vulnerability, Mcp.deduct in *; simpl in *.

Lemma check_information_disclosure_run hs s :
  Mcp.check_information_disclosure hs s = (Ok tt, add_findings (disclosure_findings hs) s).
Proof.
  unfold Mcp.check_information_disclosure, disclosure_findings.
  destruct s as [tr l]. unfold add_findings, record_findings.
  destruct (headers_get "server" hs) as [server_info|]; [|reflexivity].
  destruct (existsb _ _); reflexivity.
Qed.

Lemma check_content_run content s :
  Mcp.check_content content s = (Ok tt, add_findings (content_findings content) s).
Proof.
  unfold Mcp.check_content, content_findings.
  destruct s as [tr l]. unfold add_findings, record_findings.
  destruct (_ && _); reflexivity.
Qed.

Lemma check_vulnerable_paths_run w url s :
  Mcp.check_vulnerable_paths w url s =
  (Ok tt,
   add_findings (flat_map (path_findings w url) Mcp.vulnerable_paths)
     (add_calls (map (fun path => EvGet (url ++ path) 5) Mcp.vulnerable_paths) s)).
Proof.
  unfold Mcp.check_vulnerable_paths.
  rewrite for_each_steps with
    (step := fun path s =>
       add_findings (path_findings w url path) (add_calls [EvGet (url ++ path) 5] s)).
  - destruct s as [tr l]. unfold add_findings, add_calls, record_findings. simpl.
    repeat rewrite <- app_assoc. simpl.
    repeat rewrite fold_left_app. reflexivity.
  - intros path [tr l]. unfold path_findings, add_findings, add_calls, record_findings.
    unfold_monad.
    destruct (Mcp.requests_get w (url ++ path) 5) as [r|e]; simpl; [|reflexivity].
    destruct (status_code r =? 200)%Z; reflexivity.
Qed.

Lemma check_directory_listing_run w url s :
  Mcp.check_directory_listing w url s =
  (Ok tt,
   add_findings (directory_findings w url)
     (add_calls [EvGet (Py.rstrip_char "/" url ++ "/") 5] s)).
Proof.
  unfold Mcp.check_directory_listing, directory_findings.
  destruct s as [tr l]. unfold add_findings, add_calls, record_findings.
  unfold_monad.
  destruct (Mcp.requests_get w _ 5) as [r|e]; simpl; [|reflexivity].
  destruct (Py.contains _ _); reflexivity.
Qed.

Lemma check_http_methods_run w url s :
  Mcp.check_http_methods w url s =
  (Ok tt, add_findings (method_findings w url) (add_calls [EvOptions url 5] s)).
Proof.
  unfold Mcp.check_http_methods, method_findings.
  destruct s as [tr l]. unfold add_findings, add_calls, record_findings.
  unfold_monad.
  destruct (Mcp.requests_options w url 5) as [r|e]; simpl; [|reflexivity].
  destruct (headers_get "allow" (headers r)) as [allowed|]; simpl; [|reflexivity].
  repeat match goal with
  | |- context [Py.contains ?m (Py.upper allowed)] =>
      destruct (Py.contains m (Py.upper allowed)); simpl
  end; reflexivity.
Qed.

Lemma add_findings_calls fs evs (s : frame Mcp.vuln_locals) :
  add_findings fs (add_calls evs s) = add_calls evs (add_findings fs s).
Proof. reflexivity. Qed.

Lemma add_calls_app {L : Type} evs evs' (s : frame L) :
  add_calls evs' (add_calls evs s) = add_calls (evs ++ evs') s.
Proof. unfold add_calls. simpl. now rewrite app_assoc. Qed.

Ltac frame_eq :=
  unfold ret, add_findings, add_calls; cbn [trace locals];
  repeat rewrite record_findings_app;
  repeat rewrite <- app_assoc; repeat rewrite app_nil_r;
  try reflexivity.

Lemma bind_run {L A B : Type} (m : M L A) (k : A -> M L B) s a s' :
  m s = (Ok a, s') -> bind m k s = k a s'.
Proof. intros H. unfold bind. now rewrite H. Qed.

Lemma medium_checks_run w url s :
  bind (Mcp.check_vulnerable_paths w url) (fun _ => Mcp.check_directory_listing w url) s =
  (Ok tt,
   add_findings (medium_findings w url)
     (add_calls (map (fun path => EvGet (url ++ path) 5) Mcp.vulnerable_paths
                 ++ [EvGet (Py.rstrip_char "/" url ++ "/") 5]) s)).
Proof.
  erewrite bind_run by apply check_vulnerable_paths_run.
  rewrite check_directory_listing_run.
  unfold medium_findings. frame_eq.
Qed.

(** The three baseline checks and the supplementary checks of a depth. *)
Lemma checks_run w url depth resp s :
  bind (Mcp.check_missing_headers (headers resp)) (fun _ =>
  bind (Mcp.check_information_disclosure (headers resp)) (fun _ =>
  bind (Mcp.check_content (Py.lower (text resp))) (fun _ =>
  bind (if Py.in_list depth ["medium"; "deep"]
        then bind (Mcp.check_vulnerable_paths w url)
                  (fun _ => Mcp.check_directory_listing w url)
        else ret tt) (fun _ =>
  bind (if String.eqb depth "deep" then Mcp.check_http_methods w url else ret tt)
       (fun _ => ret (@None pyval)))))) s =
  (Ok None,
   add_findings (baseline_findings resp ++ supplementary_findings w url depth)
     (add_calls (supplementary_calls url depth) s)).
Proof.
  erewrite bind_run by apply check_missing_headers_run.
  erewrite bind_run by apply check_information_disclosure_run.
  erewrite bind_run by apply check_content_run.
  repeat rewrite <- add_findings_app. fold (baseline_findings resp).
  unfold supplementary_findings, supplementary_calls.
  destruct (Py.in_list depth ["medium"; "deep"]); destruct (String.eqb depth "deep").
  - erewrite bind_run by apply medium_checks_run.
    erewrite bind_run by apply check_http_methods_run.
    frame_eq.
  - erewrite bind_run by apply medium_checks_run.
    erewrite bind_run by reflexivity.
    frame_eq.
  - erewrite bind_run by reflexivity.
    erewrite bind_run by apply check_http_methods_run.
    frame_eq.
  - erewrite bind_run by reflexivity.
    erewrite bind_run by reflexivity.
    frame_eq.
Qed.

(** The frame a successful scan ends in, and the payload it returns. *)
Lemma scan_vulnerabilities_ok w request resp s :
  let url := Mcp.request_url (Mcp.vr_url request) in
  let depth := Mcp.scan_depth request in
  let l := record_findings
             (baseline_findings resp ++ supplementary_findings w url depth)
             (Mcp.MkVulnLocals [] 10.0) in
  Mcp.requests_get w url 10 = Ok resp ->
  Mcp.scan_vulnerabilities w request s =
  (Ok (PDict
     [ ("url", PStr url);
       ("scan_depth", PStr depth);
       ("vulnerabilities", PList (Mcp.vulnerabilities l));
       ("vulnerability_count", PInt (py_len (Mcp.vulnerabilities l)));
       ("security_score", PFloat (round1 (py_max 0.0 (Mcp.score l))));
       ("risk_level", PStr (Mcp.risk_level_of (py_max 0.0 (Mcp.score l))));
       ("scan_timestamp", PStr (Mcp.utc_now_isoformat w)) ]),
   MkFrame (trace s ++ EvGet url 10 :: supplementary_calls url depth)%list l).
Proof.
  intros url depth l Hget.
  unfold Mcp.scan_vulnerabilities. fold url. fold depth.
  unfold try_except at 1. unfold bind at 1. unfold modify at 1.
  unfold bind at 1. unfold try_except at 1. unfold bind at 1.
  unfold perform at 1. rewrite Hget.
  rewrite checks_run.
  unfold add_findings, add_calls, bind, get_locals, ret. simpl.
  rewrite <- app_assoc. reflexivity.
Qed.

(** What the probe answers when the baseline request raises. *)
Lemma scan_vulnerabilities_raise w request e s :
  let url := Mcp.request_url (Mcp.vr_url request) in
  Mcp.requests_get w url 10 = Raise e ->
  Mcp.scan_vulnerabilities w request s =
  (Ok (match exn_kind e with
       | RequestException =>
           PDict [ ("error", PStr ("Could not connect to " ++ url ++ ": " ++ exn_str e));
                   ("vulnerabilities", PList []);
                   ("score", PFloat 0.0) ]
       | _ => PDict [("error", PStr ("Vulnerability scan failed: " ++ exn_str e))]
       end),
   MkFrame (trace s ++ [EvGet url 10])%list (Mcp.MkVulnLocals [] 10.0)).
Proof.
  intros url Hget.
  unfold Mcp.scan_vulnerabilities. fold url.
  unfold try_except at 1. unfold bind at 1. unfold modify at 1.
  unfold bind at 1. unfold try_except at 1. unfold bind at 1.
  unfold perform at 1. rewrite Hget. cbn [trace locals].
  destruct e as [k msg]. destruct k; reflexivity.
Qed.

(** ** Rounding and the scale of scores *)

Lemma round_half_even_bounds x :
  (Qfloor x <= round_half_even x <= Qfloor x + 1)%Z.
Proof.
  unfold round_half_even.
  destruct (Qcompare _ _); try destruct (Z.even _); lia.
Qed.

Lemma round_half_even_up x :
  round_half_even x = (Qfloor x + 1)%Z -> 1 # 2 <= x - inject_Z (Qfloor x).
Proof.
  unfold round_half_even.
  destruct (Qcompare_spec (x - inject_Z (Qfloor x)) (1 # 2)) as [H|H|H].
  - intros _. rewrite H. apply Qle_refl.
  - lia.
  - intros _. now apply Qlt_le_weak.
Qed.

Lemma round_half_even_down x :
  round_half_even x = Qfloor x -> x - inject_Z (Qfloor x) <= 1 # 2.
Proof.
  unfold round_half_even.
  destruct (Qcompare_spec (x - inject_Z (Qfloor x)) (1 # 2)) as [H|H|H].
  - intros _. rewrite H. apply Qle_refl.
  - intros _. now apply Qlt_le_weak.
  - lia.
Qed.

Lemma round_half_even_same_floor x y :
  x <= y -> Qfloor x = Qfloor y -> (round_half_even x <= round_half_even y)%Z.
Proof.
  intros Hxy Hf.
  unfold round_half_even. rewrite <- Hf.
  destruct (Qcompare_spec (x - inject_Z (Qfloor x)) (1 # 2)) as [Hx|Hx|Hx];
    destruct (Qcompare_spec (y - inject_Z (Qfloor x)) (1 # 2)) as [Hy|Hy|Hy];
    try destruct (Z.even (Qfloor x)); try lia; exfalso; lra.
Qed.

Lemma round_half_even_mono x y :
  x <= y -> (round_half_even x <= round_half_even y)%Z.
Proof.
  intros Hxy.
  pose proof (Qfloor_resp_le _ _ Hxy) as Hf.
  destruct (Z.eq_dec (Qfloor x) (Qfloor y)) as [E|N].
  - now apply round_half_even_same_floor.
  - pose proof (round_half_even_bounds x). pose proof (round_half_even_bounds y). lia.
Qed.

Lemma round_half_even_Z n : round_half_even (inject_Z n) = n.
Proof.
  unfold round_half_even. rewrite Qfloor_Z.
  destruct (Qcompare_spec (inject_Z n - inject_Z n) (1 # 2)) as [H|H|H];
    try reflexivity; exfalso; lra.
Qed.

Lemma round1_mono x y : x <= y -> round1 x <= round1 y.
Proof.
  intros H. unfold round1.
  assert (Hz : (round_half_even (x * 10) <= round_half_even (y * 10))%Z)
    by (apply round_half_even_mono; lra).
  rewrite Zle_Qle in Hz.
  set (a := inject_Z (round_half_even (x * 10))) in *.
  set (b := inject_Z (round_half_even (y * 10))) in *.
  unfold Qdiv. apply Qmult_le_compat_r; [exact Hz | discriminate].
Qed.

Lemma round1_tenths x : exists n : Z, round1 x == inject_Z n / 10.
Proof. exists (round_half_even (x * 10)). reflexivity. Qed.

Lemma round1_of_tenths n : round1 (inject_Z n / 10) == inject_Z n / 10.
Proof.
  unfold round1.
  assert (E : inject_Z n / 10 * 10 == inject_Z n) by (field).
  unfold round_half_even. rewrite (Qfloor_comp _ _ E), Qfloor_Z.
  destruct (Qcompare_spec (inject_Z n / 10 * 10 - inject_Z n) (1 # 2)) as [H|H|H];
    try reflexivity; exfalso; lra.
Qed.

Lemma round1_nonneg x : 0 <= x -> 0 <= round1 x.
Proof.
  intros H. apply round1_mono in H.
  assert (E : round1 0 == 0) by reflexivity. lra.
Qed.

Lemma round1_le_10 x : x <= 10 -> round1 x <= 10.
Proof.
  intros H. apply round1_mono in H.
  assert (E : round1 10 == 10) by reflexivity. lra.
Qed.

Lemma py_max_Qmax a b : py_max a b == Qmax a b.
Proof.
  unfold py_max. destruct (Qlt_le_dec a b) as [H|H].
  - symmetry. apply Q.max_r. now apply Qlt_le_weak.
  - symmetry. now apply Q.max_l.
Qed.

Lemma py_max_floor x : 0 <= py_max 0.0 x.
Proof.
  unfold py_max. destruct (Qlt_le_dec 0.0 x) as [H|H].
  - assert (E : 0.0 == 0) by reflexivity. lra.
  - unfold Qle. simpl. lia.
Qed.

Lemma py_max_mono a x y : x <= y -> py_max a x <= py_max a y.
Proof.
  intros H. rewrite !py_max_Qmax. now apply Q.max_le_compat_l.
Qed.

(** ** Findings and deductions *)

Lemma record_findings_vulnerabilities fs l :
  Mcp.vulnerabilities (record_findings fs l) = (Mcp.vulnerabilities l ++ fs)%list.
Proof.
  revert l. induction fs as [|f fs IH]; intros l; simpl.
  - now rewrite app_nil_r.
  - rewrite IH. simpl. now rewrite <- app_assoc.
Qed.

Lemma record_findings_score fs l :
  Mcp.score (record_findings fs l) =
  fold_left (fun s f => s - deduction_of f) fs (Mcp.score l).
Proof.
  revert l. induction fs as [|f fs IH]; intros l; simpl.
  - reflexivity.
  - now rewrite IH.
Qed.

Lemma running_score_total fs s :
  fold_left (fun s f => s - deduction_of f) fs s == s - total_deductions fs.
Proof.
  revert s. induction fs as [|f fs IH]; intros s; simpl.
  - lra.
  - rewrite IH. lra.
Qed.

Lemma deduction_table_nonneg kind q :
  dict_get kind deduction_table = Some q -> 0 <= q.
Proof.
  unfold deduction_table. simpl.
  repeat (destruct (String.eqb kind _);
          [ intros E; injection E as <-; unfold Qle; simpl; lia | ]).
  discriminate.
Qed.

Lemma deduction_nonneg f : 0 <= deduction_of f.
Proof.
  unfold deduction_of.
  destruct f as [| | | | |l|d]; try apply Qle_refl.
  destruct (dict_get "type" d) as [[| | | |kind| |]|]; try apply Qle_refl.
  destruct (dict_get kind deduction_table) as [q|] eqn:E; [|apply Qle_refl].
  now apply deduction_table_nonneg in E.
Qed.

Lemma total_deductions_nonneg fs : 0 <= total_deductions fs.
Proof.
  induction fs as [|f fs IH]; simpl.
  - apply Qle_refl.
  - pose proof (deduction_nonneg f). lra.
Qed.

Lemma total_deductions_app fs gs :
  total_deductions (fs ++ gs) == total_deductions fs + total_deductions gs.
Proof.
  induction fs as [|f fs IH]; simpl.
  - lra.
  - rewrite IH. lra.
Qed.

Lemma total_deductions_subseq fs gs :
  subseq fs gs -> total_deductions fs <= total_deductions gs.
Proof.
  induction 1 as [ys|x xs ys _ IH|y xs ys _ IH]; simpl.
  - apply total_deductions_nonneg.
  - lra.
  - pose proof (deduction_nonneg y). lra.
Qed.

Lemma subseq_app_l {A : Type} (xs ys : list A) : subseq xs (xs ++ ys).
Proof.
  induction xs as [|x xs IH]; simpl.
  - apply subseq_nil.
  - now apply subseq_keep.
Qed.

Lemma running_score_step fs k s :
  fold_left (fun s f => s - deduction_of f) (firstn (S k) fs) s
  <= fold_left (fun s f => s - deduction_of f) (firstn k fs) s.
Proof.
  rewrite !running_score_total.
  assert (H : total_deductions (firstn k fs) <= total_deductions (firstn (S k) fs)).
  { apply total_deductions_subseq. clear s.
    revert k. induction fs as [|f fs IH]; intros k.
    - destruct k; apply subseq_nil.
    - destruct k.
      + apply subseq_nil.
      + change (firstn (S (S k)) (f :: fs)) with (f :: firstn (S k) fs).
        change (firstn (S k) (f :: fs)) with (f :: firstn k fs).
        apply subseq_keep, IH. }
  lra.
Qed.

(** The published score as a function of the findings. *)
Lemma published_score_formula fs :
  round1 (py_max 0.0 (fold_left (fun s f => s - deduction_of f) fs 10.0))
  == round1 (Qmax 0 (10 - total_deductions fs)).
Proof.
  assert (E : py_max 0.0 (fold_left (fun s f => s - deduction_of f) fs 10.0)
              == Qmax 0 (10 - total_deductions fs)).
  { rewrite py_max_Qmax, running_score_total.
    apply Q.max_compat; [reflexivity|].
    assert (E : 10.0 == 10) by reflexivity. lra. }
  apply Qle_antisym; apply round1_mono; rewrite E; apply Qle_refl.
Qed.

(** ** The vulnerability score *)

Example demo_light_score :
  field "security_score" (run (Mcp.scan_vulnerabilities Demo.world Demo.light) no_locals)
  = Some (PFloat 7.3).
Proof. vm_compute. reflexivity. Qed.

Example demo_deep_score :
  field "security_score" (run (Mcp.scan_vulnerabilities Demo.world Demo.deep) no_locals)
  = Some (PFloat 4.0).
Proof. vm_compute. reflexivity. Qed.

Example demo_deep_calls :
  calls (run (Mcp.scan_vulnerabilities Demo.world Demo.deep) no_locals)
  = [ EvGet "https://example.com" 10;
      EvGet "https://example.com/admin" 5;
      EvGet "https://example.com/wp-admin" 5;
      EvGet "https://example.com/.env" 5;
      EvGet "https://example.com/config.php" 5;
      EvGet "https://example.com/" 5;
      EvOptions "https://example.com" 5 ].
Proof. vm_compute. reflexivity. Qed.

(** A score is published only on the scale from zero: whatever the site
    answers, neither [security_score] nor the [score] of the degraded
    payload is negative. *)
Lemma published_scores_nonneg w request k q :
  k = "security_score" \/ k = "score" ->
  number_field k (run (Mcp.scan_vulnerabilities w request) no_locals) = Some q ->
  0 <= q.
Proof.
  intros Hk. unfold run.
  destruct (Mcp.requests_get w (Mcp.request_url (Mcp.vr_url request)) 10)
    as [resp|e] eqn:Hget.
  - rewrite (scan_vulnerabilities_ok _ _ _ _ Hget).
    destruct Hk as [-> | ->]; unfold number_field, field; simpl.
    + intros E. injection E as <-. apply round1_nonneg, py_max_floor.
    + discriminate.
  - rewrite (scan_vulnerabilities_raise _ _ _ _ Hget).
    destruct e as [kind msg].
    destruct Hk as [-> | ->]; destruct kind; unfold number_field, field; simpl;
      try discriminate.
    intros E. injection E as <-. unfold Qle. simpl. lia.
Qed.

(** C2.  The vulnerability probe's published [security_score] starts from
    10.0 and changes only by subtracting the fixed deduction of each finding;
    the running score never increases from one finding to the next; the
    published value is the running score floored at 0.0 and rounded to one
    decimal, so it lies between 0 and 10 and is a multiple of one tenth; and
    of two scans, the one whose findings include the other's publishes a
    score that is no higher. *)
Theorem C2_vulnerability_score :
  forall (w1 w2 : Mcp.World) (req1 req2 : Mcp.VulnerabilityRequest)
         (resp1 resp2 : HttpResponse),
    Mcp.requests_get w1 (Mcp.request_url (Mcp.vr_url req1)) 10 = Ok resp1 ->
    Mcp.requests_get w2 (Mcp.request_url (Mcp.vr_url req2)) 10 = Ok resp2 ->
    let r1 := run (Mcp.scan_vulnerabilities w1 req1) no_locals in
    let r2 := run (Mcp.scan_vulnerabilities w2 req2) no_locals in
    let fs1 := list_field "vulnerabilities" r1 in
    let fs2 := list_field "vulnerabilities" r2 in
    let running := fold_left (fun s f => s - deduction_of f) in
    exists q1 q2 : Q,
      field "security_score" r1 = Some (PFloat q1)
      /\ field "security_score" r2 = Some (PFloat q2)
      /\ Mcp.score (locals (snd r1)) = running fs1 10.0
      /\ (forall k, running (firstn (S k) fs1) 10.0 <= running (firstn k fs1) 10.0)
      /\ q1 = round1 (py_max 0.0 (running fs1 10.0))
      /\ q1 == round1 (Qmax 0 (10 - total_deductions fs1))
      /\ 0 <= q1 <= 10
      /\ (exists n : Z, q1 == inject_Z n / 10)
      /\ (subseq fs1 fs2 -> q2 <= q1).
Proof.
  intros w1 w2 req1 req2 resp1 resp2 H1 H2 r1 r2 fs1 fs2 running.
  subst r1 r2 fs1 fs2. unfold run.
  rewrite (scan_vulnerabilities_ok _ _ _ _ H1), (scan_vulnerabilities_ok _ _ _ _ H2).
  unfold list_field, field. cbn [fst snd locals dict_get String.eqb Ascii.eqb Bool.eqb].
  rewrite !record_findings_vulnerabilities, !record_findings_score.
  cbn [Mcp.vulnerabilities Mcp.score app].
  set (fs1 := (baseline_findings resp1 ++ _)%list).
  set (fs2 := (baseline_findings resp2 ++ _)%list).
  fold running.
  exists (round1 (py_max 0.0 (running fs1 10.0))),
         (round1 (py_max 0.0 (running fs2 10.0))).
  repeat split; try reflexivity.
  - intros k. apply running_score_step.
  - apply published_score_formula.
  - apply round1_nonneg, py_max_floor.
  - apply round1_le_10. rewrite py_max_Qmax. apply Q.max_lub.
    + unfold Qle. simpl. lia.
    + unfold running. rewrite running_score_total.
      pose proof (total_deductions_nonneg fs1).
      assert (E : 10.0 == 10) by reflexivity. lra.
  - apply round1_tenths.
  - intros Hsub. apply round1_mono, py_max_mono.
    unfold running. rewrite !running_score_total.
    apply total_deductions_subseq in Hsub. lra.
Qed.

Lemma C2_vulnerability_score_witness :
  Mcp.requests_get Demo.world (Mcp.request_url (Mcp.vr_url Demo.light)) 10 = Ok Demo.home
  /\ Mcp.requests_get Demo.world (Mcp.request_url (Mcp.vr_url Demo.deep)) 10 = Ok Demo.home
  /\ exists q1 q2 : Q,
       field "security_score" (run (Mcp.scan_vulnerabilities Demo.world Demo.light) no_locals)
       = Some (PFloat q1)
       /\ field "security_score" (run (Mcp.scan_vulnerabilities Demo.world Demo.deep) no_locals)
          = Some (PFloat q2)
       /\ 0 <= q1 <= 10
       /\ q2 <= q1.
Proof.
  split; [reflexivity|]. split; [reflexivity|].
  destruct (C2_vulnerability_score Demo.world Demo.world Demo.light Demo.deep
              Demo.home Demo.home eq_refl eq_refl)
    as (q1 & q2 & E1 & E2 & _ & _ & _ & _ & Hb & _ & Hmono).
  exists q1, q2. repeat split; try assumption; try apply Hb.
  apply Hmono. vm_compute. repeat constructor.
Defined.

(** ** Scan depths *)

Lemma depth_not_medium_or_deep depth :
  depth <> "medium" -> depth <> "deep" ->
  Py.in_list depth ["medium"; "deep"] = false /\ String.eqb depth "deep" = false.
Proof.
  intros Hm Hd. unfold Py.in_list. simpl.
  apply String.eqb_neq in Hm. apply String.eqb_neq in Hd.
  now rewrite Hm, Hd.
Qed.

(** C4.  With the same answers from the target, the findings of a [light]
    scan are an initial part of the findings of a [medium] scan, which are
    an initial part of the findings of a [deep] scan; the score of the
    deeper scan is the score of the shallower one less the deductions of the
    additional findings.  Hence every finding of a shallower depth is also
    produced at the deeper ones. *)
Theorem C4_depth_superset :
  forall (w : Mcp.World) (url : string),
    let scan depth :=
      run (Mcp.scan_vulnerabilities w (Mcp.MkVulnerabilityRequest url depth)) no_locals in
    let found depth := list_field "vulnerabilities" (scan depth) in
    let raw depth := Mcp.score (locals (snd (scan depth))) in
    let running := fold_left (fun s f => s - deduction_of f) in
    exists more_medium more_deep : list pyval,
      found "medium" = (found "light" ++ more_medium)%list
      /\ found "deep" = (found "medium" ++ more_deep)%list
      /\ raw "medium" = running more_medium (raw "light")
      /\ raw "deep" = running more_deep (raw "medium")
      /\ (forall f, In f (found "light") -> In f (found "medium") /\ In f (found "deep"))
      /\ (forall f, In f (found "medium") -> In f (found "deep")).
Proof.
  intros w url scan found raw running.
  assert (H : exists more_medium more_deep : list pyval,
      found "medium" = (found "light" ++ more_medium)%list
      /\ found "deep" = (found "medium" ++ more_deep)%list
      /\ raw "medium" = running more_medium (raw "light")
      /\ raw "deep" = running more_deep (raw "medium")).
  { subst scan found raw. cbv beta. unfold run.
    destruct (Mcp.requests_get w (Mcp.request_url url) 10) as [resp|e] eqn:Hget.
    - rewrite !(scan_vulnerabilities_ok _ _ resp) by exact Hget.
      unfold list_field, field.
      cbn [fst snd locals dict_get String.eqb Ascii.eqb Bool.eqb
           Mcp.vr_url Mcp.scan_depth].
      rewrite !record_findings_vulnerabilities, !record_findings_score.
      cbn [Mcp.vulnerabilities Mcp.score app].
      exists (medium_findings w (Mcp.request_url url)),
             (method_findings w (Mcp.request_url url)).
      unfold supplementary_findings. simpl Py.in_list. simpl String.eqb.
      cbv iota. rewrite !app_nil_r.
      unfold running. rewrite <- !fold_left_app.
      repeat split; try reflexivity; now rewrite <- ?app_assoc.
    - rewrite !(scan_vulnerabilities_raise _ _ e) by exact Hget.
      exists [], []. destruct e as [kind msg]. destruct kind; repeat split. }
  destruct H as (mm & md & Em & Ed & Rm & Rd).
  exists mm, md.
  split; [exact Em|]. split; [exact Ed|]. split; [exact Rm|]. split; [exact Rd|].
  split.
  - intros f Hf. split.
    + rewrite Em. apply in_or_app. now left.
    + rewrite Ed, Em. apply in_or_app. left. apply in_or_app. now left.
  - intros f Hf. rewrite Ed. apply in_or_app. now left.
Qed.

(** ** Failures inside the vulnerability probe *)

Lemma path_findings_swallowed w w' url path :
  same_or_swallowed (Mcp.requests_get w (url ++ path) 5)
                    (Mcp.requests_get w' (url ++ path) 5) ->
  path_findings w url path = path_findings w' url path.
Proof.
  unfold path_findings. intros [E | (e & r & E & E' & Hq & _)].
  - now rewrite E.
  - rewrite E, E'. apply Z.eqb_neq in Hq. now rewrite Hq.
Qed.

Lemma directory_findings_swallowed w w' url :
  same_or_swallowed (Mcp.requests_get w (Py.rstrip_char "/" url ++ "/") 5)
                    (Mcp.requests_get w' (Py.rstrip_char "/" url ++ "/") 5) ->
  directory_findings w url = directory_findings w' url.
Proof.
  unfold directory_findings. intros [E | (e & r & E & E' & _ & Hq & _)].
  - now rewrite E.
  - now rewrite E, E', Hq.
Qed.

Lemma method_findings_swallowed w w' url :
  same_or_swallowed (Mcp.requests_options w url 5) (Mcp.requests_options w' url 5) ->
  method_findings w url = method_findings w' url.
Proof.
  unfold method_findings. intros [E | (e & r & E & E' & _ & _ & Hq)].
  - now rewrite E.
  - now rewrite E, E', Hq.
Qed.

Lemma supplementary_findings_swallowed w w' url depth :
  (forall u, same_or_swallowed (Mcp.requests_get w u 5) (Mcp.requests_get w' u 5)) ->
  same_or_swallowed (Mcp.requests_options w url 5) (Mcp.requests_options w' url 5) ->
  supplementary_findings w url depth = supplementary_findings w' url depth.
Proof.
  intros Hget Hopt. unfold supplementary_findings, medium_findings.
  rewrite (method_findings_swallowed _ _ _ Hopt).
  rewrite (directory_findings_swallowed w w') by apply Hget.
  replace (flat_map (path_findings w url) Mcp.vulnerable_paths)
    with (flat_map (path_findings w' url) Mcp.vulnerable_paths); [reflexivity|].
  induction Mcp.vulnerable_paths as [|p ps IH]; simpl; [reflexivity|].
  rewrite IH. f_equal. symmetry. apply path_findings_swallowed, Hget.
Qed.

(** C5, as the probe handles failures.  When the baseline request raises,
    the probe answers after that one request and does not raise: for a
    request exception it returns the payload with the error message, no
    vulnerabilities and the score 0.0; for any other exception it returns an
    error message alone.  When the baseline request succeeds, a
    supplementary request that raises has exactly the effect of a response
    that triggers nothing: the scan sends every request of its depth,
    returns the same payload and ends in the same state as against a target
    that answers those requests quietly; its findings are those of the
    baseline and of the supplementary requests that did answer. *)
Theorem C5_failure_isolation :
  (forall (w : Mcp.World) (request : Mcp.VulnerabilityRequest) (e : exn),
      let url := Mcp.request_url (Mcp.vr_url request) in
      Mcp.requests_get w url 10 = Raise e ->
      let r := run (Mcp.scan_vulnerabilities w request) no_locals in
      calls r = [EvGet url 10]
      /\ (exn_kind e = RequestException ->
          fst r
          = Ok (PDict [ ("error",
                         PStr ("Could not connect to " ++ url ++ ": " ++ exn_str e));
                        ("vulnerabilities", PList []);
                        ("score", PFloat 0.0) ]))
      /\ (exn_kind e <> RequestException ->
          fst r
          = Ok (PDict [ ("error",
                         PStr ("Vulnerability scan failed: " ++ exn_str e)) ])))
  /\
  (forall (w w' : Mcp.World) (request : Mcp.VulnerabilityRequest) (resp : HttpResponse),
      let url := Mcp.request_url (Mcp.vr_url request) in
      let depth := Mcp.scan_depth request in
      Mcp.requests_get w url 10 = Ok resp ->
      Mcp.requests_get w' url 10 = Ok resp ->
      (forall u, same_or_swallowed (Mcp.requests_get w u 5) (Mcp.requests_get w' u 5)) ->
      same_or_swallowed (Mcp.requests_options w url 5) (Mcp.requests_options w' url 5) ->
      Mcp.utc_now_isoformat w = Mcp.utc_now_isoformat w' ->
      let r := run (Mcp.scan_vulnerabilities w request) no_locals in
      r = run (Mcp.scan_vulnerabilities w' request) no_locals
      /\ calls r = EvGet url 10 :: supplementary_calls url depth
      /\ field "scan_depth" r = Some (PStr depth)
      /\ field "error" r = None
      /\ list_field "vulnerabilities" r
         = (baseline_findings resp ++ supplementary_findings w url depth)%list).
Proof.
  split.
  - intros w request e url Hget r. subst r. unfold run, calls.
    rewrite (scan_vulnerabilities_raise _ _ _ _ Hget). cbn [fst snd trace app].
    split; [reflexivity|]. split.
    + intros Hkind. now rewrite Hkind.
    + intros Hkind. destruct (exn_kind e); try reflexivity. now contradiction Hkind.
  - intros w w' request resp url depth Hget Hget' Hsame Hopt Hnow r.
    subst r. unfold run.
    rewrite (scan_vulnerabilities_ok _ _ _ _ Hget), (scan_vulnerabilities_ok _ _ _ _ Hget').
    fold url. fold depth.
    rewrite <- (supplementary_findings_swallowed w w' url depth Hsame Hopt), <- Hnow.
    unfold calls, list_field, field.
    cbn [fst snd trace locals dict_get String.eqb Ascii.eqb Bool.eqb app].
    rewrite record_findings_vulnerabilities.
    repeat split.
Qed.

Lemma C5_failure_isolation_witness :
  (Mcp.requests_get Demo.world (Mcp.request_url (Mcp.vr_url Demo.down)) 10
   = Raise Demo.refused
   /\ exn_kind Demo.refused = RequestException
   /\ fst (run (Mcp.scan_vulnerabilities Demo.world Demo.down) no_locals)
      = Ok (PDict [ ("error", PStr "Could not connect to https://down.example.com: connection refused");
                    ("vulnerabilities", PList []);
                    ("score", PFloat 0.0) ]))
  /\
  (Mcp.requests_get Demo.world (Mcp.request_url (Mcp.vr_url Demo.deep)) 10 = Ok Demo.home
   /\ Mcp.requests_get Demo.world "https://example.com/.env" 5 = Raise Demo.refused
   /\ run (Mcp.scan_vulnerabilities Demo.world Demo.deep) no_locals
      = run (Mcp.scan_vulnerabilities Demo.world_404 Demo.deep) no_locals
   /\ calls (run (Mcp.scan_vulnerabilities Demo.world Demo.deep) no_locals)
      = EvGet "https://example.com" 10
        :: supplementary_calls "https://example.com" "deep").
Proof.
  split.
  - split; [reflexivity|]. split; [reflexivity|].
    destruct (proj1 C5_failure_isolation Demo.world Demo.down Demo.refused eq_refl)
      as (_ & Hrequest & _).
    exact (Hrequest eq_refl).
  - split; [reflexivity|]. split; [reflexivity|].
    assert (Hsame : forall u,
      same_or_swallowed (Mcp.requests_get Demo.world u 5)
                        (Mcp.requests_get Demo.world_404 u 5)).
    { intros u. unfold same_or_swallowed. simpl.
      destruct (String.eqb u "https://example.com"); [now left|].
      destruct (String.eqb u "https://example.com/admin"); [now left|].
      destruct (String.eqb u "https://example.com/"); [now left|].
      right. exists Demo.refused, (MkResponse 404 [] "not found").
      repeat split. simpl. lia. }
    destruct (proj2 C5_failure_isolation Demo.world Demo.world_404 Demo.deep Demo.home
                eq_refl eq_refl Hsame (or_introl eq_refl) eq_refl)
      as (Hrun & Hcalls & _).
    split; [exact Hrun | exact Hcalls].
Defined.

(** C5 as stated fails: a host name with an empty label makes the baseline
    request raise an exception that is not a request exception, and the
    probe answers with an error message alone, without [vulnerabilities]
    and without [score]. *)
Lemma C5_counterexample :
  let request := Mcp.MkVulnerabilityRequest "a..b" "light" in
  let r := run (Mcp.scan_vulnerabilities Cases.unparsable request) no_locals in
  Mcp.requests_get Cases.unparsable (Mcp.request_url (Mcp.vr_url request)) 10
  = Raise Cases.location_parse_error
  /\ exn_kind Cases.location_parse_error = OtherException
  /\ fst r
     = Ok (PDict [ ("error",
                    PStr "Vulnerability scan failed: Failed to parse: 'a..b', label empty or too long") ])
  /\ field "vulnerabilities" r = None
  /\ field "score" r = None.
Proof. vm_compute. repeat split. Qed.

(** C10.  The vulnerability probe does not validate [scan_depth].  For a
    depth that is neither ["medium"] nor ["deep"], it sends the baseline
    request and no other, ends in the state of a [light] scan and returns
    the payload of a [light] scan in every entry but [scan_depth]; when the
    baseline request succeeds that payload is the success payload, with the
    baseline findings and the requested depth echoed. *)
Theorem C10_unvalidated_depth :
  forall (w : Mcp.World) (url depth : string) (resp : HttpResponse),
    depth <> "medium" ->
    depth <> "deep" ->
    Mcp.requests_get w (Mcp.request_url url) 10 = Ok resp ->
    let r := run (Mcp.scan_vulnerabilities w (Mcp.MkVulnerabilityRequest url depth))
                 no_locals in
    let r0 := run (Mcp.scan_vulnerabilities w (Mcp.MkVulnerabilityRequest url "light"))
                  no_locals in
    let l := record_findings (baseline_findings resp) (Mcp.MkVulnLocals [] 10.0) in
    calls r = [EvGet (Mcp.request_url url) 10]
    /\ snd r = snd r0
    /\ (forall k, k <> "scan_depth" -> field k r = field k r0)
    /\ Mcp.vulnerabilities l = baseline_findings resp
    /\ fst r = Ok (PDict
         [ ("url", PStr (Mcp.request_url url));
           ("scan_depth", PStr depth);
           ("vulnerabilities", PList (Mcp.vulnerabilities l));
           ("vulnerability_count", PInt (py_len (Mcp.vulnerabilities l)));
           ("security_score", PFloat (round1 (py_max 0.0 (Mcp.score l))));
           ("risk_level", PStr (Mcp.risk_level_of (py_max 0.0 (Mcp.score l))));
           ("scan_timestamp", PStr (Mcp.utc_now_isoformat w)) ]).
Proof.
  intros w url depth resp Hm Hd Hget r r0 l.
  destruct (depth_not_medium_or_deep depth Hm Hd) as [Hin Heq].
  subst r r0. unfold run.
  rewrite !(scan_vulnerabilities_ok _ _ resp) by exact Hget.
  cbn [Mcp.vr_url Mcp.scan_depth].
  unfold supplementary_findings, supplementary_calls.
  rewrite Hin, Heq. simpl Py.in_list. simpl String.eqb. cbv iota.
  rewrite !app_nil_r. fold l.
  unfold calls, field. cbn [fst snd trace app].
  split; [reflexivity|]. split; [reflexivity|].
  split.
  - intros k Hk. simpl.
    destruct (String.eqb k "url"); [reflexivity|].
    destruct (String.eqb k "scan_depth") eqn:E; [|reflexivity].
    apply String.eqb_eq in E. contradiction.
  - split; [|reflexivity].
    subst l. now rewrite record_findings_vulnerabilities.
Qed.

Lemma C10_unvalidated_depth_witness :
  "extreme" <> "medium"
  /\ "extreme" <> "deep"
  /\ Mcp.requests_get Demo.world (Mcp.request_url "example.com") 10 = Ok Demo.home
  /\ calls (run (Mcp.scan_vulnerabilities Demo.world Demo.extreme) no_locals)
     = [EvGet "https://example.com" 10]
  /\ field "scan_depth" (run (Mcp.scan_vulnerabilities Demo.world Demo.extreme) no_locals)
     = Some (PStr "extreme")
  /\ field "security_score" (run (Mcp.scan_vulnerabilities Demo.world Demo.extreme) no_locals)
     = field "security_score" (run (Mcp.scan_vulnerabilities Demo.world Demo.light) no_locals).
Proof.
  assert (Hm : "extreme" <> "medium") by discriminate.
  assert (Hd : "extreme" <> "deep") by discriminate.
  destruct (C10_unvalidated_depth Demo.world "example.com" "extreme" Demo.home
              Hm Hd eq_refl) as (Hcalls & _ & Hfields & _ & Hpayload).
  split; [exact Hm|]. split; [exact Hd|]. split; [reflexivity|].
  split; [exact Hcalls|]. split.
  - unfold field, Demo.extreme. now rewrite Hpayload.
  - apply Hfields. discriminate.
Defined.

(** ** The header probe *)

Lemma find_header_value_get name hs :
  Py.lower name = name -> Mcp.find_header_value name hs = headers_get name hs.
Proof.
  intros Hlow. unfold headers_get. rewrite Hlow.
  induction hs as [|[h v] hs IH]; simpl.
  - reflexivity.
  - destruct (String.eqb (Py.lower h) name); [reflexivity | exact IH].
Qed.

Lemma dict_keys_set_fresh {V : Type} k (v : V) d :
  ~ In k (dict_keys d) -> dict_keys (dict_set k v d) = (dict_keys d ++ [k])%list.
Proof.
  induction d as [|[k' v'] d IH]; simpl; intros Hfresh.
  - reflexivity.
  - destruct (String.eqb_spec k k') as [->|Hne].
    + exfalso. apply Hfresh. now left.
    + simpl. f_equal. apply IH. intros Hin. apply Hfresh. now right.
Qed.

(** The keys of [present_headers] after the loop: the catalog names that
    are supplied, in catalog order. *)
Lemma check_header_keys hs entries :
  forall acc,
    NoDup (map fst entries) ->
    (forall k, In k (map fst entries) -> ~ In k (dict_keys (Mcp.present_headers acc))) ->
    (forall k, In k (map fst entries) -> Py.lower k = k) ->
    dict_keys (Mcp.present_headers (fold_left (Mcp.check_header hs) entries acc))
    = (dict_keys (Mcp.present_headers acc)
       ++ filter (header_supplied hs) (map fst entries))%list.
Proof.
  induction entries as [|[n i] entries IH]; intros acc Hnd Hfresh Hlow.
  - simpl. now rewrite app_nil_r.
  - cbn [fold_left map fst filter]. inversion Hnd as [|? ? Hn Hnd']; subst.
    assert (Hstep : Mcp.check_header hs acc (n, i)
                    = if header_supplied hs n
                      then Mcp.MkHeaderLocals
                             (dict_set n (match headers_get n hs with
                                          | Some v => v
                                          | None => EmptyString
                                          end, i) (Mcp.present_headers acc))
                             (Mcp.missing_headers acc)
                      else Mcp.MkHeaderLocals (Mcp.present_headers acc)
                             (Mcp.missing_headers acc ++ [(n, i)])%list).
    { unfold Mcp.check_header, header_supplied.
      rewrite find_header_value_get by (apply Hlow; now left). reflexivity. }
    rewrite IH; [| exact Hnd' | | intros k Hk; apply Hlow; now right ].
    + rewrite Hstep. destruct (header_supplied hs n); cbn [Mcp.present_headers].
      * rewrite dict_keys_set_fresh by (apply Hfresh; now left).
        now rewrite <- app_assoc.
      * reflexivity.
    + intros k Hk. rewrite Hstep.
      destruct (header_supplied hs n); cbn [Mcp.present_headers].
      * rewrite dict_keys_set_fresh by (apply Hfresh; now left).
        intros Hin. apply in_app_or in Hin. destruct Hin as [Hin|[->|[]]].
        -- revert Hin. apply Hfresh. now right.
        -- contradiction.
      * apply Hfresh. now right.
Qed.

Lemma catalog_nodup : NoDup catalog.
Proof.
  unfold catalog. simpl.
  repeat (constructor; [simpl; intuition discriminate|]). constructor.
Qed.

Lemma catalog_lower k : In k catalog -> Py.lower k = k.
Proof.
  unfold catalog. simpl. intuition (subst; reflexivity).
Qed.

Lemma present_keys hs :
  dict_keys (Mcp.present_headers (Mcp.check_headers hs))
  = filter (header_supplied hs) catalog.
Proof.
  unfold Mcp.check_headers.
  rewrite check_header_keys.
  - reflexivity.
  - apply catalog_nodup.
  - intros k _ [].
  - apply catalog_lower.
Qed.

Lemma header_score_keys (p p' : list (string * (string * Mcp.header_info))) :
  dict_keys p = dict_keys p' -> Mcp.header_score p = Mcp.header_score p'.
Proof.
  intros E. unfold Mcp.header_score.
  assert (El : py_len p = py_len p').
  { unfold py_len. f_equal.
    rewrite <- (length_map fst p), <- (length_map fst p').
    unfold dict_keys in E. now rewrite E. }
  now rewrite E, El.
Qed.

Lemma header_score_cases (present : string -> bool) :
  num_q (builtin_round1 (Mcp.header_score (map blank (filter present catalog))))
  == round1 (score_formula present).
Proof.
  unfold score_formula, present_count, adjustment.
  change catalog with
    [ "strict-transport-security"; "content-security-policy"; "x-frame-options";
      "x-content-type-options"; "x-xss-protection"; "referrer-policy";
      "permissions-policy" ].
  change Mcp.high_importance with
    [ "strict-transport-security"; "content-security-policy" ].
  cbn [filter forallb existsb].
  destruct (present "strict-transport-security");
  destruct (present "content-security-policy");
  destruct (present "x-frame-options");
  destruct (present "x-content-type-options");
  destruct (present "x-xss-protection");
  destruct (present "referrer-policy");
  destruct (present "permissions-policy");
  vm_compute; reflexivity.
Qed.

Lemma header_score_formula hs :
  num_q (builtin_round1
           (Mcp.header_score (Mcp.present_headers (Mcp.check_headers hs))))
  == round1 (score_formula (header_supplied hs)).
Proof.
  rewrite <- header_score_cases.
  rewrite (header_score_keys _ (map blank (filter (header_supplied hs) catalog))).
  - reflexivity.
  - rewrite present_keys. unfold dict_keys. rewrite map_map. simpl.
    now rewrite map_id.
Qed.

Lemma analyze_security_headers_ok w request resp s :
  let url := Mcp.request_url (Mcp.shr_url request) in
  Mcp.requests_get w url 10 = Ok resp ->
  exists payload,
    Mcp.analyze_security_headers w request s
    = (Ok (PDict payload), MkFrame (trace s ++ [EvGet url 10])%list (locals s))
    /\ dict_get "security_score" payload
       = Some (pyval_of_num
                 (builtin_round1
                    (Mcp.header_score (Mcp.present_headers (Mcp.check_headers (headers resp))))))
    /\ dict_get "error" payload = None.
Proof.
  intros url Hget. unfold Mcp.analyze_security_headers. fold url.
  unfold try_except, bind, perform. rewrite Hget. unfold ret.
  eexists. split; [reflexivity|]. split; reflexivity.
Qed.


Lemma num_value_of_num n : num_value (pyval_of_num n) = Some (num_q n).
Proof. now destruct n. Qed.

(** C1, as the probe computes it.  For every response to the probe's GET,
    the published [security_score] is
    [clamp((present_count / 7) * 10 + adjustment, 0, 10)] rounded to one
    decimal, where a catalog header counts as present when the
    case-insensitive lookup finds it with a value that is not empty, and the
    adjustment is +1 when both high-importance headers are present, -2 when
    neither is, and 0 otherwise. *)
Theorem C1_header_score :
  forall (w : Mcp.World) (request : Mcp.SecurityHeadersRequest) (resp : HttpResponse),
    Mcp.requests_get w (Mcp.request_url (Mcp.shr_url request)) 10 = Ok resp ->
    exists q : Q,
      number_field "security_score" (run (Mcp.analyze_security_headers w request) tt)
      = Some q
      /\ q == round1 (score_formula (header_supplied (headers resp))).
Proof.
  intros w request resp Hget. unfold run.
  destruct (analyze_security_headers_ok w request resp (MkFrame [] tt) Hget)
    as (payload & Hrun & Hscore & _).
  rewrite Hrun. unfold number_field, field. cbn [fst]. rewrite Hscore.
  rewrite num_value_of_num. eexists. split; [reflexivity|].
  apply header_score_formula.
Qed.

Lemma C1_header_score_witness :
  Mcp.requests_get (Demo.serving Demo.two_headers)
    (Mcp.request_url (Mcp.shr_url Demo.headers_request)) 10 = Ok Demo.two_headers
  /\ exists q : Q,
       number_field "security_score"
         (run (Mcp.analyze_security_headers (Demo.serving Demo.two_headers)
                 Demo.headers_request) tt) = Some q
       /\ q == round1 (score_formula (header_supplied (headers Demo.two_headers))).
Proof.
  split; [reflexivity|].
  apply (C1_header_score (Demo.serving Demo.two_headers) Demo.headers_request
           Demo.two_headers).
  reflexivity.
Defined.

(** C1 as stated fails twice over: the published score is rounded, and a
    catalog header sent with an empty value is found by the lookup but does
    not count as present. *)
Lemma C1_counterexample :
  (number_field "security_score"
     (run (Mcp.analyze_security_headers (Demo.serving Demo.two_headers)
             Demo.headers_request) tt) = Some 2.9
   /\ ~ 2.9 == score_formula (header_found (headers Demo.two_headers)))
  /\
  (number_field "security_score"
     (run (Mcp.analyze_security_headers (Demo.serving Demo.empty_csp)
             Demo.headers_request) tt) = Some 8.6
   /\ round1 (score_formula (header_found (headers Demo.empty_csp))) == 10
   /\ ~ 8.6 == round1 (score_formula (header_found (headers Demo.empty_csp)))).
Proof.
  split; [split | split; [|split]].
  - vm_compute. reflexivity.
  - vm_compute. discriminate.
  - vm_compute. reflexivity.
  - vm_compute. reflexivity.
  - vm_compute. discriminate.
Qed.

(** ** The rational scores against binary64 *)

Lemma deduction_of_kind f :
  deduction_of f = kind_deduction (finding_kind f).
Proof.
  unfold deduction_of, kind_deduction, finding_kind.
  destruct f as [| | | | | |d]; try reflexivity.
  destruct (dict_get "type" d) as [[| | | |kind| |]|]; reflexivity.
Qed.

Lemma running_score_kinds fs s :
  fold_left (fun s f => s - deduction_of f) fs s
  = fold_left (fun s kind => s - kind_deduction kind) (map finding_kind fs) s.
Proof.
  revert s. induction fs as [|f fs IH]; intros s; simpl.
  - reflexivity.
  - now rewrite IH, deduction_of_kind.
Qed.

(** The kinds of the findings of each check. *)

Ltac count_kinds :=
  match goal with
  | |- exists n, _ /\ ?l = _ => exists (List.length l); split; [simpl; lia | reflexivity]
  end.

Lemma missing_header_kinds hs :
  exists n, (n <= 5)%nat
    /\ map finding_kind (missing_header_findings hs) = repeat "Missing Security Header" n.
Proof.
  unfold missing_header_findings. cbn [flat_map Mcp.security_headers fst snd].
  repeat match goal with
  | |- context [Py.in_list ?h ?l] => destruct (Py.in_list h l)
  end; cbn [negb app map]; count_kinds.
Qed.

Lemma disclosure_kinds hs :
  exists n, (n <= 1)%nat
    /\ map finding_kind (disclosure_findings hs) = repeat "Information Disclosure" n.
Proof.
  unfold disclosure_findings.
  destruct (headers_get "server" hs); [destruct (existsb _ _)|]; count_kinds.
Qed.

Lemma content_kinds content :
  exists n, (n <= 1)%nat
    /\ map finding_kind (content_findings content) = repeat "Potential SQL Error" n.
Proof.
  unfold content_findings. destruct (_ && _); count_kinds.
Qed.

Lemma path_kinds w url :
  exists n, (n <= 4)%nat
    /\ map finding_kind (flat_map (path_findings w url) Mcp.vulnerable_paths)
       = repeat "Exposed Endpoint" n.
Proof.
  cbn [flat_map Mcp.vulnerable_paths]. unfold path_findings.
  repeat match goal with
  | |- context [Mcp.requests_get w ?u 5] =>
      destruct (Mcp.requests_get w u 5) as [?r|?e];
      [destruct (status_code _ =? 200)%Z|]
  end; cbn [app map]; count_kinds.
Qed.

Lemma directory_kinds w url :
  exists n, (n <= 1)%nat
    /\ map finding_kind (directory_findings w url) = repeat "Directory Listing" n.
Proof.
  unfold directory_findings.
  destruct (Mcp.requests_get w _ 5); [destruct (Py.contains _ _)|]; count_kinds.
Qed.

Lemma method_kinds w url :
  exists n, (n <= 3)%nat
    /\ map finding_kind (method_findings w url) = repeat "Dangerous HTTP Method" n.
Proof.
  unfold method_findings.
  destruct (Mcp.requests_options w url 5) as [r|e]; [|count_kinds].
  destruct (headers_get "allow" (headers r)) as [allowed|]; [|count_kinds].
  cbn [flat_map Mcp.dangerous_methods].
  repeat match goal with
  | |- context [Py.contains ?m (Py.upper allowed)] =>
      destruct (Py.contains m (Py.upper allowed))
  end; cbn [app map]; count_kinds.
Qed.

(** The kinds of the findings of a scan, in order. *)
Lemma scan_kinds w url depth resp :
  exists m s q p d t,
    (m <= 5 /\ s <= 1 /\ q <= 1 /\ p <= 4 /\ d <= 1 /\ t <= 3)%nat
    /\ map finding_kind (baseline_findings resp ++ supplementary_findings w url depth)
       = kinds_shape m s q p d t.
Proof.
  destruct (missing_header_kinds (headers resp)) as (m & Hm & Em).
  destruct (disclosure_kinds (headers resp)) as (s & Hs & Es).
  destruct (content_kinds (Py.lower (text resp))) as (q & Hq & Eq).
  destruct (path_kinds w url) as (p & Hp & Ep).
  destruct (directory_kinds w url) as (d & Hd & Ed).
  destruct (method_kinds w url) as (t & Ht & Et).
  unfold baseline_findings, supplementary_findings, medium_findings, kinds_shape.
  destruct (Py.in_list depth ["medium"; "deep"]); destruct (String.eqb depth "deep").
  - exists m, s, q, p, d, t. split; [lia|].
    rewrite !map_app, Em, Es, Eq, Ep, Ed, Et. now rewrite <- !app_assoc.
  - exists m, s, q, p, d, 0%nat. split; [lia|].
    rewrite !map_app, Em, Es, Eq, Ep, Ed. now rewrite <- !app_assoc.
  - exists m, s, q, 0%nat, 0%nat, t. split; [lia|].
    rewrite !map_app, Em, Es, Eq, Et. now rewrite <- !app_assoc.
  - exists m, s, q, 0%nat, 0%nat, 0%nat. split; [lia|].
    rewrite !map_app, Em, Es, Eq. now rewrite <- !app_assoc.
Qed.

(** On each of the 960 shapes the binary64 score is the float nearest to
    the rational score, and the risk tiers are the same. *)
Lemma shapes_agree m s q p d t :
  (m <= 5 /\ s <= 1 /\ q <= 1 /\ p <= 4 /\ d <= 1 /\ t <= 3)%nat ->
  let kinds := kinds_shape m s q p d t in
  let rational :=
    py_max 0.0 (fold_left (fun s kind => s - kind_deduction kind) kinds 10.0) in
  Binary64.security_score kinds = Binary64.nearest (round1 rational)
  /\ Binary64.risk_level kinds = Mcp.risk_level_of rational.
Proof.
  intros (Hm & Hs & Hq & Hp & Hd & Ht).
  destruct m as [|[|[|[|[|[|m]]]]]]; try (exfalso; lia);
  destruct s as [|[|s]]; try (exfalso; lia);
  destruct q as [|[|q]]; try (exfalso; lia);
  destruct p as [|[|[|[|[|p]]]]]; try (exfalso; lia);
  destruct d as [|[|d]]; try (exfalso; lia);
  destruct t as [|[|[|[|t]]]]; try (exfalso; lia);
  clear; vm_compute; split; reflexivity.
Qed.

(** X9.  The published vulnerability score and risk tier are those of the
    binary64 arithmetic on the same findings. *)
Theorem vulnerability_score_binary64 :
  forall (w : Mcp.World) (request : Mcp.VulnerabilityRequest) (resp : HttpResponse),
    Mcp.requests_get w (Mcp.request_url (Mcp.vr_url request)) 10 = Ok resp ->
    let r := run (Mcp.scan_vulnerabilities w request) no_locals in
    let kinds := map finding_kind (list_field "vulnerabilities" r) in
    exists q : Q,
      field "security_score" r = Some (PFloat q)
      /\ Binary64.security_score kinds = Binary64.nearest q
      /\ field "risk_level" r = Some (PStr (Binary64.risk_level kinds)).
Proof.
  intros w request resp Hget r kinds. subst r kinds. unfold run.
  rewrite (scan_vulnerabilities_ok _ _ _ _ Hget).
  unfold list_field, field. cbn [fst dict_get String.eqb Ascii.eqb Bool.eqb].
  rewrite record_findings_vulnerabilities, record_findings_score.
  cbn [Mcp.vulnerabilities Mcp.score app].
  rewrite running_score_kinds.
  destruct (scan_kinds w (Mcp.request_url (Mcp.vr_url request))
              (Mcp.scan_depth request) resp)
    as (m & s & q & p & d & t & Hb & ->).
  destruct (shapes_agree m s q p d t Hb) as [Hscore Hrisk].
  eexists. split; [reflexivity|]. split; [exact Hscore|]. now rewrite Hrisk.
Qed.

Lemma vulnerability_score_binary64_witness :
  Mcp.requests_get Demo.world (Mcp.request_url (Mcp.vr_url Demo.deep)) 10 = Ok Demo.home
  /\ exists q : Q,
       field "security_score" (run (Mcp.scan_vulnerabilities Demo.world Demo.deep) no_locals)
       = Some (PFloat q)
       /\ Binary64.security_score
            (map finding_kind
               (list_field "vulnerabilities"
                  (run (Mcp.scan_vulnerabilities Demo.world Demo.deep) no_locals)))
          = Binary64.nearest q
       /\ field "risk_level" (run (Mcp.scan_vulnerabilities Demo.world Demo.deep) no_locals)
          = Some (PStr (Binary64.risk_level
                          (map finding_kind
                             (list_field "vulnerabilities"
                                (run (Mcp.scan_vulnerabilities Demo.world Demo.deep)
                                     no_locals))))).
Proof.
  split; [reflexivity|].
  exact (vulnerability_score_binary64 Demo.world Demo.deep Demo.home eq_refl).
Defined.

Lemma header_score_binary64_cases (present : string -> bool) :
  let supplied := map blank (filter present catalog) in
  Binary64.same_number (Binary64.builtin_round1 (Binary64.header_score supplied))
                       (builtin_round1 (Mcp.header_score supplied))
  /\ Binary64.grade_of (Binary64.header_score supplied)
     = Mcp.grade_of (Mcp.header_score supplied).
Proof.
  change catalog with
    [ "strict-transport-security"; "content-security-policy"; "x-frame-options";
      "x-content-type-options"; "x-xss-protection"; "referrer-policy";
      "permissions-policy" ].
  cbn [filter].
  destruct (present "strict-transport-security");
  destruct (present "content-security-policy");
  destruct (present "x-frame-options");
  destruct (present "x-content-type-options");
  destruct (present "x-xss-protection");
  destruct (present "referrer-policy");
  destruct (present "permissions-policy");
  vm_compute; split; reflexivity.
Qed.

Lemma binary64_header_score_keys (p p' : list (string * (string * Mcp.header_info))) :
  dict_keys p = dict_keys p' -> Binary64.header_score p = Binary64.header_score p'.
Proof.
  intros E. unfold Binary64.header_score.
  assert (El : py_len p = py_len p').
  { unfold py_len. f_equal.
    rewrite <- (length_map fst p), <- (length_map fst p').
    unfold dict_keys in E. now rewrite E. }
  now rewrite E, El.
Qed.

(** X13.  The published header score and grade are those of the binary64
    arithmetic on the same response. *)
Theorem header_score_binary64 :
  forall hs : list (string * string),
    let present := Mcp.present_headers (Mcp.check_headers hs) in
    Binary64.same_number (Binary64.builtin_round1 (Binary64.header_score present))
                         (builtin_round1 (Mcp.header_score present))
    /\ Binary64.grade_of (Binary64.header_score present)
       = Mcp.grade_of (Mcp.header_score present).
Proof.
  intros hs present.
  assert (E : dict_keys present
              = dict_keys (map blank (filter (header_supplied hs) catalog))).
  { subst present. rewrite present_keys. unfold dict_keys. rewrite map_map. simpl.
    now rewrite map_id. }
  rewrite (binary64_header_score_keys _ _ E), (header_score_keys _ _ E).
  apply header_score_binary64_cases.
Qed.

(** ** The DNS probe *)

Lemma scan_txt_records_from txt spf dmarc :
  fold_left
    (fun (found : bool * bool) txt_record =>
       let (spf_found, dmarc_found) := found in
       let spf_found :=
         if Py.startswith Mcp.spf_prefix txt_record then true else spf_found in
       let dmarc_found :=
         if Py.startswith Mcp.dmarc_prefix txt_record then true else dmarc_found in
       (spf_found, dmarc_found))
    txt (spf, dmarc)
  = (spf || existsb (Py.startswith Mcp.spf_prefix) txt,
     dmarc || existsb (Py.startswith Mcp.dmarc_prefix) txt).
Proof.
  revert spf dmarc. induction txt as [|t txt IH]; intros spf dmarc; simpl.
  - now rewrite !orb_false_r.
  - rewrite IH.
    destruct (Py.startswith Mcp.spf_prefix t), (Py.startswith Mcp.dmarc_prefix t);
      simpl; rewrite ?orb_true_r; reflexivity.
Qed.

Lemma scan_txt_records_exists txt :
  Mcp.scan_txt_records txt
  = (existsb (Py.startswith Mcp.spf_prefix) txt,
     existsb (Py.startswith Mcp.dmarc_prefix) txt).
Proof. unfold Mcp.scan_txt_records. now rewrite scan_txt_records_from. Qed.

(** The run of the probe: one resolution per record type, none of which
    can make the probe fail. *)
Lemma analyze_dns_run w request s :
  let domain := Mcp.clean_url (Mcp.dns_domain request) in
  let dns_info := map (fun rtype => (rtype, resolved w domain rtype)) Mcp.record_types in
  let txt := resolved w domain "TXT" in
  let spf_found := existsb (Py.startswith Mcp.spf_prefix) txt in
  let dmarc_found := existsb (Py.startswith Mcp.dmarc_prefix) txt in
  Mcp.analyze_dns w request s =
  (Ok (PDict
     [ ("domain", PStr domain);
       ("dns_records",
        PDict (map (fun kv => (fst kv, PList (map PStr (snd kv)))) dns_info));
       ("security_issues",
        PList (map PStr (Mcp.dns_issues spf_found dmarc_found (resolved w domain "A"))));
       ("spf_configured", PBool spf_found);
       ("dmarc_configured", PBool dmarc_found);
       ("scan_timestamp", PStr (Mcp.utc_now_isoformat w)) ]),
   MkFrame (trace s ++ map (EvResolve domain) Mcp.record_types)%list dns_info).
Proof.
  intros domain dns_info txt spf_found dmarc_found.
  unfold Mcp.analyze_dns. fold (Mcp.clean_url (Mcp.dns_domain request)). fold domain.
  unfold try_except at 1. unfold bind at 1. unfold modify at 1.
  erewrite bind_run.
  2:{ apply for_each_steps with
        (step := fun rtype (s : frame (list (string * list string))) =>
           MkFrame (trace s ++ [EvResolve domain rtype])%list
                   (dict_set rtype (resolved w domain rtype) (locals s))).
      intros rtype [tr l]. unfold resolved. unfold_monad.
      destruct (Mcp.dns_resolve w domain rtype) as [answers|[kind msg]]; simpl;
        [reflexivity|].
      destruct kind; reflexivity. }
  unfold Mcp.record_types.
  cbn [fold_left trace locals dict_set String.eqb Ascii.eqb Bool.eqb].
  unfold bind, get_locals. cbn [locals trace].
  unfold Mcp.records_of.
  cbn [dict_get String.eqb Ascii.eqb Bool.eqb].
  rewrite scan_txt_records_exists. unfold ret.
  repeat rewrite <- app_assoc. reflexivity.
Qed.

Lemma dns_issues_spf spf dmarc a_records :
  In missing_spf (Mcp.dns_issues spf dmarc a_records) <-> spf = false.
Proof.
  unfold Mcp.dns_issues, missing_spf.
  destruct spf, dmarc, (5 <? py_len a_records)%Z; simpl;
    intuition (try discriminate; try congruence).
Qed.

Lemma dns_issues_dmarc spf dmarc a_records :
  In missing_dmarc (Mcp.dns_issues spf dmarc a_records) <-> dmarc = false.
Proof.
  unfold Mcp.dns_issues, missing_dmarc.
  destruct spf, dmarc, (5 <? py_len a_records)%Z; simpl;
    intuition (try discriminate; try congruence).
Qed.


Example spf_prefix_text : Mcp.spf_prefix = String (ascii_of_nat 34) "v=spf1".
Proof. reflexivity. Qed.

Example dmarc_prefix_text : Mcp.dmarc_prefix = String (ascii_of_nat 34) "v=DMARC1".
Proof. reflexivity. Qed.

(** An SPF record and no DMARC record. *)
Example demo_dns :
  let r := run (Mcp.analyze_dns Demo.world Demo.dns_request) [] in
  field "spf_configured" r = Some (PBool true)
  /\ field "dmarc_configured" r = Some (PBool false)
  /\ field "security_issues" r = Some (PList [PStr missing_dmarc])
  /\ field "domain" r = Some (PStr "example.com").
Proof. vm_compute. repeat split. Qed.

(** ** The port probe *)

Lemma for_each_steps_in {L X : Type} (body : X -> M L unit)
  (step : X -> frame L -> frame L) (xs : list X) :
  (forall x, In x xs -> forall s, body x s = (Ok tt, step x s)) ->
  forall s, for_each xs body s = (Ok tt, fold_left (fun s x => step x s) xs s).
Proof.
  induction xs as [|x xs IH]; intros Hbody s; simpl.
  - reflexivity.
  - unfold bind. rewrite Hbody by now left.
    apply IH. intros y Hy. apply Hbody. now right.
Qed.

Lemma port_in_In port ps : Mcp.port_in port ps = true <-> In port ps.
Proof.
  unfold Mcp.port_in. rewrite existsb_exists. split.
  - intros (x & Hx & E). apply Z.eqb_eq in E. now subst.
  - intros H. exists port. split; [exact H | apply Z.eqb_refl].
Qed.

Lemma port_in_not_In port ps : Mcp.port_in port ps = false <-> ~ In port ps.
Proof.
  rewrite <- port_in_In. destruct (Mcp.port_in port ps); intuition congruence.
Qed.

(** The loop over the ports, from any state. *)
Lemma scan_ports_loop w domain ps tr o c :
  fold_left
    (fun (s : frame Mcp.port_locals) port =>
       MkFrame (trace s ++ [EvConnect domain port 3])%list
         (if port_is_open w domain port
          then Mcp.MkPortLocals (Mcp.open_ports (locals s) ++ [port])%list
                                (Mcp.closed_ports (locals s))
          else Mcp.MkPortLocals (Mcp.open_ports (locals s))
                                (Mcp.closed_ports (locals s) ++ [port])%list))
    ps (MkFrame tr (Mcp.MkPortLocals o c))
  = MkFrame (tr ++ map (fun port => EvConnect domain port 3) ps)%list
      (Mcp.MkPortLocals
         (o ++ filter (port_is_open w domain) ps)%list
         (c ++ filter (fun port => negb (port_is_open w domain port)) ps)%list).
Proof.
  revert tr o c. induction ps as [|p ps IH]; intros tr o c; simpl.
  - now rewrite !app_nil_r.
  - destruct (port_is_open w domain p); simpl; rewrite IH;
      repeat rewrite <- app_assoc; reflexivity.
Qed.

Lemma scan_ports_run w request s :
  let domain := Mcp.clean_url (Mcp.psr_url request) in
  let scanned := Mcp.ports_to_scan request in
  let open := filter (port_is_open w domain) scanned in
  let closed := filter (fun port => negb (port_is_open w domain port)) scanned in
  (forall port e, In port scanned ->
     Mcp.create_connection w domain port 3 = Raise e -> is_os_error e = true) ->
  Mcp.scan_ports w request s =
  (Ok (PDict
     [ ("domain", PStr domain);
       ("open_ports", PList (map PInt open));
       ("closed_ports", PList (map PInt closed));
       ("total_scanned", PInt (py_len scanned));
       ("security_concerns", PList (map PStr (Mcp.port_concerns open)));
       ("scan_timestamp", PStr (Mcp.utc_now_isoformat w)) ]),
   MkFrame (trace s ++ map (fun port => EvConnect domain port 3) scanned)%list
           (Mcp.MkPortLocals open closed)).
Proof.
  intros domain scanned open closed Hsock.
  unfold Mcp.scan_ports. fold domain. fold scanned.
  unfold try_except at 1. unfold bind at 1. unfold modify at 1.
  erewrite bind_run.
  2:{ apply for_each_steps_in with
        (step := fun port (s : frame Mcp.port_locals) =>
           MkFrame (trace s ++ [EvConnect domain port 3])%list
             (if port_is_open w domain port
              then Mcp.MkPortLocals (Mcp.open_ports (locals s) ++ [port])%list
                                    (Mcp.closed_ports (locals s))
              else Mcp.MkPortLocals (Mcp.open_ports (locals s))
                                    (Mcp.closed_ports (locals s) ++ [port])%list)).
      intros port Hin [tr l]. unfold port_is_open. unfold_monad.
      destruct (Mcp.create_connection w domain port 3) as [[]|e] eqn:E; simpl;
        [reflexivity|].
      now rewrite (Hsock port e Hin E). }
  cbn [trace locals]. rewrite scan_ports_loop.
  unfold bind, get_locals, ret. reflexivity.
Qed.




(** ** The TLS probe *)

Lemma no_extensions_key c : Mcp.get_items "extensions" (Mcp.getpeercert c) = Ok [].
Proof.
  unfold Mcp.get_items, Mcp.getpeercert, Mcp.optional_entry.
  destruct (map Mcp.pair_val _), (map PStr (Mcp.cert_OCSP c)),
           (map PStr (Mcp.cert_caIssuers c)),
           (map PStr (Mcp.cert_crlDistributionPoints c)); reflexivity.
Qed.

Lemma san_always_empty w request v :
  field "subject_alt_names" (run (Mcp.check_ssl_certificate w request) tt) = Some v ->
  v = PList [].
Proof.
  unfold run, Mcp.check_ssl_certificate.
  unfold try_except at 1. unfold bind at 1. unfold perform at 1.
  destruct (Mcp.tls_peercert w _ 443 10) as [peer|[kind msg]].
  - cbn [trace locals].
    unfold bind, lift. rewrite no_extensions_key.
    destruct (Mcp.get_items "subject" _) as [subject_items|e1];
      [destruct (Mcp.dict_of_first_attributes subject_items []) as [subject|e2];
       [destruct (Mcp.get_items "issuer" _) as [issuer_items|e3];
        [destruct (Mcp.dict_of_first_attributes issuer_items []) as [issuer|e4];
         [destruct (Mcp.get_time w "notAfter" _) as [not_after|e5];
          [destruct (Mcp.get_time w "notBefore" _) as [not_before|e6]|]|]|]|]|].
    all: unfold field, ret; cbn [fst].
    all: try match goal with
         | |- context [exn_kind ?e] => destruct e as [k m]; destruct k
         end.
    all: cbn [exn_kind exn_str dict_get String.eqb Ascii.eqb Bool.eqb fold_left map];
         intros E; try discriminate E; now injection E as <-.
  - unfold field. destruct kind; simpl; discriminate.
Qed.

(** C7, which the probe does not meet.  The handshake succeeds and the
    certificate carries two subject alternative names, yet the probe
    publishes an empty [subject_alt_names]: it looks for the names under the
    key [extensions], which the certificate dict never has. *)
Theorem C7_subject_alt_names_dropped :
  let r := run (Mcp.check_ssl_certificate Demo.world Demo.ssl_request) tt in
  Mcp.tls_peercert Demo.world "example.com" 443 10 = Ok Demo.cert
  /\ Mcp.cert_subjectAltName Demo.cert
     = [("DNS", "example.com"); ("DNS", "www.example.com")]
  /\ dict_get "subjectAltName" (Mcp.getpeercert Demo.cert)
     = Some (PList [ PList [PStr "DNS"; PStr "example.com"];
                     PList [PStr "DNS"; PStr "www.example.com"] ])
  /\ calls r = [EvTlsHandshake "example.com" 443 10]
  /\ field "valid" r = Some (PBool true)
  /\ field "days_until_expiry" r = Some (PInt 213)
  /\ field "subject_alt_names" r = Some (PList []).
Proof. vm_compute. repeat split. Qed.

(** ** The aggregator *)

Lemma tool_check_ssl_run w url chk (s : frame unit) :
  let body := PDict [("url", PStr url); ("check_chain", PBool chk)] in
  Backend.check_ssl_certificate w url chk s =
  (Ok (tool_result w "/check_ssl" body 30 "SSL check failed: "),
   add_calls [EvPost (Backend.MCP_URL w ++ "/check_ssl") body 30] s).
Proof.
  intros body. unfold Backend.check_ssl_certificate, tool_result, add_calls.
  fold body. unfold_monad.
  destruct (Backend.requests_post w _ body 30); reflexivity.
Qed.

Lemma tool_scan_vulnerabilities_run w url depth (s : frame unit) :
  let body := PDict [("url", PStr url); ("scan_depth", PStr depth)] in
  Backend.scan_vulnerabilities w url depth s =
  (Ok (tool_result w "/scan_vulnerabilities" body 60 "Vulnerability scan failed: "),
   add_calls [EvPost (Backend.MCP_URL w ++ "/scan_vulnerabilities") body 60] s).
Proof.
  intros body. unfold Backend.scan_vulnerabilities, tool_result, add_calls.
  fold body. unfold_monad.
  destruct (Backend.requests_post w _ body 60); reflexivity.
Qed.

Lemma tool_analyze_security_headers_run w url (s : frame unit) :
  let body := PDict [("url", PStr url)] in
  Backend.analyze_security_headers w url s =
  (Ok (tool_result w "/analyze_security_headers" body 30
         "Security headers analysis failed: "),
   add_calls [EvPost (Backend.MCP_URL w ++ "/analyze_security_headers") body 30] s).
Proof.
  intros body. unfold Backend.analyze_security_headers, tool_result, add_calls.
  fold body. unfold_monad.
  destruct (Backend.requests_post w _ body 30); reflexivity.
Qed.

(** The run of [POST /scan]. *)
Lemma scan_website_run w request :
  let url := Backend.cleaned_url (Backend.url request) in
  let ssl_body := PDict [("url", PStr url); ("check_chain", PBool true)] in
  let vuln_body := PDict [("url", PStr url); ("scan_depth", PStr "light")] in
  let headers_body := PDict [("url", PStr url)] in
  let ssl_result := tool_result w "/check_ssl" ssl_body 30 "SSL check failed: " in
  let vuln_result :=
    tool_result w "/scan_vulnerabilities" vuln_body 60 "Vulnerability scan failed: " in
  let headers_result :=
    tool_result w "/analyze_security_headers" headers_body 30
      "Security headers analysis failed: " in
  let prompt := Backend.summary_prompt w url ssl_result vuln_result headers_result in
  run (Backend.scan_website w request) tt =
  (match Backend.llm_invoke w prompt with
   | Ok response =>
       Ok (scan_reply w
             [ ("ssl", ssl_result);
               ("vulnerabilities", vuln_result);
               ("security_headers", headers_result) ]
             response)
   | Raise e => Ok (Backend.HTTPException 500 ("Scan failed: " ++ exn_str e))
   end,
   MkFrame [ EvPost (Backend.MCP_URL w ++ "/check_ssl") ssl_body 30;
             EvPost (Backend.MCP_URL w ++ "/scan_vulnerabilities") vuln_body 60;
             EvPost (Backend.MCP_URL w ++ "/analyze_security_headers") headers_body 30;
             EvLlm prompt ] tt).
Proof.
  intros url ssl_body vuln_body headers_body ssl_result vuln_result headers_result prompt.
  unfold run, Backend.scan_website. fold url.
  unfold try_except at 1.
  erewrite bind_run by apply tool_check_ssl_run.
  erewrite bind_run by apply tool_scan_vulnerabilities_run.
  erewrite bind_run by apply tool_analyze_security_headers_run.
  fold ssl_body vuln_body headers_body. fold ssl_result vuln_result headers_result.
  fold prompt.
  unfold bind, perform, ret, raise, add_calls, scan_reply, summary_of.
  cbn [trace locals app].
  destruct (Backend.llm_invoke w prompt) as [response|e]; [|reflexivity].
  destruct (Backend.content response) as [[summary|blocks]|]; reflexivity.
Qed.

Lemma append_inj_l (s a b : string) : s ++ a = s ++ b -> a = b.
Proof.
  induction s as [|c s IH]; simpl; intros E.
  - exact E.
  - injection E as E. now apply IH.
Qed.

(** The endpoints a scan posts to are among the three tools'. *)
Lemma scan_website_invokes w request endpoint :
  invokes w (run (Backend.scan_website w request) tt) endpoint ->
  In endpoint ["/check_ssl"; "/scan_vulnerabilities"; "/analyze_security_headers"].
Proof.
  rewrite scan_website_run. unfold invokes, calls. cbn [snd trace].
  intros (body & timeout & [E|[E|[E|[E|[]]]]]); try discriminate E;
    injection E as E _ _; apply append_inj_l in E; subst endpoint; simpl; tauto.
Qed.

(** C3, as the aggregator is built.  For every scan request the aggregator
    posts to three endpoints of the probe server, in this order and with the
    one cleaned URL: the TLS probe, the vulnerability probe at depth
    [light], and the header probe; it posts to no other endpoint, so the
    port and the DNS probe are not invoked.  Then it asks for the summary.
    When it answers with a report, the report holds exactly the entries
    [ssl], [vulnerabilities] and [security_headers], each the probe's
    payload or the error payload of the failed call; otherwise it answers
    with status 500. *)
Theorem C3_three_probes :
  forall (w : Backend.World) (request : Backend.ScanRequest),
    let r := run (Backend.scan_website w request) tt in
    let target := Backend.cleaned_url (Backend.url request) in
    let ssl_body := PDict [("url", PStr target); ("check_chain", PBool true)] in
    let vuln_body := PDict [("url", PStr target); ("scan_depth", PStr "light")] in
    let headers_body := PDict [("url", PStr target)] in
    (exists prompt,
        calls r =
        [ EvPost (Backend.MCP_URL w ++ "/check_ssl") ssl_body 30;
          EvPost (Backend.MCP_URL w ++ "/scan_vulnerabilities") vuln_body 60;
          EvPost (Backend.MCP_URL w ++ "/analyze_security_headers") headers_body 30;
          EvLlm prompt ])
    /\ invokes w r "/check_ssl"
    /\ invokes w r "/scan_vulnerabilities"
    /\ invokes w r "/analyze_security_headers"
    /\ ~ invokes w r "/scan_ports"
    /\ ~ invokes w r "/analyze_dns"
    /\ match report_of r with
       | Some results =>
           results =
           [ ("ssl", tool_result w "/check_ssl" ssl_body 30 "SSL check failed: ");
             ("vulnerabilities",
              tool_result w "/scan_vulnerabilities" vuln_body 60
                "Vulnerability scan failed: ");
             ("security_headers",
              tool_result w "/analyze_security_headers" headers_body 30
                "Security headers analysis failed: ") ]
       | None => exists detail, fst r = Ok (Backend.HTTPException 500 detail)
       end.
Proof.
  intros w request r target ssl_body vuln_body headers_body.
  assert (Hnot : forall endpoint,
            ~ In endpoint ["/check_ssl"; "/scan_vulnerabilities";
                           "/analyze_security_headers"] ->
            ~ invokes w r endpoint).
  { intros endpoint Hn H. apply Hn. revert H. apply scan_website_invokes. }
  revert Hnot. subst r. rewrite scan_website_run.
  fold target. fold ssl_body vuln_body headers_body. intros Hnot.
  unfold invokes, calls, report_of. cbn [fst snd trace].
  split; [eexists; reflexivity|].
  split; [exists ssl_body, 30%Z; simpl; tauto|].
  split; [exists vuln_body, 60%Z; simpl; tauto|].
  split; [exists headers_body, 30%Z; simpl; tauto|].
  split; [|split].
  - apply Hnot. simpl. intuition discriminate.
  - apply Hnot. simpl. intuition discriminate.
  - destruct (Backend.llm_invoke w _) as [response|e].
    + unfold scan_reply. destruct (summary_of response) as [summary|blocks].
      * reflexivity.
      * eexists. reflexivity.
    + eexists. reflexivity.
Qed.

(** C3 as stated fails: the report has three entries, and neither the port
    probe nor the DNS probe is invoked. *)
Lemma C3_counterexample :
  let r := run (Backend.scan_website Demo.backend Demo.scan_request) tt in
  report_of r
  = Some [ ("ssl", PDict [("valid", PBool true); ("domain", PStr "example.com")]);
           ("vulnerabilities",
            PDict [("error", PStr "Vulnerability scan failed: 500 Server Error")]);
           ("security_headers",
            PDict [("security_score", PFloat 2.9); ("grade", PStr "F")]) ]
  /\ ~ (forall endpoint, In endpoint probe_endpoints -> invokes Demo.backend r endpoint).
Proof.
  split.
  - vm_compute. reflexivity.
  - intros H.
    assert (Hports : In "/scan_ports" probe_endpoints) by (simpl; tauto).
    apply H, scan_website_invokes in Hports.
    simpl in Hports. intuition discriminate.
Qed.

(** ** Strings *)

Lemma lower_char_not_upper c : not_upper (Py.lower_char c) = true.
Proof.
  destruct c as [[] [] [] [] [] [] [] []]; reflexivity.
Qed.

Lemma lower_char_fixed c : not_upper c = true -> Py.lower_char c = c.
Proof.
  unfold not_upper, Py.lower_char. now destruct (Py.is_upper_char c).
Qed.

Lemma lower_all_chars s : all_chars not_upper (Py.lower s) = true.
Proof.
  unfold Py.lower. induction s as [|c s IH]; simpl.
  - reflexivity.
  - now rewrite lower_char_not_upper, IH.
Qed.

Lemma lower_fixed s : all_chars not_upper s = true -> Py.lower s = s.
Proof.
  unfold Py.lower. induction s as [|c s IH]; simpl.
  - reflexivity.
  - intros H. apply andb_prop in H. destruct H as [Hc Hs].
    now rewrite lower_char_fixed, IH.
Qed.

Lemma lower_fixed_iff s : Py.lower s = s <-> all_chars not_upper s = true.
Proof.
  split.
  - intros E. rewrite <- E. apply lower_all_chars.
  - apply lower_fixed.
Qed.

Lemma all_chars_app p s t :
  all_chars p (s ++ t) = all_chars p s && all_chars p t.
Proof.
  induction s as [|c s IH]; simpl.
  - reflexivity.
  - now rewrite IH, andb_assoc.
Qed.

Lemma all_chars_lstrip p s : all_chars p s = true -> all_chars p (Py.lstrip s) = true.
Proof.
  induction s as [|c s IH]; simpl.
  - reflexivity.
  - intros H. destruct (Py.is_space c); [|exact H].
    apply andb_prop in H. now apply IH.
Qed.

Lemma all_chars_rstrip_with p q s :
  all_chars p s = true -> all_chars p (Py.rstrip_with q s) = true.
Proof.
  induction s as [|c s IH]; simpl.
  - reflexivity.
  - intros H. apply andb_prop in H. destruct H as [Hc Hs].
    specialize (IH Hs).
    destruct (Py.rstrip_with q s) as [|c' r].
    + destruct (q c); simpl; [reflexivity | now rewrite Hc].
    + simpl in *. now rewrite Hc.
Qed.

Lemma all_chars_strip p s : all_chars p s = true -> all_chars p (Py.strip s) = true.
Proof.
  intros H. unfold Py.strip, Py.rstrip.
  now apply all_chars_rstrip_with, all_chars_lstrip.
Qed.




Lemma prefix_slash c s : String.prefix "/" (String c s) = Ascii.eqb c "/"%char.
Proof.
  change (String.prefix "/" (String c s))
    with (if ascii_dec "/" c then String.prefix "" s else false).
  destruct (ascii_dec "/" c) as [<-|N].
  - now destruct s.
  - symmetry. apply Ascii.eqb_neq. congruence.
Qed.


Lemma contains_slash s : Py.contains "/" s = negb (all_chars not_slash s).
Proof.
  induction s as [|c s IH].
  - reflexivity.
  - cbn [Py.contains all_chars]. rewrite prefix_slash, IH. unfold not_slash.
    now destruct (Ascii.eqb c "/"%char).
Qed.

Lemma prefix_all_chars p sub s :
  String.prefix sub s = true -> all_chars p s = true -> all_chars p sub = true.
Proof.
  revert s. induction sub as [|c sub IH]; intros s Hpre Hs.
  - reflexivity.
  - destruct s as [|d s]; [discriminate|].
    change (String.prefix (String c sub) (String d s))
      with (if ascii_dec c d then String.prefix sub s else false) in Hpre.
    destruct (ascii_dec c d) as [<-|]; [|discriminate].
    cbn [all_chars] in *. apply andb_prop in Hs. destruct Hs as [Hc Hs].
    rewrite Hc. now apply (IH s).
Qed.

Lemma contains_all_chars p sub s :
  Py.contains sub s = true -> all_chars p s = true -> all_chars p sub = true.
Proof.
  induction s as [|c s IH]; cbn [Py.contains]; intros Hc Hs.
  - rewrite orb_false_r in Hc. now apply (prefix_all_chars p sub EmptyString).
  - apply orb_prop in Hc. destruct Hc as [Hp|Hc].
    + now apply (prefix_all_chars p sub (String c s)).
    + cbn [all_chars] in Hs. apply andb_prop in Hs. now apply IH.
Qed.

(** A string without a slash holds no scheme. *)
Lemma no_slash_no_scheme s :
  all_chars not_slash s = true ->
  Py.contains "http://" s = false /\ Py.contains "https://" s = false.
Proof.
  intros Hs. split.
  - destruct (Py.contains "http://" s) eqn:E; [|reflexivity].
    now apply (contains_all_chars not_slash) in E.
  - destruct (Py.contains "https://" s) eqn:E; [|reflexivity].
    now apply (contains_all_chars not_slash) in E.
Qed.




(** ** Targets *)

Lemma check_ssl_certificate_calls w request :
  calls (run (Mcp.check_ssl_certificate w request) tt)
  = [EvTlsHandshake (Mcp.clean_url (Mcp.ssl_url request)) 443 10].
Proof.
  unfold calls, run, Mcp.check_ssl_certificate.
  unfold try_except at 1. unfold bind at 1. unfold perform at 1.
  destruct (Mcp.tls_peercert w _ 443 10) as [peer|[kind msg]].
  - cbn [trace locals]. unfold bind, lift.
    destruct (Mcp.get_items "subject" _) as [subject_items|e1];
      [destruct (Mcp.dict_of_first_attributes subject_items []) as [subject|e2];
       [destruct (Mcp.get_items "issuer" _) as [issuer_items|e3];
        [destruct (Mcp.dict_of_first_attributes issuer_items []) as [issuer|e4];
         [destruct (Mcp.get_time w "notAfter" _) as [not_after|e5];
          [destruct (Mcp.get_time w "notBefore" _) as [not_before|e6];
           [destruct (Mcp.get_items "extensions" _) as [extensions|e7]|]|]|]|]|]|].
    all: try match goal with
         | |- context [exn_kind ?e] => destruct e as [k m]; destruct k
         end; reflexivity.
  - destruct kind; reflexivity.
Qed.







Example clean_url_examples :
  Mcp.clean_url "  HTTPS://Example.com/Admin " = "example.com"
  /\ Mcp.clean_url "hthttp://tp://example.com" = "http:"
  /\ Mcp.clean_url "example.com:8443/x" = "example.com:8443".
Proof. vm_compute. repeat split. Qed.

(** ** More on strings *)

Lemma is_space_lower_char c : Py.is_space (Py.lower_char c) = Py.is_space c.
Proof. destruct c as [[] [] [] [] [] [] [] []]; reflexivity. Qed.

Lemma lower_char_idem c : Py.lower_char (Py.lower_char c) = Py.lower_char c.
Proof. apply lower_char_fixed, lower_char_not_upper. Qed.

Lemma lower_idem s : Py.lower (Py.lower s) = Py.lower s.
Proof. apply lower_fixed, lower_all_chars. Qed.

Lemma lower_app s t : Py.lower (s ++ t) = Py.lower s ++ Py.lower t.
Proof.
  unfold Py.lower. induction s as [|c s IH]; simpl; [reflexivity | now rewrite IH].
Qed.

Lemma lstrip_lower s : Py.lstrip (Py.lower s) = Py.lower (Py.lstrip s).
Proof.
  unfold Py.lower. induction s as [|c s IH]; simpl.
  - reflexivity.
  - rewrite is_space_lower_char. destruct (Py.is_space c); [exact IH | reflexivity].
Qed.

Lemma rstrip_lower s : Py.rstrip (Py.lower s) = Py.lower (Py.rstrip s).
Proof.
  unfold Py.rstrip, Py.lower. induction s as [|c s IH]; simpl.
  - reflexivity.
  - rewrite IH, is_space_lower_char.
    destruct (Py.rstrip_with Py.is_space s); simpl; [|reflexivity].
    now destruct (Py.is_space c).
Qed.

Lemma strip_lower s : Py.strip (Py.lower s) = Py.lower (Py.strip s).
Proof. unfold Py.strip. now rewrite lstrip_lower, rstrip_lower. Qed.

Lemma rstrip_with_idem p s :
  Py.rstrip_with p (Py.rstrip_with p s) = Py.rstrip_with p s.
Proof.
  induction s as [|c s IH]; simpl.
  - reflexivity.
  - destruct (Py.rstrip_with p s) as [|d r] eqn:E.
    + destruct (p c) eqn:Hc; simpl; [reflexivity | now rewrite Hc].
    + change (Py.rstrip_with p (String c (String d r)))
        with (match Py.rstrip_with p (String d r) with
              | EmptyString => if p c then EmptyString else String c EmptyString
              | r' => String c r'
              end).
      now rewrite IH.
Qed.

(** Stripping on the right keeps a first character that is not white. *)
Lemma lstrip_rstrip_head c s :
  Py.is_space c = false ->
  Py.lstrip (Py.rstrip (String c s)) = Py.rstrip (String c s).
Proof.
  intros Hc. unfold Py.rstrip. simpl.
  destruct (Py.rstrip_with Py.is_space s); rewrite ?Hc; simpl; now rewrite Hc.
Qed.

Lemma lstrip_head s :
  Py.lstrip s = EmptyString
  \/ exists c r, Py.lstrip s = String c r /\ Py.is_space c = false.
Proof.
  induction s as [|c s IH]; simpl.
  - now left.
  - destruct (Py.is_space c) eqn:E; [exact IH|]. right. now exists c, s.
Qed.

Lemma strip_idem s : Py.strip (Py.strip s) = Py.strip s.
Proof.
  unfold Py.strip.
  destruct (lstrip_head s) as [E | (c & r & E & Hc)]; rewrite E.
  - reflexivity.
  - rewrite lstrip_rstrip_head by exact Hc.
    unfold Py.rstrip. apply rstrip_with_idem.
Qed.

Lemma lower_strip_lower s : Py.lower (Py.strip (Py.lower s)) = Py.lower (Py.strip s).
Proof. now rewrite strip_lower, lower_idem. Qed.

Lemma strip_lower_strip s : Py.lower (Py.strip (Py.strip s)) = Py.lower (Py.strip s).
Proof. now rewrite strip_idem. Qed.

(** X1.  Targets ignore the case and the surrounding white space of the raw
    string, for every raw string of code points below 256: case and white
    space as [str.lower] and [str.strip] have them there, the accented
    capitals, U+0085 and the no-break space included. *)
Theorem targets_ignore_case_and_padding :
  forall raw : string,
    Mcp.clean_url (Py.lower raw) = Mcp.clean_url raw
    /\ Mcp.clean_url (Py.strip raw) = Mcp.clean_url raw
    /\ Backend.cleaned_url (Py.lower raw) = Backend.cleaned_url raw
    /\ Backend.cleaned_url (Py.strip raw) = Backend.cleaned_url raw.
Proof.
  intros raw. unfold Mcp.clean_url, Backend.cleaned_url.
  rewrite lower_strip_lower, strip_lower_strip. repeat split.
Qed.

(** ** [clean_url] on URLs *)

Lemma host_char_lower_char c : host_char (Py.lower_char c) = host_char c.
Proof. destruct c as [[] [] [] [] [] [] [] []]; reflexivity. Qed.

Lemma host_chars_lower s : all_chars host_char (Py.lower s) = all_chars host_char s.
Proof.
  unfold Py.lower. induction s as [|c s IH]; simpl; [reflexivity|].
  now rewrite host_char_lower_char, IH.
Qed.

Lemma host_char_parts c :
  host_char c = true -> not_slash c = true /\ not_colon c = true /\ Py.is_space c = false.
Proof.
  unfold host_char, not_space. intros H.
  apply andb_prop in H. destruct H as [H Hs]. apply andb_prop in H. destruct H as [H1 H2].
  repeat split; try assumption. now destruct (Py.is_space c).
Qed.

Lemma host_chars_no_slash s :
  all_chars host_char s = true -> all_chars not_slash s = true.
Proof.
  induction s as [|c s IH]; simpl; [reflexivity|]. intros H.
  apply andb_prop in H. destruct H as [Hc Hs].
  destruct (host_char_parts c Hc) as (H1 & _ & _). now rewrite H1, IH.
Qed.

Lemma append_nil_r s : s ++ "" = s.
Proof. induction s as [|c s IH]; simpl; [reflexivity | now rewrite IH]. Qed.

Lemma append_assoc s t u : s ++ (t ++ u) = (s ++ t) ++ u.
Proof. induction s as [|c s IH]; simpl; [reflexivity | now rewrite IH]. Qed.

Lemma prefix_cons a s b t :
  String.prefix (String a s) (String b t)
  = if ascii_dec a b then String.prefix s t else false.
Proof. reflexivity. Qed.

Lemma colon_not_host : host_char ":"%char = false.
Proof. reflexivity. Qed.

Ltac prefix_steps :=
  repeat (rewrite prefix_cons;
          match goal with
          | |- context [ascii_dec ?a ?b] =>
              destruct (ascii_dec a b) as [?E|?N];
              [ try discriminate; try subst | reflexivity ]
          end).

(** No scheme starts inside a host that is followed by a slash. *)
Lemma prefix_http_host host rest :
  all_chars host_char host = true ->
  String.prefix "http://" (host ++ String "/" rest) = false.
Proof.
  intros H.
  destruct host as [|c1 [|c2 [|c3 [|c4 [|c5 host]]]]]; cbn [append];
    cbn [all_chars] in H; prefix_steps.
  rewrite colon_not_host in H. rewrite !andb_false_r in H. discriminate H.
Qed.

Lemma prefix_https_host host rest :
  all_chars host_char host = true ->
  String.prefix "https://" (host ++ String "/" rest) = false.
Proof.
  intros H.
  destruct host as [|c1 [|c2 [|c3 [|c4 [|c5 [|c6 host]]]]]]; cbn [append];
    cbn [all_chars] in H; prefix_steps.
  rewrite colon_not_host in H. rewrite !andb_false_r in H. discriminate H.
Qed.

Lemma replace_from_host old host rest :
  (forall h r, all_chars host_char h = true ->
               String.prefix old (h ++ String "/" r) = false) ->
  all_chars host_char host = true ->
  Py.replace_from old "" 0 (host ++ String "/" rest)
  = host ++ String "/" (Py.replace_from old "" 0 rest).
Proof.
  intros Hold. induction host as [|c host IH]; intros H.
  - pose proof (Hold EmptyString rest eq_refl) as P. cbn [append] in *.
    cbn [Py.replace_from]. now rewrite P.
  - pose proof (Hold (String c host) rest H) as P. cbn [append] in *.
    cbn [Py.replace_from]. rewrite P.
    cbn [all_chars] in H. apply andb_prop in H. destruct H as [_ H].
    now rewrite (IH H).
Qed.

Lemma replace_from_absent old new s :
  Py.contains old s = false -> Py.replace_from old new 0 s = s.
Proof.
  induction s as [|c s IH]; cbn [Py.contains Py.replace_from]; intros H.
  - reflexivity.
  - apply orb_false_elim in H. destruct H as [Hp Hc]. now rewrite Hp, IH.
Qed.

Lemma split_head_host host rest :
  all_chars not_slash host = true ->
  hd EmptyString (Py.split "/" (host ++ String "/" rest)) = host.
Proof.
  unfold Py.split. intros H.
  assert (E : fst (Py.split_from "/" 0 (host ++ String "/" rest)) = host).
  { induction host as [|c host IH]; cbn [append Py.split_from].
    - now rewrite prefix_slash.
    - cbn [all_chars] in H. apply andb_prop in H. destruct H as [Hc Hs].
      rewrite prefix_slash. unfold not_slash in Hc.
      destruct (Ascii.eqb c "/"%char); [discriminate|].
      specialize (IH Hs).
      destruct (Py.split_from "/" 0 (host ++ String "/" rest)). simpl in *.
      now rewrite IH. }
  now destruct (Py.split_from "/" 0 (host ++ String "/" rest)).
Qed.

Lemma rstrip_app_kept s c r :
  Py.is_space c = false ->
  Py.rstrip (s ++ String c r) = s ++ Py.rstrip (String c r).
Proof.
  intros Hc. unfold Py.rstrip.
  assert (Hne : exists d t, Py.rstrip_with Py.is_space (String c r) = String d t).
  { simpl. destruct (Py.rstrip_with Py.is_space r); rewrite ?Hc; eauto. }
  induction s as [|a s IH]; cbn [append]; [reflexivity|].
  change (Py.rstrip_with Py.is_space (String a (s ++ String c r)))
    with (match Py.rstrip_with Py.is_space (s ++ String c r) with
          | EmptyString => if Py.is_space a then EmptyString else String a EmptyString
          | r' => String a r'
          end).
  rewrite IH. destruct Hne as (d & t & E). rewrite E.
  destruct s; reflexivity.
Qed.

Lemma rstrip_slash r : Py.rstrip (String "/" r) = String "/" (Py.rstrip r).
Proof.
  unfold Py.rstrip. simpl. now destruct (Py.rstrip_with Py.is_space r).
Qed.

Lemma rstrip_host host :
  all_chars host_char host = true -> Py.rstrip host = host.
Proof.
  unfold Py.rstrip. induction host as [|c host IH]; simpl; [reflexivity|].
  intros H. apply andb_prop in H. destruct H as [Hc Hs].
  destruct (host_char_parts c Hc) as (_ & _ & Hsp).
  rewrite (IH Hs). destruct host; [now rewrite Hsp | reflexivity].
Qed.

Lemma lstrip_host_slash host rest :
  all_chars host_char host = true ->
  Py.lstrip (host ++ rest) = host ++ (match host with EmptyString => Py.lstrip rest | _ => rest end).
Proof.
  destruct host as [|c host]; [reflexivity|]. simpl. intros H.
  apply andb_prop in H. destruct H as [Hc _].
  destruct (host_char_parts c Hc) as (_ & _ & Hsp). now rewrite Hsp.
Qed.

(** The normalised form of [scheme://host/rest]. *)
Lemma strip_lower_url scheme host rest :
  In (Py.lower scheme) ["http://"; "https://"; ""] ->
  all_chars host_char host = true ->
  Py.lower (Py.strip (scheme ++ host ++ String "/" rest))
  = Py.lower scheme ++ Py.lower host ++ String "/" (Py.rstrip (Py.lower rest)).
Proof.
  intros Hs Hh. rewrite <- strip_lower, !lower_app.
  change (Py.lower (String "/" rest)) with (String "/" (Py.lower rest)).
  rewrite <- host_chars_lower in Hh.
  set (h := Py.lower host) in *. set (r := Py.lower rest).
  unfold Py.strip.
  assert (El : Py.lstrip (Py.lower scheme ++ h ++ String "/" r)
               = Py.lower scheme ++ h ++ String "/" r).
  { destruct Hs as [<-|[<-|[<-|[]]]]; try reflexivity.
    cbn [append]. rewrite lstrip_host_slash by exact Hh. now destruct h. }
  rewrite El.
  rewrite (append_assoc (Py.lower scheme) h), rstrip_app_kept by reflexivity.
  now rewrite rstrip_slash, <- append_assoc.
Qed.

Lemma strip_lower_host scheme host :
  In (Py.lower scheme) ["http://"; "https://"; ""] ->
  all_chars host_char host = true ->
  Py.lower (Py.strip (scheme ++ host)) = Py.lower scheme ++ Py.lower host.
Proof.
  intros Hs Hh. rewrite <- strip_lower, !lower_app.
  rewrite <- host_chars_lower in Hh. set (h := Py.lower host) in *.
  unfold Py.strip.
  destruct Hs as [<-|[<-|[<-|[]]]].
  - change (Py.lstrip ("http://" ++ h)) with ("http://" ++ h).
    destruct h as [|c h]; [reflexivity|].
    change ("http://" ++ String c h) with ("http:/" ++ String "/" (String c h)).
    rewrite rstrip_app_kept by reflexivity. rewrite rstrip_slash.
    now rewrite (rstrip_host (String c h)).
  - change (Py.lstrip ("https://" ++ h)) with ("https://" ++ h).
    destruct h as [|c h]; [reflexivity|].
    change ("https://" ++ String c h) with ("https:/" ++ String "/" (String c h)).
    rewrite rstrip_app_kept by reflexivity. rewrite rstrip_slash.
    now rewrite (rstrip_host (String c h)).
  - cbn [append].
    assert (El : Py.lstrip h = h).
    { pose proof (lstrip_host_slash h EmptyString Hh) as P.
      rewrite append_nil_r in P. rewrite P. destruct h; [reflexivity|].
      now rewrite append_nil_r. }
    rewrite El. now apply rstrip_host.
Qed.

Lemma prefix_nil x : String.prefix "" x = true.
Proof. now destruct x. Qed.

Lemma replace_http_at_http x :
  Py.replace_from "http://" "" 0 ("http://" ++ x) = Py.replace_from "http://" "" 0 x.
Proof. cbn. now rewrite prefix_nil. Qed.

Lemma replace_https_at_https x :
  Py.replace_from "https://" "" 0 ("https://" ++ x) = Py.replace_from "https://" "" 0 x.
Proof. cbn. now rewrite prefix_nil. Qed.

Lemma replace_http_at_https x :
  Py.replace_from "http://" "" 0 ("https://" ++ x)
  = "https://" ++ Py.replace_from "http://" "" 0 x.
Proof. reflexivity. Qed.

(** Both passes of scheme removal over [scheme ++ x], when they leave [x]
    alone. *)
Lemma remove_schemes scheme x :
  In scheme ["http://"; "https://"; ""] ->
  Py.replace_from "http://" "" 0 x = x ->
  Py.replace_from "https://" "" 0 x = x ->
  Py.replace "https://" "" (Py.replace "http://" "" (scheme ++ x)) = x.
Proof.
  intros Hs H1 H2. unfold Py.replace.
  destruct Hs as [<-|[<-|[<-|[]]]].
  - rewrite replace_http_at_http, H1. exact H2.
  - rewrite replace_http_at_https, H1, replace_https_at_https. exact H2.
  - cbn [append]. now rewrite H1.
Qed.

(** X2.  [clean_url] takes the host out of a URL.  For strings of code
    points below 256, a scheme that is [http://] or [https://] in any case,
    or no scheme, and a host without slash, colon or white space (U+0085 and
    the no-break space count as white space), the result is the lower-cased
    host, whether or not a path follows. *)
Theorem clean_url_extracts_host :
  forall scheme host rest : string,
    In (Py.lower scheme) ["http://"; "https://"; ""] ->
    all_chars host_char host = true ->
    Mcp.clean_url (scheme ++ host ++ String "/" rest) = Py.lower host
    /\ Mcp.clean_url (scheme ++ host) = Py.lower host.
Proof.
  intros scheme host rest Hs Hh.
  assert (Hl : all_chars host_char (Py.lower host) = true)
    by now rewrite host_chars_lower.
  pose proof (host_chars_no_slash _ Hl) as Hns.
  destruct (no_slash_no_scheme _ Hns) as [A1 A2].
  unfold Mcp.clean_url. split.
  - rewrite strip_lower_url by assumption.
    set (h := Py.lower host) in *. set (y := Py.rstrip (Py.lower rest)).
    assert (E : Py.replace "https://" "" (Py.replace "http://" "" (Py.lower scheme ++ h ++ String "/" y))
                = h ++ String "/" (Py.replace_from "https://" "" 0
                                      (Py.replace_from "http://" "" 0 y))).
    { unfold Py.replace. destruct Hs as [<-|[<-|[<-|[]]]].
      - rewrite replace_http_at_http.
        rewrite (replace_from_host "http://") by (try assumption; apply prefix_http_host).
        now rewrite (replace_from_host "https://")
          by (try assumption; apply prefix_https_host).
      - rewrite replace_http_at_https.
        rewrite (replace_from_host "http://") by (try assumption; apply prefix_http_host).
        rewrite replace_https_at_https.
        now rewrite (replace_from_host "https://")
          by (try assumption; apply prefix_https_host).
      - cbn [append].
        rewrite (replace_from_host "http://") by (try assumption; apply prefix_http_host).
        now rewrite (replace_from_host "https://")
          by (try assumption; apply prefix_https_host). }
    rewrite E. rewrite contains_slash, all_chars_app, Hns. cbn [all_chars not_slash].
    simpl negb. cbv iota. now apply split_head_host.
  - rewrite strip_lower_host by assumption.
    rewrite remove_schemes; try assumption; try (now apply replace_from_absent).
    rewrite contains_slash, Hns. reflexivity.
Qed.

(** White space and capitals above the ASCII range. *)
Example clean_url_beyond_ascii :
  Mcp.clean_url (Cases.nbsp ++ "Example.com" ++ Cases.nbsp) = "example.com"
  /\ Mcp.clean_url (Cases.E_acute ++ "COLE.fr/x") = Cases.e_acute ++ "cole.fr"
  /\ Backend.cleaned_url (Cases.nbsp ++ Cases.E_acute ++ "COLE.fr/x" ++ Cases.nbsp)
     = Cases.e_acute ++ "cole.fr/x"
  /\ all_chars host_char ("Example.com" ++ Cases.nbsp) = false.
Proof. vm_compute. repeat split. Qed.

Lemma clean_url_extracts_host_witness :
  In (Py.lower "HTTPS://") ["http://"; "https://"; ""]
  /\ all_chars host_char "Shop.Example.com" = true
  /\ Mcp.clean_url ("HTTPS://" ++ "Shop.Example.com" ++ String "/" "Cart?id=1 ")
     = "shop.example.com"
  /\ Mcp.clean_url ("HTTPS://" ++ "Shop.Example.com") = "shop.example.com".
Proof.
  assert (Hs : In (Py.lower "HTTPS://") ["http://"; "https://"; ""])
    by (simpl; tauto).
  split; [exact Hs|]. split; [reflexivity|].
  exact (clean_url_extracts_host "HTTPS://" "Shop.Example.com" "Cart?id=1 " Hs eq_refl).
Defined.

(** ** More on the vulnerability probe *)


Lemma kinds_length fs kinds : map finding_kind fs = kinds -> length fs = length kinds.
Proof. intros <-. now rewrite length_map. Qed.

Lemma kinds_shape_length m s q p d t :
  length (kinds_shape m s q p d t) = (m + s + q + p + d + t)%nat.
Proof. unfold kinds_shape. rewrite !length_app, !repeat_length. lia. Qed.

(** The kinds of a scan below [medium]. *)
Lemma light_kinds w url depth resp :
  depth <> "medium" -> depth <> "deep" ->
  exists m s q,
    (m <= 5 /\ s <= 1 /\ q <= 1)%nat
    /\ map finding_kind (baseline_findings resp ++ supplementary_findings w url depth)
       = kinds_shape m s q 0 0 0.
Proof.
  intros Hm Hd. destruct (depth_not_medium_or_deep depth Hm Hd) as [Hin Heq].
  destruct (missing_header_kinds (headers resp)) as (m & Hm' & Em).
  destruct (disclosure_kinds (headers resp)) as (s & Hs & Es).
  destruct (content_kinds (Py.lower (text resp))) as (q & Hq & Eq).
  exists m, s, q. split; [lia|].
  unfold supplementary_findings, baseline_findings, kinds_shape.
  rewrite Hin, Heq. rewrite !map_app, Em, Es, Eq. simpl. now rewrite !app_nil_r.
Qed.

Lemma light_shapes m s q :
  (m <= 5 /\ s <= 1 /\ q <= 1)%nat ->
  let raw := py_max 0.0
               (fold_left (fun s kind => s - kind_deduction kind)
                          (kinds_shape m s q 0 0 0) 10.0) in
  Qle_bool 6.3 (round1 raw) = true
  /\ In (Mcp.risk_level_of raw) ["low"; "medium"].
Proof.
  intros (Hm & Hs & Hq).
  destruct m as [|[|[|[|[|[|m]]]]]]; try (exfalso; lia);
  destruct s as [|[|s]]; try (exfalso; lia);
  destruct q as [|[|q]]; try (exfalso; lia);
  clear; vm_compute; split; tauto.
Qed.

(** X4.  A scan below [medium] sends one request, reports at most seven
    findings, publishes a score of at least 6.3 and never a risk level
    worse than [medium]. *)
Theorem light_scan_bounds :
  forall (w : Mcp.World) (request : Mcp.VulnerabilityRequest) (resp : HttpResponse),
    Mcp.scan_depth request <> "medium" ->
    Mcp.scan_depth request <> "deep" ->
    Mcp.requests_get w (Mcp.request_url (Mcp.vr_url request)) 10 = Ok resp ->
    let r := run (Mcp.scan_vulnerabilities w request) no_locals in
    6.3 <= published_score r
    /\ (field "risk_level" r = Some (PStr "low")
        \/ field "risk_level" r = Some (PStr "medium"))
    /\ (length (list_field "vulnerabilities" r) <= 7)%nat
    /\ length (calls r) = 1%nat.
Proof.
  intros w request resp Hm Hd Hget r. subst r. unfold run.
  rewrite (scan_vulnerabilities_ok _ _ _ _ Hget).
  destruct (depth_not_medium_or_deep _ Hm Hd) as [Hin Heq].
  destruct (light_kinds w (Mcp.request_url (Mcp.vr_url request))
              (Mcp.scan_depth request) resp Hm Hd) as (m & s & q & Hb & Hk).
  unfold published_score, number_field, list_field, field, calls.
  cbn [fst snd trace dict_get String.eqb Ascii.eqb Bool.eqb num_value].
  rewrite record_findings_vulnerabilities, record_findings_score.
  cbn [Mcp.vulnerabilities Mcp.score app].
  rewrite running_score_kinds, Hk.
  destruct (light_shapes m s q Hb) as [Hscore Hrisk].
  split; [now apply Qle_bool_iff|].
  split.
  { destruct Hrisk as [<-|[<-|[]]]; tauto. }
  split.
  { rewrite (kinds_length _ _ Hk), kinds_shape_length. lia. }
  unfold supplementary_calls. rewrite Hin, Heq. reflexivity.
Qed.

Lemma light_scan_bounds_witness :
  Mcp.scan_depth Demo.extreme <> "medium"
  /\ Mcp.scan_depth Demo.extreme <> "deep"
  /\ Mcp.requests_get Demo.world (Mcp.request_url (Mcp.vr_url Demo.extreme)) 10
     = Ok Demo.home
  /\ 6.3 <= published_score (run (Mcp.scan_vulnerabilities Demo.world Demo.extreme)
                                 no_locals)
  /\ length (calls (run (Mcp.scan_vulnerabilities Demo.world Demo.extreme) no_locals))
     = 1%nat.
Proof.
  assert (Hm : Mcp.scan_depth Demo.extreme <> "medium") by discriminate.
  assert (Hd : Mcp.scan_depth Demo.extreme <> "deep") by discriminate.
  destruct (light_scan_bounds Demo.world Demo.extreme Demo.home Hm Hd eq_refl)
    as (Hs & _ & _ & Hc).
  repeat split; assumption.
Defined.

Lemma supplementary_calls_length url depth :
  (length (supplementary_calls url depth) <= 6)%nat.
Proof.
  unfold supplementary_calls.
  destruct (Py.in_list depth ["medium"; "deep"]), (String.eqb depth "deep");
    simpl; lia.
Qed.

Lemma all_shapes m s q p d t :
  (m <= 5 /\ s <= 1 /\ q <= 1 /\ p <= 4 /\ d <= 1 /\ t <= 3)%nat ->
  let kinds := kinds_shape m s q p d t in
  let raw := py_max 0.0
               (fold_left (fun s kind => s - kind_deduction kind) kinds 10.0) in
  Mcp.risk_level_of raw = Mcp.risk_level_of (round1 raw)
  /\ Qeq_bool (round1 raw) 10 = match kinds with [] => true | _ => false end.
Proof.
  intros (Hm & Hs & Hq & Hp & Hd & Ht).
  destruct m as [|[|[|[|[|[|m]]]]]]; try (exfalso; lia);
  destruct s as [|[|s]]; try (exfalso; lia);
  destruct q as [|[|q]]; try (exfalso; lia);
  destruct p as [|[|[|[|[|p]]]]]; try (exfalso; lia);
  destruct d as [|[|d]]; try (exfalso; lia);
  destruct t as [|[|[|[|t]]]]; try (exfalso; lia);
  clear; vm_compute; split; reflexivity.
Qed.

(** X5.  A successful scan reports at most fifteen findings and sends at most
    seven requests; [vulnerability_count] is the number of findings
    published; the risk level published is the one the thresholds give for
    the published score; and the published score is 10 exactly when there
    is no finding. *)
Theorem scan_result_consistent :
  forall (w : Mcp.World) (request : Mcp.VulnerabilityRequest) (resp : HttpResponse),
    Mcp.requests_get w (Mcp.request_url (Mcp.vr_url request)) 10 = Ok resp ->
    let r := run (Mcp.scan_vulnerabilities w request) no_locals in
    let findings := list_field "vulnerabilities" r in
    field "vulnerability_count" r = Some (PInt (py_len findings))
    /\ (length findings <= 15)%nat
    /\ (length (calls r) <= 7)%nat
    /\ field "risk_level" r = Some (PStr (Mcp.risk_level_of (published_score r)))
    /\ (published_score r == 10 <-> findings = []).
Proof.
  intros w request resp Hget r findings. subst findings r. unfold run.
  rewrite (scan_vulnerabilities_ok _ _ _ _ Hget).
  destruct (scan_kinds w (Mcp.request_url (Mcp.vr_url request))
              (Mcp.scan_depth request) resp)
    as (m & s & q & p & d & t & Hb & Hk).
  unfold published_score, number_field, list_field, field, calls.
  cbn [fst snd trace dict_get String.eqb Ascii.eqb Bool.eqb num_value].
  rewrite record_findings_vulnerabilities, record_findings_score.
  cbn [Mcp.vulnerabilities Mcp.score app].
  rewrite running_score_kinds, Hk.
  destruct (all_shapes m s q p d t Hb) as [Hrisk Hten].
  split; [reflexivity|].
  split.
  { rewrite (kinds_length _ _ Hk), kinds_shape_length. lia. }
  split.
  { pose proof (supplementary_calls_length (Mcp.request_url (Mcp.vr_url request))
                  (Mcp.scan_depth request)). simpl. lia. }
  split; [now rewrite Hrisk|].
  rewrite <- Qeq_bool_iff, Hten.
  set (fs := (baseline_findings resp ++ _)%list) in *.
  destruct fs as [|f fs]; simpl in Hk.
  - rewrite <- Hk. tauto.
  - rewrite <- Hk. split; discriminate.
Qed.

Lemma scan_result_consistent_witness :
  Mcp.requests_get Demo.world (Mcp.request_url (Mcp.vr_url Demo.deep)) 10 = Ok Demo.home
  /\ field "vulnerability_count" (run (Mcp.scan_vulnerabilities Demo.world Demo.deep) no_locals)
     = Some (PInt 9)
  /\ field "risk_level" (run (Mcp.scan_vulnerabilities Demo.world Demo.deep) no_locals)
     = Some (PStr "high").
Proof.
  split; [reflexivity|].
  destruct (scan_result_consistent Demo.world Demo.deep Demo.home eq_refl)
    as (Hc & _ & _ & Hr & _).
  split; [exact Hc | exact Hr].
Defined.

(** The kinds of the findings of a scan, with what the depth rules out. *)
Lemma scan_kinds_by_depth w url depth resp :
  exists m s q p d t,
    map finding_kind (baseline_findings resp ++ supplementary_findings w url depth)
    = kinds_shape m s q p d t
    /\ (Py.in_list depth ["medium"; "deep"] = false -> p = 0%nat /\ d = 0%nat)
    /\ (String.eqb depth "deep" = false -> t = 0%nat).
Proof.
  destruct (missing_header_kinds (headers resp)) as (m & _ & Em).
  destruct (disclosure_kinds (headers resp)) as (s & _ & Es).
  destruct (content_kinds (Py.lower (text resp))) as (q & _ & Eq).
  destruct (path_kinds w url) as (p & _ & Ep).
  destruct (directory_kinds w url) as (d & _ & Ed).
  destruct (method_kinds w url) as (t & _ & Et).
  unfold baseline_findings, supplementary_findings, medium_findings, kinds_shape.
  destruct (Py.in_list depth ["medium"; "deep"]); destruct (String.eqb depth "deep").
  - exists m, s, q, p, d, t. split; [|split; discriminate].
    rewrite !map_app, Em, Es, Eq, Ep, Ed, Et. now rewrite <- !app_assoc.
  - exists m, s, q, p, d, 0%nat. split; [|split; [discriminate|reflexivity]].
    rewrite !map_app, Em, Es, Eq, Ep, Ed. now rewrite <- !app_assoc.
  - exists m, s, q, 0%nat, 0%nat, t. split; [|split; [tauto|discriminate]].
    rewrite !map_app, Em, Es, Eq, Et. now rewrite <- !app_assoc.
  - exists m, s, q, 0%nat, 0%nat, 0%nat. split; [|split; tauto].
    rewrite !map_app, Em, Es, Eq. now rewrite <- !app_assoc.
Qed.

Lemma in_repeat_kind (k kind : string) n :
  In k (repeat kind n) -> k = kind /\ n <> 0%nat.
Proof.
  intros H. split; [now apply repeat_spec in H|].
  intros ->. contradiction.
Qed.

Lemma in_kinds_shape k m s q p d t :
  In k (kinds_shape m s q p d t) ->
  In k baseline_kinds
  \/ (k = "Exposed Endpoint" /\ p <> 0%nat)
  \/ (k = "Directory Listing" /\ d <> 0%nat)
  \/ (k = "Dangerous HTTP Method" /\ t <> 0%nat).
Proof.
  unfold kinds_shape, baseline_kinds. rewrite !in_app_iff.
  intros [H|[H|[H|[H|[H|H]]]]]; apply in_repeat_kind in H; destruct H as [-> Hn];
    simpl; tauto.
Qed.

(** X6.  What a depth never reports.  Below [deep] no finding is a dangerous
    HTTP method; below [medium] every finding is of a baseline kind. *)
Theorem shallow_scans_report_no_deeper_kinds :
  forall (w : Mcp.World) (request : Mcp.VulnerabilityRequest) (f : pyval),
    Mcp.scan_depth request <> "deep" ->
    In f (list_field "vulnerabilities"
            (run (Mcp.scan_vulnerabilities w request) no_locals)) ->
    finding_kind f <> "Dangerous HTTP Method"
    /\ (Mcp.scan_depth request <> "medium" -> In (finding_kind f) baseline_kinds).
Proof.
  intros w request f Hd. unfold run.
  destruct (Mcp.requests_get w (Mcp.request_url (Mcp.vr_url request)) 10)
    as [resp|e] eqn:Hget.
  - rewrite (scan_vulnerabilities_ok _ _ _ _ Hget).
    unfold list_field, field. cbn [fst dict_get String.eqb Ascii.eqb Bool.eqb].
    rewrite record_findings_vulnerabilities. cbn [Mcp.vulnerabilities app].
    intros Hin. apply (in_map finding_kind) in Hin.
    destruct (scan_kinds_by_depth w (Mcp.request_url (Mcp.vr_url request))
                (Mcp.scan_depth request) resp)
      as (m & s & q & p & d & t & Hk & Hpd & Ht).
    rewrite Hk in Hin. apply in_kinds_shape in Hin.
    apply String.eqb_neq in Hd. specialize (Ht Hd).
    split.
    + destruct Hin as [Hb|[[E _]|[[E _]|[_ Hn]]]].
      * unfold baseline_kinds in Hb. simpl in Hb.
        intros E. rewrite E in Hb. intuition discriminate.
      * rewrite E. discriminate.
      * rewrite E. discriminate.
      * contradiction.
    + intros Hm. destruct (depth_not_medium_or_deep _ Hm (proj1 (String.eqb_neq _ _) Hd))
        as [Hl _].
      destruct (Hpd Hl) as [-> ->].
      destruct Hin as [Hb|[[_ Hn]|[[_ Hn]|[_ Hn]]]]; [exact Hb | | | ]; contradiction.
  - rewrite (scan_vulnerabilities_raise _ _ _ _ Hget).
    unfold list_field, field. destruct e as [kind msg]. destruct kind; simpl; tauto.
Qed.

Lemma shallow_scans_report_no_deeper_kinds_witness :
  Mcp.scan_depth Demo.light <> "deep"
  /\ In Mcp.sql_error_finding
        (list_field "vulnerabilities"
           (run (Mcp.scan_vulnerabilities Demo.world Demo.light) no_locals))
  /\ finding_kind Mcp.sql_error_finding <> "Dangerous HTTP Method"
  /\ In (finding_kind Mcp.sql_error_finding) baseline_kinds.
Proof.
  assert (Hd : Mcp.scan_depth Demo.light <> "deep") by discriminate.
  assert (Hm : Mcp.scan_depth Demo.light <> "medium") by discriminate.
  assert (Hin : In Mcp.sql_error_finding
                   (list_field "vulnerabilities"
                      (run (Mcp.scan_vulnerabilities Demo.world Demo.light) no_locals))).
  { vm_compute. tauto. }
  destruct (shallow_scans_report_no_deeper_kinds Demo.world Demo.light
              Mcp.sql_error_finding Hd Hin) as [H1 H2].
  split; [exact Hd|]. split; [exact Hin|]. split; [exact H1 | exact (H2 Hm)].
Defined.

Lemma in_list_headers_contains header hs :
  Py.lower header = header ->
  Py.in_list header (map Py.lower (map fst hs)) = headers_contains header hs.
Proof.
  intros Hl. unfold Py.in_list, headers_contains. rewrite Hl.
  induction hs as [|[k v] hs IH]; simpl; [reflexivity|].
  now rewrite IH, String.eqb_sym.
Qed.

Lemma security_headers_lower header description :
  In (header, description) Mcp.security_headers -> Py.lower header = header.
Proof.
  unfold Mcp.security_headers. simpl.
  intros [E|[E|[E|[E|[E|[]]]]]]; injection E as <- _; reflexivity.
Qed.

Lemma kind_in_block f fs kind n :
  map finding_kind fs = repeat kind n -> In f fs -> finding_kind f = kind.
Proof.
  intros E Hin. apply (in_map finding_kind) in Hin. rewrite E in Hin.
  now apply repeat_spec in Hin.
Qed.

(** Among the findings of a scan, the missing-header finding of a header
    of the probe's list. *)
Lemma missing_header_in_findings w url depth resp header description :
  In (header, description) Mcp.security_headers ->
  (In (Mcp.missing_header_finding header description)
      (baseline_findings resp ++ supplementary_findings w url depth)
   <-> headers_contains header (headers resp) = false).
Proof.
  intros Hin.
  rewrite <- (in_list_headers_contains header (headers resp))
    by (eapply security_headers_lower; eassumption).
  unfold baseline_findings. rewrite !in_app_iff.
  assert (Hmh : In (Mcp.missing_header_finding header description)
                   (missing_header_findings (headers resp))
                <-> Py.in_list header (map Py.lower (map fst (headers resp))) = false).
  { unfold missing_header_findings. rewrite in_flat_map. split.
    - intros ([h d] & _ & Hx). cbn [fst snd] in Hx.
      destruct (Py.in_list h (map Py.lower (map fst (headers resp)))) eqn:E;
        cbn [negb] in Hx; [contradiction|].
      destruct Hx as [Hx|[]]. injection Hx. intros Ed Eh. subst h. exact E.
    - intros E. exists (header, description). split; [exact Hin|].
      cbn [fst snd]. rewrite E. now left. }
  rewrite <- Hmh. split; [|tauto].
  intros H.
  assert (Hc : In (Mcp.missing_header_finding header description)
                  (missing_header_findings (headers resp))
               \/ In (Mcp.missing_header_finding header description)
                     (disclosure_findings (headers resp))
               \/ In (Mcp.missing_header_finding header description)
                     (content_findings (Py.lower (text resp)))
               \/ In (Mcp.missing_header_finding header description)
                     (supplementary_findings w url depth)) by tauto.
  clear H. destruct Hc as [H|[H|[H|H]]]; [exact H | exfalso .. ].
  - destruct (disclosure_kinds (headers resp)) as (n & _ & E).
    apply (kind_in_block _ _ _ _ E) in H. discriminate H.
  - destruct (content_kinds (Py.lower (text resp))) as (n & _ & E).
    apply (kind_in_block _ _ _ _ E) in H. discriminate H.
  - unfold supplementary_findings, medium_findings in H.
    destruct (Py.in_list depth ["medium"; "deep"]), (String.eqb depth "deep");
      rewrite ?in_app_iff in H;
      repeat match goal with
      | H : _ \/ _ |- _ => destruct H as [H|H]
      | H : In _ [] |- _ => destruct H
      end.
    all: try (destruct (path_kinds w url) as (n & _ & E);
              apply (kind_in_block _ _ _ _ E) in H; discriminate H).
    all: try (destruct (directory_kinds w url) as (n & _ & E);
              apply (kind_in_block _ _ _ _ E) in H; discriminate H).
    all: try (destruct (method_kinds w url) as (n & _ & E);
              apply (kind_in_block _ _ _ _ E) in H; discriminate H).
Qed.

Lemma scan_findings w request resp :
  Mcp.requests_get w (Mcp.request_url (Mcp.vr_url request)) 10 = Ok resp ->
  list_field "vulnerabilities" (run (Mcp.scan_vulnerabilities w request) no_locals)
  = (baseline_findings resp
     ++ supplementary_findings w (Mcp.request_url (Mcp.vr_url request))
          (Mcp.scan_depth request))%list.
Proof.
  intros Hget. unfold run.
  rewrite (scan_vulnerabilities_ok _ _ _ _ Hget).
  unfold list_field, field. cbn [fst dict_get String.eqb Ascii.eqb Bool.eqb].
  rewrite record_findings_vulnerabilities. reflexivity.
Qed.

(** X7.  A missing-header finding is reported for a header of the probe's
    list exactly when no header of the response has that name, whatever the
    case of the response's header names. *)
Theorem missing_header_reported_iff :
  forall (w : Mcp.World) (request : Mcp.VulnerabilityRequest) (resp : HttpResponse)
         (header description : string),
    Mcp.requests_get w (Mcp.request_url (Mcp.vr_url request)) 10 = Ok resp ->
    In (header, description) Mcp.security_headers ->
    (In (Mcp.missing_header_finding header description)
        (list_field "vulnerabilities"
           (run (Mcp.scan_vulnerabilities w request) no_locals))
     <-> headers_contains header (headers resp) = false).
Proof.
  intros w request resp header description Hget Hin.
  rewrite (scan_findings w request resp Hget).
  now apply missing_header_in_findings.
Qed.

Lemma missing_header_reported_iff_witness :
  Mcp.requests_get Demo.world (Mcp.request_url (Mcp.vr_url Demo.light)) 10 = Ok Demo.home
  /\ In ("x-frame-options", "Clickjacking protection missing") Mcp.security_headers
  /\ headers_contains "x-frame-options" (headers Demo.home) = true
  /\ ~ In (Mcp.missing_header_finding "x-frame-options" "Clickjacking protection missing")
          (list_field "vulnerabilities"
             (run (Mcp.scan_vulnerabilities Demo.world Demo.light) no_locals)).
Proof.
  assert (Hin : In ("x-frame-options", "Clickjacking protection missing")
                   Mcp.security_headers) by (simpl; tauto).
  split; [reflexivity|]. split; [exact Hin|]. split; [reflexivity|].
  intros H.
  apply (missing_header_reported_iff Demo.world Demo.light Demo.home _ _ eq_refl Hin) in H.
  discriminate H.
Defined.

(** ** The header probe: the two lists *)

Lemma check_header_step hs acc n i :
  Py.lower n = n ->
  Mcp.check_header hs acc (n, i)
  = if header_supplied hs n
    then Mcp.MkHeaderLocals
           (dict_set n (header_value hs n, i) (Mcp.present_headers acc))
           (Mcp.missing_headers acc)
    else Mcp.MkHeaderLocals (Mcp.present_headers acc)
           (Mcp.missing_headers acc ++ [(n, i)])%list.
Proof.
  intros Hlow. unfold Mcp.check_header, header_supplied, header_value.
  now rewrite find_header_value_get.
Qed.

(** The entries of [missing_headers] after the loop: the catalog entries
    that are not supplied, in catalog order. *)
Lemma check_header_missing hs entries :
  forall acc,
    (forall k, In k (map fst entries) -> Py.lower k = k) ->
    Mcp.missing_headers (fold_left (Mcp.check_header hs) entries acc)
    = (Mcp.missing_headers acc
       ++ filter (fun e => negb (header_supplied hs (fst e))) entries)%list.
Proof.
  induction entries as [|[n i] entries IH]; intros acc Hlow.
  - simpl. now rewrite app_nil_r.
  - cbn [fold_left filter fst].
    rewrite IH by (intros k Hk; apply Hlow; now right).
    rewrite check_header_step by (apply Hlow; now left).
    destruct (header_supplied hs n); cbn [negb Mcp.missing_headers].
    + reflexivity.
    + now rewrite <- app_assoc.
Qed.

Lemma missing_entries hs :
  Mcp.missing_headers (Mcp.check_headers hs)
  = filter (fun e => negb (header_supplied hs (fst e))) Mcp.security_headers_check.
Proof.
  unfold Mcp.check_headers. rewrite check_header_missing.
  - reflexivity.
  - apply catalog_lower.
Qed.

Lemma dict_get_set {V : Type} h k (v : V) d :
  dict_get h (dict_set k v d) = if String.eqb h k then Some v else dict_get h d.
Proof.
  induction d as [|[k' v'] d IH]; simpl.
  - reflexivity.
  - destruct (String.eqb_spec k k') as [->|Hkk']; simpl.
    + destruct (String.eqb_spec h k'); reflexivity.
    + rewrite IH. destruct (String.eqb_spec h k') as [->|Hhk'].
      * destruct (String.eqb_spec k' k); [congruence | reflexivity].
      * reflexivity.
Qed.

Lemma dict_get_absent {V : Type} h (d : list (string * V)) :
  ~ In h (dict_keys d) -> dict_get h d = None.
Proof.
  induction d as [|[k v] d IH]; simpl; intros Hn.
  - reflexivity.
  - destruct (String.eqb_spec h k) as [->|Hne].
    + exfalso. apply Hn. now left.
    + apply IH. intros Hin. apply Hn. now right.
Qed.

(** The entry of [present_headers] for a name, after the loop. *)
Lemma check_header_present hs entries :
  forall acc h,
    NoDup (map fst entries) ->
    (forall k, In k (map fst entries) -> Py.lower k = k) ->
    dict_get h (Mcp.present_headers (fold_left (Mcp.check_header hs) entries acc))
    = match dict_get h entries with
      | Some info =>
          if header_supplied hs h then Some (header_value hs h, info)
          else dict_get h (Mcp.present_headers acc)
      | None => dict_get h (Mcp.present_headers acc)
      end.
Proof.
  induction entries as [|[n i] entries IH]; intros acc h Hnd Hlow.
  - reflexivity.
  - cbn [fold_left]. inversion Hnd as [|? ? Hn Hnd']; subst.
    rewrite IH; [| exact Hnd' | intros k Hk; apply Hlow; now right].
    rewrite check_header_step by (apply Hlow; now left).
    cbn [dict_get]. destruct (String.eqb_spec h n) as [->|Hne].
    + rewrite (dict_get_absent n entries) by exact Hn.
      destruct (header_supplied hs n); cbn [Mcp.present_headers].
      * rewrite dict_get_set. now rewrite String.eqb_refl.
      * reflexivity.
    + destruct (header_supplied hs n); cbn [Mcp.present_headers].
      * rewrite dict_get_set.
        destruct (String.eqb_spec h n); [contradiction|]. reflexivity.
      * reflexivity.
Qed.

Lemma present_lookup hs h :
  dict_get h (Mcp.present_headers (Mcp.check_headers hs))
  = match dict_get h Mcp.security_headers_check with
    | Some info =>
        if header_supplied hs h then Some (header_value hs h, info) else None
    | None => None
    end.
Proof.
  unfold Mcp.check_headers. rewrite check_header_present.
  - cbn [Mcp.present_headers dict_get].
    destruct (dict_get h Mcp.security_headers_check); [|reflexivity].
    now destruct (header_supplied hs h).
  - apply catalog_nodup.
  - apply catalog_lower.
Qed.

Lemma dict_get_present_entries h l :
  dict_get h (map Mcp.present_entry l)
  = match dict_get h l with
    | Some e => Some (snd (Mcp.present_entry (h, e)))
    | None => None
    end.
Proof.
  induction l as [|[k [v i]] l IH]; simpl.
  - reflexivity.
  - destruct (String.eqb h k); [reflexivity | exact IH].
Qed.

Lemma dict_keys_present_entries l :
  dict_keys (map Mcp.present_entry l) = dict_keys l.
Proof.
  unfold dict_keys. rewrite map_map. apply map_ext. now intros [k [v i]].
Qed.

Lemma missing_entry_header l :
  map (entry_text "header") (map Mcp.missing_entry l) = map fst l.
Proof.
  rewrite map_map. apply map_ext. now intros [k i].
Qed.

Lemma filter_map_fst {A B : Type} (p : A -> bool) (l : list (A * B)) :
  map fst (filter (fun e => p (fst e)) l) = filter p (map fst l).
Proof.
  induction l as [|[a b] l IH]; simpl; [reflexivity|].
  destruct (p a); simpl; now rewrite IH.
Qed.

Lemma filter_comm {A : Type} (p q : A -> bool) (l : list A) :
  filter p (filter q l) = filter q (filter p l).
Proof.
  induction l as [|a l IH]; simpl; [reflexivity|].
  destruct (p a) eqn:Hp, (q a) eqn:Hq; simpl; rewrite ?Hp, ?Hq, IH; reflexivity.
Qed.

(** What the probe answers to a response. *)
Lemma analyze_security_headers_payload w request resp :
  let url := Mcp.request_url (Mcp.shr_url request) in
  let acc := Mcp.check_headers (headers resp) in
  let score := Mcp.header_score (Mcp.present_headers acc) in
  Mcp.requests_get w url 10 = Ok resp ->
  run (Mcp.analyze_security_headers w request) tt
  = (Ok (PDict
       [ ("url", PStr url);
         ("security_score", pyval_of_num (builtin_round1 score));
         ("grade", PStr (Mcp.grade_of score));
         ("present_headers", PDict (map Mcp.present_entry (Mcp.present_headers acc)));
         ("missing_headers", PList (map Mcp.missing_entry (Mcp.missing_headers acc)));
         ("total_headers_checked", PInt (py_len Mcp.security_headers_check));
         ("headers_present", PInt (py_len (Mcp.present_headers acc)));
         ("scan_timestamp", PStr (Mcp.utc_now_isoformat w));
         ("recommendations",
          PList (map (fun h => PStr ("Implement " ++ Mcp.hi_name (snd h)))
                   (filter (fun h => String.eqb (Mcp.hi_importance (snd h)) "high")
                      (Mcp.missing_headers acc)))) ]),
     MkFrame [EvGet url 10] tt).
Proof.
  intros url acc score Hget. unfold run, Mcp.analyze_security_headers. fold url.
  unfold try_except, bind, perform. rewrite Hget. reflexivity.
Qed.

(** X10.  The header probe sorts every header of its catalog into exactly one
    of two lists.  [present_headers] holds, in catalog order, the headers the
    response supplies with a value that is not empty, each with the value
    received; [missing_headers] holds the others, in catalog order; the two
    counts add up to the seven headers checked. *)
Theorem header_lists_partition_catalog :
  forall (w : Mcp.World) (request : Mcp.SecurityHeadersRequest) (resp : HttpResponse),
    Mcp.requests_get w (Mcp.request_url (Mcp.shr_url request)) 10 = Ok resp ->
    let r := run (Mcp.analyze_security_headers w request) tt in
    let supplied := header_supplied (headers resp) in
    exists (present : list (string * pyval)) (missing : list pyval),
      field "present_headers" r = Some (PDict present)
      /\ field "missing_headers" r = Some (PList missing)
      /\ dict_keys present = filter supplied catalog
      /\ map (entry_text "header") missing
         = filter (fun h => negb (supplied h)) catalog
      /\ (forall h entry, dict_get h present = Some entry ->
            entry_text "value" entry = header_value (headers resp) h
            /\ header_value (headers resp) h <> EmptyString)
      /\ field "headers_present" r = Some (PInt (py_len present))
      /\ field "total_headers_checked" r = Some (PInt 7)
      /\ (py_len present + py_len missing = 7)%Z.
Proof.
  intros w request resp Hget r supplied. subst r.
  rewrite (analyze_security_headers_payload w request resp Hget).
  unfold field. cbn [fst dict_get String.eqb Ascii.eqb Bool.eqb].
  do 2 eexists.
  split; [reflexivity|]. split; [reflexivity|].
  assert (Hp : dict_keys (map Mcp.present_entry
                            (Mcp.present_headers (Mcp.check_headers (headers resp))))
               = filter supplied catalog).
  { rewrite dict_keys_present_entries. apply present_keys. }
  assert (Hm : map (entry_text "header")
                 (map Mcp.missing_entry
                    (Mcp.missing_headers (Mcp.check_headers (headers resp))))
               = filter (fun h => negb (supplied h)) catalog).
  { rewrite missing_entry_header, missing_entries.
    apply (filter_map_fst (fun h => negb (supplied h))). }
  split; [exact Hp|]. split; [exact Hm|]. split; [|split; [|split]].
  - intros h entry. rewrite dict_get_present_entries, present_lookup.
    destruct (dict_get h Mcp.security_headers_check) as [info|]; [|discriminate].
    destruct (header_supplied (headers resp) h) eqn:Hs; [|discriminate].
    intros E. injection E as <-. split; [reflexivity|].
    unfold header_supplied, Mcp.truthy in Hs. unfold header_value.
    destruct (headers_get h (headers resp)) as [v|]; [|discriminate].
    intros ->. discriminate.
  - unfold py_len. now rewrite length_map.
  - reflexivity.
  - unfold py_len.
    rewrite <- (length_map fst (map Mcp.present_entry _)).
    fold (dict_keys (map Mcp.present_entry
                       (Mcp.present_headers (Mcp.check_headers (headers resp))))).
    rewrite Hp.
    rewrite <- (length_map (entry_text "header") (map Mcp.missing_entry _)), Hm.
    rewrite <- Nat2Z.inj_add.
    rewrite (filter_length supplied catalog). reflexivity.
Qed.

Lemma header_lists_partition_catalog_witness :
  Mcp.requests_get (Demo.serving Demo.empty_csp)
    (Mcp.request_url (Mcp.shr_url Demo.headers_request)) 10 = Ok Demo.empty_csp
  /\ exists (present : list (string * pyval)) (missing : list pyval),
       field "present_headers"
         (run (Mcp.analyze_security_headers (Demo.serving Demo.empty_csp)
                 Demo.headers_request) tt) = Some (PDict present)
       /\ field "missing_headers"
            (run (Mcp.analyze_security_headers (Demo.serving Demo.empty_csp)
                    Demo.headers_request) tt) = Some (PList missing)
       /\ dict_keys present
          = [ "strict-transport-security"; "x-frame-options"; "x-content-type-options";
              "x-xss-protection"; "referrer-policy"; "permissions-policy" ]
       /\ map (entry_text "header") missing = ["content-security-policy"].
Proof.
  split; [reflexivity|].
  destruct (header_lists_partition_catalog (Demo.serving Demo.empty_csp)
              Demo.headers_request Demo.empty_csp eq_refl)
    as (present & missing & Hp & Hm & Kp & Km & _).
  exists present, missing.
  split; [exact Hp|]. split; [exact Hm|]. split; [exact Kp | exact Km].
Defined.

(** X11.  The recommendations name the high-importance headers that are not
    supplied, HSTS before CSP, and nothing else: a missing header of medium
    or low importance is never recommended. *)
Theorem recommendations_cover_high_importance_only :
  forall (w : Mcp.World) (request : Mcp.SecurityHeadersRequest) (resp : HttpResponse),
    Mcp.requests_get w (Mcp.request_url (Mcp.shr_url request)) 10 = Ok resp ->
    let supplied := header_supplied (headers resp) in
    field "recommendations" (run (Mcp.analyze_security_headers w request) tt)
    = Some (PList (map PStr
        ((if supplied "strict-transport-security" then [] else [hsts_recommendation])
         ++ (if supplied "content-security-policy" then [] else [csp_recommendation])))).
Proof.
  intros w request resp Hget supplied.
  rewrite (analyze_security_headers_payload w request resp Hget).
  unfold field. cbn [fst dict_get String.eqb Ascii.eqb Bool.eqb].
  rewrite missing_entries, filter_comm.
  replace (filter (fun h => String.eqb (Mcp.hi_importance (snd h)) "high")
             Mcp.security_headers_check)
    with [ ("strict-transport-security",
            Mcp.MkHeaderInfo "HTTP Strict Transport Security (HSTS)" "high"
              "Prevents protocol downgrade attacks");
           ("content-security-policy",
            Mcp.MkHeaderInfo "Content Security Policy (CSP)" "high"
              "Prevents XSS and data injection attacks") ]
    by reflexivity.
  cbn [filter fst]. fold supplied.
  destruct (supplied "strict-transport-security"),
           (supplied "content-security-policy"); reflexivity.
Qed.

Lemma recommendations_cover_high_importance_only_witness :
  Mcp.requests_get (Demo.serving Demo.two_headers)
    (Mcp.request_url (Mcp.shr_url Demo.headers_request)) 10 = Ok Demo.two_headers
  /\ field "recommendations"
       (run (Mcp.analyze_security_headers (Demo.serving Demo.two_headers)
               Demo.headers_request) tt)
     = Some (PList [PStr csp_recommendation]).
Proof.
  split; [reflexivity|].
  exact (recommendations_cover_high_importance_only (Demo.serving Demo.two_headers)
           Demo.headers_request Demo.two_headers eq_refl).
Defined.

(** ** The header probe: grade and score *)

Lemma header_grade_cases (present : string -> bool) :
  let score := Mcp.header_score (map blank (filter present catalog)) in
  Mcp.grade_of (builtin_round1 score) = Mcp.grade_of score
  /\ String.eqb (Mcp.grade_of score) "A"
     = forallb present Mcp.high_importance && (6 <=? present_count present)%Z
  /\ existsb present Mcp.high_importance
     || Py.in_list (Mcp.grade_of score) ["C"; "D"; "F"] = true
  /\ Qle_bool 0 (num_q (builtin_round1 score)) = true
  /\ Qle_bool (num_q (builtin_round1 score)) 10 = true
  /\ Qeq_bool (num_q (builtin_round1 score)) 10 = forallb present catalog.
Proof.
  unfold present_count.
  change catalog with
    [ "strict-transport-security"; "content-security-policy"; "x-frame-options";
      "x-content-type-options"; "x-xss-protection"; "referrer-policy";
      "permissions-policy" ].
  change Mcp.high_importance with
    [ "strict-transport-security"; "content-security-policy" ].
  cbn [filter forallb existsb].
  destruct (present "strict-transport-security");
  destruct (present "content-security-policy");
  destruct (present "x-frame-options");
  destruct (present "x-content-type-options");
  destruct (present "x-xss-protection");
  destruct (present "referrer-policy");
  destruct (present "permissions-policy");
  vm_compute; repeat split; reflexivity.
Qed.

(** X12.  The grade and the score of the header probe.  The published grade
    is the one the thresholds give the published, rounded score; the score
    lies between 0 and 10 and is 10 exactly when all seven headers are
    supplied; the grade is A exactly when both high-importance headers and
    at least six headers in all are supplied; with neither high-importance
    header the grade is C at best. *)
Theorem header_grade_and_score :
  forall (w : Mcp.World) (request : Mcp.SecurityHeadersRequest) (resp : HttpResponse),
    Mcp.requests_get w (Mcp.request_url (Mcp.shr_url request)) 10 = Ok resp ->
    let r := run (Mcp.analyze_security_headers w request) tt in
    let supplied := header_supplied (headers resp) in
    exists score : pynum,
      field "security_score" r = Some (pyval_of_num score)
      /\ field "grade" r = Some (PStr (Mcp.grade_of score))
      /\ 0 <= num_q score <= 10
      /\ (num_q score == 10 <-> forall h, In h catalog -> supplied h = true)
      /\ (Mcp.grade_of score = "A"
          <-> supplied "strict-transport-security" = true
              /\ supplied "content-security-policy" = true
              /\ (6 <= present_count supplied)%Z)
      /\ (supplied "strict-transport-security" = false ->
          supplied "content-security-policy" = false ->
          In (Mcp.grade_of score) ["C"; "D"; "F"]).
Proof.
  intros w request resp Hget r supplied. subst r.
  rewrite (analyze_security_headers_payload w request resp Hget).
  unfold field. cbn [fst dict_get String.eqb Ascii.eqb Bool.eqb].
  assert (E : dict_keys (Mcp.present_headers (Mcp.check_headers (headers resp)))
              = dict_keys (map blank (filter supplied catalog))).
  { rewrite present_keys. unfold dict_keys. rewrite map_map. simpl.
    now rewrite map_id. }
  rewrite (header_score_keys _ _ E).
  destruct (header_grade_cases supplied) as (Hg & Ha & Hc & H0 & H10 & Hfull).
  set (score := Mcp.header_score (map blank (filter supplied catalog))) in *.
  exists (builtin_round1 score).
  split; [reflexivity|]. split; [now rewrite Hg|].
  split; [split; now apply Qle_bool_iff|].
  split; [|split].
  - rewrite <- Qeq_bool_iff, Hfull, forallb_forall. reflexivity.
  - rewrite Hg, <- String.eqb_eq, Ha, andb_true_iff, Z.leb_le.
    change Mcp.high_importance with
      [ "strict-transport-security"; "content-security-policy" ].
    cbn [forallb]. rewrite andb_true_iff, andb_true_r. tauto.
  - intros Hh Hcsp. rewrite Hg.
    change Mcp.high_importance with
      [ "strict-transport-security"; "content-security-policy" ] in Hc.
    cbn [existsb] in Hc. rewrite Hh, Hcsp in Hc. cbn [orb] in Hc.
    unfold Py.in_list in Hc. cbn [existsb] in Hc.
    rewrite !orb_true_iff in Hc. rewrite !String.eqb_eq in Hc.
    simpl. intuition congruence.
Qed.

Lemma header_grade_and_score_witness :
  Mcp.requests_get (Demo.serving Demo.empty_csp)
    (Mcp.request_url (Mcp.shr_url Demo.headers_request)) 10 = Ok Demo.empty_csp
  /\ exists score : pynum,
       field "security_score"
         (run (Mcp.analyze_security_headers (Demo.serving Demo.empty_csp)
                 Demo.headers_request) tt) = Some (pyval_of_num score)
       /\ field "grade"
            (run (Mcp.analyze_security_headers (Demo.serving Demo.empty_csp)
                    Demo.headers_request) tt) = Some (PStr (Mcp.grade_of score))
       /\ Mcp.grade_of score <> "A".
Proof.
  split; [reflexivity|].
  destruct (header_grade_and_score (Demo.serving Demo.empty_csp)
              Demo.headers_request Demo.empty_csp eq_refl)
    as (score & Hs & Hg & _ & _ & Ha & _).
  exists score. split; [exact Hs|]. split; [exact Hg|].
  intros E. apply Ha in E. destruct E as (_ & Hc & _). discriminate Hc.
Defined.

(** ** The two HTTP probes side by side *)

Lemma headers_get_contains h hs v :
  headers_get h hs = Some v -> headers_contains h hs = true.
Proof.
  unfold headers_get, headers_contains.
  induction hs as [|[k x] hs IH]; simpl; [discriminate|].
  destruct (String.eqb (Py.lower k) (Py.lower h)); [reflexivity | exact IH].
Qed.

Lemma header_supplied_found hs h :
  header_supplied hs h = true -> header_found hs h = true.
Proof.
  unfold header_supplied, header_found, Mcp.truthy.
  destruct (headers_get h hs) as [v|] eqn:E; [|discriminate].
  intros _. now apply (headers_get_contains h hs v).
Qed.

(** X14.  The two HTTP probes on responses with the same headers.  A header
    that the header probe lists as present is never reported missing by the
    vulnerability probe. *)
Theorem present_header_not_reported_missing :
  forall (w w' : Mcp.World) (scan : Mcp.VulnerabilityRequest)
         (analysis : Mcp.SecurityHeadersRequest) (resp resp' : HttpResponse)
         (present : list (string * pyval)) (header description : string),
    Mcp.requests_get w (Mcp.request_url (Mcp.vr_url scan)) 10 = Ok resp ->
    Mcp.requests_get w' (Mcp.request_url (Mcp.shr_url analysis)) 10 = Ok resp' ->
    headers resp = headers resp' ->
    field "present_headers" (run (Mcp.analyze_security_headers w' analysis) tt)
    = Some (PDict present) ->
    In header (dict_keys present) ->
    ~ In (Mcp.missing_header_finding header description)
         (list_field "vulnerabilities" (run (Mcp.scan_vulnerabilities w scan) no_locals)).
Proof.
  intros w w' scan analysis resp resp' present header description
         Hget Hget' Hh Hfield Hin Hmissing.
  rewrite (analyze_security_headers_payload w' analysis resp' Hget') in Hfield.
  unfold field in Hfield. cbn [fst dict_get String.eqb Ascii.eqb Bool.eqb] in Hfield.
  injection Hfield as <-.
  rewrite dict_keys_present_entries, present_keys in Hin.
  apply filter_In in Hin. destruct Hin as [_ Hs].
  apply header_supplied_found in Hs. unfold header_found in Hs.
  rewrite (scan_findings w scan resp Hget) in Hmissing.
  assert (Hk : finding_kind (Mcp.missing_header_finding header description)
               = "Missing Security Header") by reflexivity.
  assert (Hb : In (Mcp.missing_header_finding header description)
                  (missing_header_findings (headers resp))).
  { apply in_app_or in Hmissing. destruct Hmissing as [Hb|Hsup].
    - unfold baseline_findings in Hb. rewrite !in_app_iff in Hb.
      destruct Hb as [Hb|[Hb|Hb]]; [exact Hb | exfalso .. ].
      + destruct (disclosure_kinds (headers resp)) as (n & _ & E).
        apply (kind_in_block _ _ _ _ E) in Hb. discriminate Hb.
      + destruct (content_kinds (Py.lower (text resp))) as (n & _ & E).
        apply (kind_in_block _ _ _ _ E) in Hb. discriminate Hb.
    - exfalso. apply (in_map finding_kind) in Hsup. rewrite Hk in Hsup.
      unfold supplementary_findings, medium_findings in Hsup.
      rewrite !map_app in Hsup.
      destruct (path_kinds w (Mcp.request_url (Mcp.vr_url scan))) as (p & _ & Ep).
      destruct (directory_kinds w (Mcp.request_url (Mcp.vr_url scan))) as (d & _ & Ed).
      destruct (method_kinds w (Mcp.request_url (Mcp.vr_url scan))) as (t & _ & Et).
      destruct (Py.in_list _ _), (String.eqb _ "deep");
        rewrite ?map_app, ?Ep, ?Ed, ?Et, ?in_app_iff in Hsup; cbn [map] in Hsup;
        repeat match goal with
        | H : _ \/ _ |- _ => destruct H as [H|H]
        | H : In _ [] |- _ => destruct H
        | H : In _ (repeat _ _) |- _ => apply repeat_spec in H; discriminate H
        end. }
  unfold missing_header_findings in Hb. apply in_flat_map in Hb.
  destruct Hb as ([h d] & Hcat & Hx). cbn [fst snd] in Hx.
  destruct (Py.in_list h (map Py.lower (map fst (headers resp)))) eqn:E;
    cbn [negb] in Hx; [contradiction|].
  destruct Hx as [Hx|[]]. injection Hx. intros Ed Eh. subst h d.
  rewrite in_list_headers_contains in E
    by (eapply security_headers_lower; eassumption).
  rewrite Hh in E. congruence.
Qed.

Lemma present_header_not_reported_missing_witness :
  exists present : list (string * pyval),
    field "present_headers"
      (run (Mcp.analyze_security_headers (Demo.serving Demo.home) Demo.headers_request) tt)
    = Some (PDict present)
    /\ In "x-frame-options" (dict_keys present)
    /\ ~ In (Mcp.missing_header_finding "x-frame-options" "Clickjacking protection missing")
            (list_field "vulnerabilities"
               (run (Mcp.scan_vulnerabilities Demo.world Demo.light) no_locals)).
Proof.
  eexists. split; [lazy; reflexivity|].
  assert (Hin : In "x-frame-options"
                  (dict_keys
                     (map Mcp.present_entry
                        (Mcp.present_headers (Mcp.check_headers (headers Demo.home))))))
    by (lazy; tauto).
  split; [exact Hin|].
  apply (present_header_not_reported_missing Demo.world (Demo.serving Demo.home)
           Demo.light Demo.headers_request Demo.home Demo.home
           (map Mcp.present_entry
              (Mcp.present_headers (Mcp.check_headers (headers Demo.home))))
           "x-frame-options" "Clickjacking protection missing"
           eq_refl eq_refl eq_refl eq_refl Hin).
Defined.

(** X8.  A target that cannot be reached.  When the first GET raises a
    [RequestException], each HTTP probe answers after that one call with an
    error payload and no result: the vulnerability probe names the URL it
    requested and adds an empty [vulnerabilities] list and a [score] of 0,
    but neither [security_score] nor [risk_level]; the header probe names
    the URL as the caller gave it and adds nothing. *)
Theorem unreachable_target_reports :
  forall (w : Mcp.World) (url depth : string) (e : exn),
    Mcp.requests_get w (Mcp.request_url url) 10 = Raise e ->
    exn_kind e = RequestException ->
    let scan := run (Mcp.scan_vulnerabilities w (Mcp.MkVulnerabilityRequest url depth))
                    no_locals in
    let analysis := run (Mcp.analyze_security_headers w
                           (Mcp.MkSecurityHeadersRequest url)) tt in
    fst scan
    = Ok (PDict [ ("error", PStr ("Could not connect to " ++ Mcp.request_url url
                                   ++ ": " ++ exn_str e));
                  ("vulnerabilities", PList []);
                  ("score", PFloat 0.0) ])
    /\ field "security_score" scan = None
    /\ field "risk_level" scan = None
    /\ calls scan = [EvGet (Mcp.request_url url) 10]
    /\ fst analysis
       = Ok (PDict [ ("error", PStr ("Could not analyze headers for " ++ url
                                      ++ ": " ++ exn_str e)) ])
    /\ calls analysis = [EvGet (Mcp.request_url url) 10].
Proof.
  intros w url depth e Hget Hkind scan analysis. subst scan analysis.
  unfold run, calls, field.
  rewrite (scan_vulnerabilities_raise w (Mcp.MkVulnerabilityRequest url depth) e _ Hget).
  unfold Mcp.analyze_security_headers. cbn [Mcp.shr_url Mcp.vr_url].
  unfold try_except, bind, perform. rewrite Hget, Hkind.
  cbn [fst snd trace app ret dict_get String.eqb Ascii.eqb Bool.eqb].
  repeat split.
Qed.

Lemma unreachable_target_reports_witness :
  Mcp.requests_get Demo.world (Mcp.request_url "down.example.com") 10 = Raise Demo.refused
  /\ exn_kind Demo.refused = RequestException
  /\ fst (run (Mcp.scan_vulnerabilities Demo.world Demo.down) no_locals)
     = Ok (PDict [ ("error",
                    PStr "Could not connect to https://down.example.com: connection refused");
                   ("vulnerabilities", PList []);
                   ("score", PFloat 0.0) ])
  /\ fst (run (Mcp.analyze_security_headers Demo.world
                 (Mcp.MkSecurityHeadersRequest "down.example.com")) tt)
     = Ok (PDict [ ("error",
                    PStr "Could not analyze headers for down.example.com: connection refused") ]).
Proof.
  split; [reflexivity|]. split; [reflexivity|].
  destruct (unreachable_target_reports Demo.world "down.example.com" "deep" Demo.refused
              eq_refl eq_refl) as (Hs & _ & _ & _ & Ha & _).
  split; [exact Hs | exact Ha].
Defined.

(** ** The port probe: counts, defaults and aborted scans *)

Lemma for_each_app {L X : Type} (body : X -> M L unit) (xs ys : list X) s :
  for_each (xs ++ ys) body s
  = match for_each xs body s with
    | (Ok _, s') => for_each ys body s'
    | (Raise e, s') => (Raise e, s')
    end.
Proof.
  revert s. induction xs as [|x xs IH]; intros s; simpl.
  - reflexivity.
  - unfold bind. destruct (body x s) as [[[]|e] s']; [apply IH | reflexivity].
Qed.

(** X15.  The port probe counts what it scanned.  When every connection
    attempt succeeds or fails with a socket error, [total_scanned] is the
    number of open ports plus the number of closed ports; a request without
    ports, or with an empty list of ports, scans the thirteen default
    ports. *)
Theorem port_scan_accounting :
  forall (w : Mcp.World) (request : Mcp.PortScanRequest),
    let domain := Mcp.clean_url (Mcp.psr_url request) in
    (forall port e, In port (Mcp.ports_to_scan request) ->
       Mcp.create_connection w domain port 3 = Raise e -> is_os_error e = true) ->
    let r := run (Mcp.scan_ports w request) (Mcp.MkPortLocals [] []) in
    field "total_scanned" r
    = Some (PInt (py_len (list_field "open_ports" r)
                  + py_len (list_field "closed_ports" r)))
    /\ field "error" r = None
    /\ (Mcp.ports request = None \/ Mcp.ports request = Some [] ->
        field "total_scanned" r = Some (PInt 13)
        /\ calls r = map (fun port => EvConnect domain port 3) Mcp.default_ports).
Proof.
  intros w request domain Hsock r. subst r. unfold run.
  rewrite (scan_ports_run w request _ Hsock). fold domain.
  unfold list_field, field, calls.
  cbn [fst snd trace dict_get String.eqb Ascii.eqb Bool.eqb app].
  split; [|split; [reflexivity|]].
  - unfold py_len. rewrite !length_map, <- Nat2Z.inj_add.
    now rewrite (filter_length (port_is_open w domain) (Mcp.ports_to_scan request)).
  - unfold Mcp.ports_to_scan. intros [-> | ->]; split; reflexivity.
Qed.

Lemma port_scan_accounting_witness :
  (forall port e,
     In port (Mcp.ports_to_scan (Mcp.MkPortScanRequest "example.com" (Some []))) ->
     Mcp.create_connection Demo.world
       (Mcp.clean_url (Mcp.psr_url (Mcp.MkPortScanRequest "example.com" (Some [])))) port 3
     = Raise e -> is_os_error e = true)
  /\ field "total_scanned"
       (run (Mcp.scan_ports Demo.world (Mcp.MkPortScanRequest "example.com" (Some [])))
            (Mcp.MkPortLocals [] []))
     = Some (PInt 13).
Proof.
  assert (Hsock : forall port e,
     In port (Mcp.ports_to_scan (Mcp.MkPortScanRequest "example.com" (Some []))) ->
     Mcp.create_connection Demo.world
       (Mcp.clean_url (Mcp.psr_url (Mcp.MkPortScanRequest "example.com" (Some [])))) port 3
     = Raise e -> is_os_error e = true).
  { intros port e _. unfold Demo.world. cbn [Mcp.create_connection].
    destruct (Mcp.port_in port [80; 443]%Z); intros E.
    - discriminate E.
    - injection E as <-. reflexivity. }
  split; [exact Hsock|].
  destruct (port_scan_accounting Demo.world
              (Mcp.MkPortScanRequest "example.com" (Some [])) Hsock) as (_ & _ & Hdef).
  apply Hdef. right. reflexivity.
Defined.

Lemma scan_ports_abort_run w request before after port e s :
  let domain := Mcp.clean_url (Mcp.psr_url request) in
  Mcp.ports_to_scan request = (before ++ port :: after)%list ->
  (forall p e', In p before ->
     Mcp.create_connection w domain p 3 = Raise e' -> is_os_error e' = true) ->
  Mcp.create_connection w domain port 3 = Raise e ->
  is_os_error e = false ->
  Mcp.scan_ports w request s
  = (Ok (PDict [("error", PStr ("Port scan failed: " ++ exn_str e))]),
     MkFrame (trace s ++ map (fun p => EvConnect domain p 3) (before ++ [port]))%list
       (Mcp.MkPortLocals (filter (port_is_open w domain) before)
          (filter (fun p => negb (port_is_open w domain p)) before))).
Proof.
  intros domain Hports Hsock Hraise Hkind.
  unfold Mcp.scan_ports. fold domain. rewrite Hports.
  unfold try_except at 1. unfold bind at 1. unfold modify at 1.
  unfold bind at 1. rewrite for_each_app.
  erewrite for_each_steps_in with
    (step := fun p (s : frame Mcp.port_locals) =>
       MkFrame (trace s ++ [EvConnect domain p 3])%list
         (if port_is_open w domain p
          then Mcp.MkPortLocals (Mcp.open_ports (locals s) ++ [p])%list
                                (Mcp.closed_ports (locals s))
          else Mcp.MkPortLocals (Mcp.open_ports (locals s))
                                (Mcp.closed_ports (locals s) ++ [p])%list)).
  2:{ intros p Hin [tr l]. unfold port_is_open. unfold_monad.
      destruct (Mcp.create_connection w domain p 3) as [[]|e'] eqn:E; simpl;
        [reflexivity|].
      now rewrite (Hsock p e' Hin E). }
  cbn [trace locals]. rewrite scan_ports_loop.
  cbn [for_each]. unfold bind at 1. unfold try_except at 1. unfold bind at 1.
  unfold perform at 1. rewrite Hraise, Hkind. unfold raise, ret.
  cbn [trace locals app]. rewrite map_app, <- app_assoc. reflexivity.
Qed.

(** X16.  A connection attempt that raises anything but a socket error ends
    the port scan.  The ports after it are never tried, and the answer is
    the error payload alone: the ports already found open or closed are not
    reported. *)
Theorem port_scan_aborts_on_other_exception :
  forall (w : Mcp.World) (request : Mcp.PortScanRequest)
         (before after : list Z) (port : Z) (e : exn),
    let domain := Mcp.clean_url (Mcp.psr_url request) in
    Mcp.ports_to_scan request = (before ++ port :: after)%list ->
    (forall p e', In p before ->
       Mcp.create_connection w domain p 3 = Raise e' -> is_os_error e' = true) ->
    Mcp.create_connection w domain port 3 = Raise e ->
    is_os_error e = false ->
    let r := run (Mcp.scan_ports w request) (Mcp.MkPortLocals [] []) in
    fst r = Ok (PDict [("error", PStr ("Port scan failed: " ++ exn_str e))])
    /\ calls r = map (fun p => EvConnect domain p 3) (before ++ [port]).
Proof.
  intros w request before after port e domain Hports Hsock Hraise Hkind r. subst r.
  unfold run, calls.
  rewrite (scan_ports_abort_run w request before after port e _ Hports Hsock Hraise Hkind).
  split; reflexivity.
Qed.

Lemma port_scan_aborts_on_other_exception_witness :
  Mcp.ports_to_scan Cases.ports_request = ([80] ++ 70000 :: [443])%list%Z
  /\ Mcp.create_connection Cases.strict_ports "example.com" 70000 3
     = Raise (MkExn OtherException "port must be 0-65535.")
  /\ fst (run (Mcp.scan_ports Cases.strict_ports Cases.ports_request)
              (Mcp.MkPortLocals [] []))
     = Ok (PDict [("error", PStr "Port scan failed: port must be 0-65535.")])
  /\ calls (run (Mcp.scan_ports Cases.strict_ports Cases.ports_request)
                (Mcp.MkPortLocals [] []))
     = [EvConnect "example.com" 80 3; EvConnect "example.com" 70000 3].
Proof.
  split; [reflexivity|]. split; [reflexivity|].
  apply (port_scan_aborts_on_other_exception Cases.strict_ports Cases.ports_request
           [80%Z] [443%Z] 70000%Z (MkExn OtherException "port must be 0-65535.")).
  - reflexivity.
  - intros p e' [<-|[]]. vm_compute. discriminate.
  - reflexivity.
  - reflexivity.
Defined.

(** ** The DNS probe: a report whatever the resolver does *)

Lemma dns_issues_many spf dmarc a_records :
  In many_a_records (Mcp.dns_issues spf dmarc a_records)
  <-> (5 < py_len a_records)%Z.
Proof.
  unfold Mcp.dns_issues, many_a_records. rewrite <- Z.ltb_lt.
  destruct spf, dmarc, (5 <? py_len a_records)%Z; simpl;
    intuition (try discriminate; try congruence).
Qed.

Lemma dns_issues_known spf dmarc a_records issue :
  In issue (Mcp.dns_issues spf dmarc a_records) ->
  In issue [missing_spf; missing_dmarc; many_a_records].
Proof.
  unfold Mcp.dns_issues, missing_spf, missing_dmarc, many_a_records.
  destruct spf, dmarc, (5 <? py_len a_records)%Z; simpl; tauto.
Qed.

(** X17.  The DNS probe answers with a report whatever the resolver does.  It
    makes six lookups for the cleaned domain, in a fixed order, and none of
    them can make it fail: [dns_records] has an entry for each of the six
    record types, holding the answers, nothing when there is no answer and
    the one text [Error resolving] on any other failure.  The note on many
    A records is among the issues exactly when that entry has more than
    five items. *)
Theorem dns_report_is_total :
  forall (w : Mcp.World) (request : Mcp.DNSRequest),
    let r := run (Mcp.analyze_dns w request) [] in
    let domain := Mcp.clean_url (Mcp.dns_domain request) in
    exists (records : list (string * pyval)) (issues : list string),
      field "error" r = None
      /\ field "domain" r = Some (PStr domain)
      /\ calls r = map (EvResolve domain) ["A"; "AAAA"; "MX"; "TXT"; "NS"; "CNAME"]
      /\ field "dns_records" r = Some (PDict records)
      /\ dict_keys records = ["A"; "AAAA"; "MX"; "TXT"; "NS"; "CNAME"]
      /\ (forall rtype, In rtype Mcp.record_types ->
            dict_get rtype records = Some (PList (map PStr (resolved w domain rtype))))
      /\ field "security_issues" r = Some (PList (map PStr issues))
      /\ (forall issue, In issue issues ->
            In issue [missing_spf; missing_dmarc; many_a_records])
      /\ (In many_a_records issues <-> (5 < py_len (resolved w domain "A"))%Z).
Proof.
  intros w request r domain. subst r. unfold run.
  rewrite analyze_dns_run. fold domain.
  unfold field, calls. cbn [fst snd trace dict_get String.eqb Ascii.eqb Bool.eqb app].
  do 2 eexists.
  split; [reflexivity|]. split; [reflexivity|]. split; [reflexivity|].
  split; [reflexivity|]. split; [reflexivity|]. split; [|split; [reflexivity|split]].
  - intros rtype Hin. unfold Mcp.record_types in Hin. simpl in Hin.
    destruct Hin as [<-|[<-|[<-|[<-|[<-|[<-|[]]]]]]]; reflexivity.
  - apply dns_issues_known.
  - apply dns_issues_many.
Qed.

Lemma resolved_error_not_record w domain rtype e :
  Mcp.dns_resolve w domain rtype = Raise e ->
  resolved w domain rtype = [] \/ resolved w domain rtype = ["Error resolving"].
Proof.
  intros E. unfold resolved. rewrite E. destruct (exn_kind e); tauto.
Qed.

(** X18.  A TXT lookup that fails reads as missing records.  Whatever the
    failure, the probe reports SPF and DMARC as not configured and lists
    both as issues, as it does for a zone that has neither record. *)
Theorem failed_txt_lookup_reads_as_missing :
  forall (w : Mcp.World) (request : Mcp.DNSRequest) (e : exn),
    Mcp.dns_resolve w (Mcp.clean_url (Mcp.dns_domain request)) "TXT" = Raise e ->
    let r := run (Mcp.analyze_dns w request) [] in
    exists issues : list string,
      field "spf_configured" r = Some (PBool false)
      /\ field "dmarc_configured" r = Some (PBool false)
      /\ field "security_issues" r = Some (PList (map PStr issues))
      /\ In missing_spf issues
      /\ In missing_dmarc issues
      /\ field "error" r = None.
Proof.
  intros w request e Hraise r. subst r. unfold run.
  rewrite analyze_dns_run.
  unfold field. cbn [fst dict_get String.eqb Ascii.eqb Bool.eqb].
  assert (Hspf : existsb (Py.startswith Mcp.spf_prefix)
                   (resolved w (Mcp.clean_url (Mcp.dns_domain request)) "TXT") = false)
    by (destruct (resolved_error_not_record _ _ _ _ Hraise) as [-> | ->]; reflexivity).
  assert (Hdmarc : existsb (Py.startswith Mcp.dmarc_prefix)
                     (resolved w (Mcp.clean_url (Mcp.dns_domain request)) "TXT") = false)
    by (destruct (resolved_error_not_record _ _ _ _ Hraise) as [-> | ->]; reflexivity).
  rewrite Hspf, Hdmarc. eexists.
  split; [reflexivity|]. split; [reflexivity|]. split; [reflexivity|].
  split; [now apply dns_issues_spf|]. split; [now apply dns_issues_dmarc | reflexivity].
Qed.

Lemma failed_txt_lookup_reads_as_missing_witness :
  Mcp.dns_resolve Cases.no_resolver (Mcp.clean_url (Mcp.dns_domain Demo.dns_request)) "TXT"
  = Raise (MkExn OtherException "The DNS operation timed out.")
  /\ exists issues : list string,
       field "spf_configured" (run (Mcp.analyze_dns Cases.no_resolver Demo.dns_request) [])
       = Some (PBool false)
       /\ field "dmarc_configured" (run (Mcp.analyze_dns Cases.no_resolver Demo.dns_request) [])
          = Some (PBool false)
       /\ field "security_issues" (run (Mcp.analyze_dns Cases.no_resolver Demo.dns_request) [])
          = Some (PList (map PStr issues))
       /\ In missing_spf issues
       /\ In missing_dmarc issues
       /\ field "error" (run (Mcp.analyze_dns Cases.no_resolver Demo.dns_request) []) = None.
Proof.
  split; [reflexivity|].
  exact (failed_txt_lookup_reads_as_missing Cases.no_resolver Demo.dns_request
           (MkExn OtherException "The DNS operation timed out.") eq_refl).
Defined.

(** ** The TLS probe: what it answers *)

Lemma get_items_subject c :
  Mcp.get_items "subject" (Mcp.getpeercert c)
  = Ok (map (fun rdn => PList (map Mcp.pair_val rdn)) (Mcp.cert_subject c)).
Proof. reflexivity. Qed.

Lemma get_items_issuer c :
  Mcp.get_items "issuer" (Mcp.getpeercert c)
  = Ok (map (fun rdn => PList (map Mcp.pair_val rdn)) (Mcp.cert_issuer c)).
Proof. reflexivity. Qed.

Lemma get_time_notAfter w c :
  Mcp.get_time w "notAfter" (Mcp.getpeercert c) = Mcp.strptime w (Mcp.cert_notAfter c).
Proof. reflexivity. Qed.

Lemma get_time_notBefore w c :
  Mcp.get_time w "notBefore" (Mcp.getpeercert c) = Mcp.strptime w (Mcp.cert_notBefore c).
Proof. reflexivity. Qed.

(** The dict built from a distinguished name without empty relative names:
    its keys are the first attribute names. *)
Lemma dict_of_first_attributes_names rdns :
  (forall rdn, In rdn rdns -> rdn <> []) ->
  forall d, exists d',
    Mcp.dict_of_first_attributes
      (map (fun rdn => PList (map Mcp.pair_val rdn)) rdns) d = Ok d'
    /\ forall k, dict_get k d' = None
                 <-> (~ In k (first_attribute_names rdns) /\ dict_get k d = None).
Proof.
  induction rdns as [|rdn rdns IH]; intros Hne d.
  - exists d. split; [reflexivity|]. simpl. tauto.
  - destruct rdn as [|[a v] rdn]; [exfalso; apply (Hne []); [now left | reflexivity]|].
    destruct (IH (fun x Hx => Hne x (or_intror Hx)) (dict_set a (PStr v) d))
      as (d' & Hrun & Hkeys).
    exists d'. split; [exact Hrun|].
    intros k. rewrite Hkeys, dict_get_set. cbn [first_attribute_names flat_map app In].
    fold (first_attribute_names rdns).
    destruct (String.eqb_spec k a) as [->|Hka].
    + split; [intros [_ H]; discriminate H | intros [H _]; exfalso; apply H; now left].
    + split.
      * intros [Hn Hd]. split; [|exact Hd]. intros [E|Hin]; [now subst | now apply Hn].
      * intros [Hn Hd]. split; [|exact Hd]. intros Hin. apply Hn. now right.
Qed.

Lemma in_list_In k l : Py.in_list k l = true <-> In k l.
Proof.
  unfold Py.in_list. rewrite existsb_exists. split.
  - intros (x & Hx & E). apply String.eqb_eq in E. now subst.
  - intros H. exists k. split; [exact H | apply String.eqb_refl].
Qed.

(** X19.  The TLS probe on a certificate it can read.  When the handshake
    succeeds, no relative name of the subject or the issuer is empty and both
    dates parse, the probe answers [valid: true] with the cleaned host, the
    whole days left until [notAfter], and [chain_valid] as the request gave
    it.  The issues are the expiry notice, exactly when fewer than 30 days are
    left, followed by the note on the common name, exactly when no relative
    name of the subject starts with an attribute named [CN]. *)
Theorem tls_report_for_readable_certificate :
  forall (w : Mcp.World) (request : Mcp.SSLRequest) (peer : Mcp.PeerCert)
         (not_after not_before : Z),
    Mcp.tls_peercert w (Mcp.clean_url (Mcp.ssl_url request)) 443 10 = Ok peer ->
    (forall rdn, In rdn (Mcp.cert_subject peer ++ Mcp.cert_issuer peer) -> rdn <> []) ->
    Mcp.strptime w (Mcp.cert_notAfter peer) = Ok not_after ->
    Mcp.strptime w (Mcp.cert_notBefore peer) = Ok not_before ->
    let r := run (Mcp.check_ssl_certificate w request) tt in
    let days := ((not_after - Mcp.now w) / 86400)%Z in
    field "valid" r = Some (PBool true)
    /\ field "error" r = None
    /\ field "domain" r = Some (PStr (Mcp.clean_url (Mcp.ssl_url request)))
    /\ field "days_until_expiry" r = Some (PInt days)
    /\ field "chain_valid" r = Some (PBool (Mcp.check_chain request))
    /\ field "issues" r
       = Some (PList (map PStr
           ((if (days <? 30)%Z then [expiry_notice days] else [])
            ++ (if Py.in_list "CN" (first_attribute_names (Mcp.cert_subject peer))
                then [] else [no_common_name])))).
Proof.
  intros w request peer not_after not_before Hpeer Hne Hna Hnb r days. subst r.
  destruct (dict_of_first_attributes_names (Mcp.cert_subject peer)
              (fun x Hx => Hne x (in_or_app _ _ _ (or_introl Hx))) [])
    as (subject & Hsubject & Hkeys).
  destruct (dict_of_first_attributes_names (Mcp.cert_issuer peer)
              (fun x Hx => Hne x (in_or_app _ _ _ (or_intror Hx))) [])
    as (issuer & Hissuer & _).
  assert (Hrun : run (Mcp.check_ssl_certificate w request) tt
    = (Ok (PDict
        [ ("valid", PBool true);
          ("domain", PStr (Mcp.clean_url (Mcp.ssl_url request)));
          ("subject", PDict subject);
          ("issuer", PDict issuer);
          ("not_before", PStr (Mcp.isoformat w not_before));
          ("not_after", PStr (Mcp.isoformat w not_after));
          ("days_until_expiry", PInt days);
          ("subject_alt_names", PList []);
          ("issues", PList (map PStr
             (let issues := [] in
              let issues :=
                if (days <? 30)%Z
                then (issues ++ [("Certificate expires in "
                                    ++ Py.str_of_int days ++ " days")%string])%list
                else issues in
              match dict_get "CN" subject with
              | None => (issues ++ ["No Common Name in certificate"])%list
              | Some _ => issues
              end)));
          ("chain_valid", PBool (Mcp.check_chain request)) ]),
       MkFrame [EvTlsHandshake (Mcp.clean_url (Mcp.ssl_url request)) 443 10] tt)).
  { unfold run, Mcp.check_ssl_certificate.
    unfold try_except at 1. unfold bind at 1. unfold perform at 1.
    rewrite Hpeer. cbn [trace locals app].
    unfold bind, lift.
    rewrite get_items_subject, Hsubject, get_items_issuer, Hissuer.
    rewrite get_time_notAfter, Hna, get_time_notBefore, Hnb, no_extensions_key.
    reflexivity. }
  rewrite Hrun. unfold field. cbn [fst dict_get String.eqb Ascii.eqb Bool.eqb].
  split; [reflexivity|]. split; [reflexivity|]. split; [reflexivity|].
  split; [reflexivity|]. split; [reflexivity|].
  do 3 f_equal. unfold expiry_notice, no_common_name.
  assert (Hcn : dict_get "CN" subject = None
                <-> Py.in_list "CN" (first_attribute_names (Mcp.cert_subject peer)) = false).
  { rewrite Hkeys. cbn [dict_get]. rewrite <- in_list_In.
    destruct (Py.in_list "CN" _); intuition congruence. }
  destruct (dict_get "CN" subject) as [v|],
           (Py.in_list "CN" (first_attribute_names (Mcp.cert_subject peer))).
  - destruct (days <? 30)%Z; reflexivity.
  - destruct Hcn as [_ Hcn]. discriminate (Hcn eq_refl).
  - destruct Hcn as [Hcn _]. discriminate (Hcn eq_refl).
  - destruct (days <? 30)%Z; reflexivity.
Qed.

Lemma tls_report_for_readable_certificate_witness :
  Mcp.tls_peercert Demo.world (Mcp.clean_url (Mcp.ssl_url Demo.ssl_request)) 443 10
  = Ok Demo.cert
  /\ field "valid" (run (Mcp.check_ssl_certificate Demo.world Demo.ssl_request) tt)
     = Some (PBool true)
  /\ field "days_until_expiry" (run (Mcp.check_ssl_certificate Demo.world Demo.ssl_request) tt)
     = Some (PInt 213)
  /\ field "issues" (run (Mcp.check_ssl_certificate Demo.world Demo.ssl_request) tt)
     = Some (PList [PStr no_common_name]).
Proof.
  split; [reflexivity|].
  assert (Hne : forall rdn,
            In rdn (Mcp.cert_subject Demo.cert ++ Mcp.cert_issuer Demo.cert) -> rdn <> []).
  { intros rdn H. simpl in H. destruct H as [<-|[<-|[<-|[]]]]; discriminate. }
  destruct (tls_report_for_readable_certificate Demo.world Demo.ssl_request Demo.cert
              1735689600%Z 1704067200%Z eq_refl Hne eq_refl eq_refl)
    as (Hv & _ & _ & Hd & _ & Hi).
  split; [exact Hv|]. split; [exact Hd | exact Hi].
Defined.

(** The two shapes of the probe's answer; the request's flag is only in
    the last entry of the first. *)
Lemma tls_answer_cases w url :
  (exists body,
      dict_get "valid" body = Some (PBool true)
      /\ dict_get "error" body = None
      /\ dict_get "domain" body = Some (PStr (Mcp.clean_url url))
      /\ dict_get "chain_valid" body = None
      /\ forall chk,
           fst (run (Mcp.check_ssl_certificate w (Mcp.MkSSLRequest url chk)) tt)
           = Ok (PDict (body ++ [("chain_valid", PBool chk)])%list))
  \/ (exists message,
        forall chk,
          fst (run (Mcp.check_ssl_certificate w (Mcp.MkSSLRequest url chk)) tt)
          = Ok (tls_failure (Mcp.MkSSLRequest url chk) message)).
Proof.
  destruct (Mcp.tls_peercert w (Mcp.clean_url url) 443 10) as [peer|e0] eqn:H0.
  - destruct (Mcp.dict_of_first_attributes
                (map (fun rdn => PList (map Mcp.pair_val rdn)) (Mcp.cert_subject peer)) [])
      as [subject|e1] eqn:H1;
    [destruct (Mcp.dict_of_first_attributes
                 (map (fun rdn => PList (map Mcp.pair_val rdn)) (Mcp.cert_issuer peer)) [])
       as [issuer|e2] eqn:H2;
     [destruct (Mcp.strptime w (Mcp.cert_notAfter peer)) as [not_after|e3] eqn:H3;
      [destruct (Mcp.strptime w (Mcp.cert_notBefore peer)) as [not_before|e4] eqn:H4|]|]|].
    1: left; eexists; split; [|split; [|split; [|split]]].
    5: { intros chk. unfold run, Mcp.check_ssl_certificate. cbn [Mcp.ssl_url Mcp.check_chain].
         unfold try_except, bind, perform, lift.
         rewrite H0, get_items_subject, H1, get_items_issuer, H2,
           get_time_notAfter, H3, get_time_notBefore, H4, no_extensions_key.
         cbn [fst ret fold_left map].
         match goal with
         | |- Ok (PDict ?l) = _ =>
             change l with (removelast l ++ [("chain_valid", PBool chk)])%list
         end.
         cbn [removelast]. reflexivity. }
    1-4: reflexivity.
    all: right.
    all: match goal with
         | H : _ = Raise ?e |- _ =>
             exists (match exn_kind e with
                     | SocketTimeout => "Connection timeout"
                     | SocketGaierror => "Domain not found"
                     | SSLError => "SSL error: " ++ exn_str e
                     | _ => "Unexpected error: " ++ exn_str e
                     end)
         end.
    all: intros chk; unfold run, Mcp.check_ssl_certificate, tls_failure;
         cbn [Mcp.ssl_url Mcp.check_chain];
         unfold try_except, bind, perform, lift;
         rewrite H0, get_items_subject, ?H1, ?get_items_issuer, ?H2,
           ?get_time_notAfter, ?H3, ?get_time_notBefore, ?H4.
    all: match goal with
         | |- context [exn_kind ?e] => destruct e as [k m]; destruct k
         end; reflexivity.
  - right.
    exists (match exn_kind e0 with
            | SocketTimeout => "Connection timeout"
            | SocketGaierror => "Domain not found"
            | SSLError => "SSL error: " ++ exn_str e0
            | _ => "Unexpected error: " ++ exn_str e0
            end).
    intros chk. unfold run, Mcp.check_ssl_certificate, tls_failure.
    cbn [Mcp.ssl_url Mcp.check_chain].
    unfold try_except, bind, perform. rewrite H0.
    destruct e0 as [k m]; destruct k; reflexivity.
Qed.

Lemma dict_get_app_last {V : Type} k (d : list (string * V)) c v :
  dict_get k (d ++ [(c, v)])
  = match dict_get k d with
    | Some x => Some x
    | None => if String.eqb k c then Some v else None
    end.
Proof.
  induction d as [|[k' v'] d IH]; simpl.
  - reflexivity.
  - destruct (String.eqb k k'); [reflexivity | exact IH].
Qed.

(** X20.  The TLS probe always answers, after one handshake with port 443 of
    the cleaned host.  The answer is either a report with [valid: true] and
    the cleaned host, or exactly [valid: false] with an error message and the
    URL as the caller gave it; a certificate the probe cannot read gives the
    second. *)
Theorem tls_probe_always_answers :
  forall (w : Mcp.World) (request : Mcp.SSLRequest),
    let r := run (Mcp.check_ssl_certificate w request) tt in
    calls r = [EvTlsHandshake (Mcp.clean_url (Mcp.ssl_url request)) 443 10]
    /\ ((field "valid" r = Some (PBool true)
         /\ field "error" r = None
         /\ field "domain" r = Some (PStr (Mcp.clean_url (Mcp.ssl_url request))))
        \/ exists message, fst r = Ok (tls_failure request message)).
Proof.
  intros w [url chk] r. subst r.
  split; [apply check_ssl_certificate_calls|].
  destruct (tls_answer_cases w url) as [(body & Hv & He & Hd & _ & Hrun)|(message & Hrun)].
  - left. unfold field. rewrite (Hrun chk). rewrite !dict_get_app_last, Hv, He, Hd.
    repeat split.
  - right. exists message. apply Hrun.
Qed.

(** X21.  The request's [check_chain] flag changes nothing but the entry
    [chain_valid], which repeats it: the probe makes the same handshake and
    publishes the same values under every other key. *)
Theorem check_chain_is_only_echoed :
  forall (w : Mcp.World) (url key : string),
    let checked := run (Mcp.check_ssl_certificate w (Mcp.MkSSLRequest url true)) tt in
    let unchecked := run (Mcp.check_ssl_certificate w (Mcp.MkSSLRequest url false)) tt in
    calls checked = calls unchecked
    /\ (key <> "chain_valid" -> field key checked = field key unchecked)
    /\ (forall v, field "chain_valid" checked = Some v -> v = PBool true)
    /\ (forall v, field "chain_valid" unchecked = Some v -> v = PBool false).
Proof.
  intros w url key checked unchecked. subst checked unchecked.
  split; [now rewrite !check_ssl_certificate_calls|].
  unfold field.
  destruct (tls_answer_cases w url) as [(body & _ & _ & _ & Hc & Hrun)|(message & Hrun)].
  - rewrite (Hrun true), (Hrun false), !dict_get_app_last, Hc.
    split; [|split].
    + intros Hkey. destruct (dict_get key body); [reflexivity|].
      destruct (String.eqb_spec key "chain_valid"); [contradiction | reflexivity].
    + intros v E. now injection E as <-.
    + intros v E. now injection E as <-.
  - rewrite (Hrun true), (Hrun false). unfold tls_failure. cbn [Mcp.ssl_url].
    split; [reflexivity|]. split; intros v E; discriminate E.
Qed.

(** ** The aggregator: what decides its answer *)

(** X22.  A scan depends on the request only through the cleaned URL.  Two
    requests whose URLs clean to the same text make the same calls and get
    the same answer; the [prompt] of the request is never read. *)
Theorem scan_depends_on_cleaned_url_only :
  forall (w : Backend.World) (request request' : Backend.ScanRequest),
    Backend.cleaned_url (Backend.url request) = Backend.cleaned_url (Backend.url request') ->
    run (Backend.scan_website w request) tt = run (Backend.scan_website w request') tt.
Proof.
  intros w request request' E. rewrite !scan_website_run. now rewrite E.
Qed.

Lemma scan_depends_on_cleaned_url_only_witness :
  Backend.cleaned_url (Backend.url Demo.scan_request)
  = Backend.cleaned_url
      (Backend.url (Backend.MkScanRequest "example.com/admin" "Ignore the headers"))
  /\ run (Backend.scan_website Demo.backend Demo.scan_request) tt
     = run (Backend.scan_website Demo.backend
              (Backend.MkScanRequest "example.com/admin" "Ignore the headers")) tt.
Proof.
  split; [vm_compute; reflexivity|].
  apply (scan_depends_on_cleaned_url_only Demo.backend Demo.scan_request
           (Backend.MkScanRequest "example.com/admin" "Ignore the headers")).
  vm_compute. reflexivity.
Defined.

(** X23.  A scan can fail only with its summary.  Whatever the probe server
    does, the aggregator asks for a summary of the three tool results, as its
    fourth and last call.  It answers 500 when that call raises, with the
    exception's text, and when the answer's [content] is a list of blocks
    rather than a string, with the text of the validation error of the
    report; otherwise it reports those same three results with the [content]
    of the answer, or its [str] when it has none. *)
Theorem scan_fails_only_with_the_summary :
  forall (w : Backend.World) (request : Backend.ScanRequest),
    let r := run (Backend.scan_website w request) tt in
    let target := Backend.cleaned_url (Backend.url request) in
    exists (ssl_result vuln_result headers_result : pyval) (posts : list io_event),
      let prompt :=
        Backend.summary_prompt w target ssl_result vuln_result headers_result in
      calls r = (posts ++ [EvLlm prompt])%list
      /\ List.length posts = 3%nat
      /\ fst r
         = match Backend.llm_invoke w prompt with
           | Ok response =>
               match summary_of response with
               | Backend.Text summary =>
                   Ok (Backend.ScanResponse
                         [ ("ssl", ssl_result);
                           ("vulnerabilities", vuln_result);
                           ("security_headers", headers_result) ]
                         summary)
               | Backend.Blocks blocks =>
                   Ok (Backend.HTTPException 500
                         ("Scan failed: " ++ Backend.validation_error w blocks))
               end
           | Raise e => Ok (Backend.HTTPException 500 ("Scan failed: " ++ exn_str e))
           end.
Proof.
  intros w request r target. subst r. rewrite scan_website_run. fold target.
  unfold calls. cbn [fst snd trace].
  do 3 eexists.
  exists [ EvPost (Backend.MCP_URL w ++ "/check_ssl")
             (PDict [("url", PStr target); ("check_chain", PBool true)]) 30;
           EvPost (Backend.MCP_URL w ++ "/scan_vulnerabilities")
             (PDict [("url", PStr target); ("scan_depth", PStr "light")]) 60;
           EvPost (Backend.MCP_URL w ++ "/analyze_security_headers")
             (PDict [("url", PStr target)]) 30 ].
  split; [reflexivity|]. split; [reflexivity|].
  destruct (Backend.llm_invoke w _) as [response|e]; [|reflexivity].
  unfold scan_reply. now destruct (summary_of response).
Qed.

(** An answer whose content is a list of blocks: the three probes are
    asked, the generator returns, and the scan still answers 500. *)
Example scan_of_blocks_answers_500 :
  let r := run (Backend.scan_website Cases.blocks_backend Demo.scan_request) tt in
  List.length (calls r) = 4%nat
  /\ fst r
     = Ok (Backend.HTTPException 500 "Scan failed: 1 validation error for ScanResponse").
Proof. vm_compute. split; reflexivity. Qed.

(** X24.  [GET /test-llm] always answers, after one call to the text
    generator, and reports success exactly when the call returned an object
    with a [content], a string or a list of blocks, which it passes on; for
    an object without one it reports an error, where [POST /scan] would use
    the object's [str] as the summary. *)
Theorem test_llm_needs_content :
  forall (w : Backend.World) (no_content : string),
    let r := run (test_llm w no_content) tt in
    calls r = [EvLlm hello_prompt]
    /\ (exists status, field "status" r = Some (PStr status)
                       /\ In status ["success"; "error"])
    /\ (field "status" r = Some (PStr "success")
        <-> exists response c,
              Backend.llm_invoke w hello_prompt = Ok response
              /\ Backend.content response = Some c
              /\ field "response" r = Some (content_value c))
    /\ (forall response,
          Backend.llm_invoke w hello_prompt = Ok response ->
          Backend.content response = None ->
          field "error" r = Some (PStr no_content)).
Proof.
  intros w no_content r. subst r.
  unfold run, calls, field, test_llm, try_except, bind, perform, lift, ret.
  destruct (Backend.llm_invoke w hello_prompt) as [[[c|] s]|e];
    cbn [fst snd trace app Backend.content exn_str dict_get String.eqb Ascii.eqb Bool.eqb].
  - split; [reflexivity|]. split; [exists "success"; simpl; tauto|]. split.
    + split; [intros _; exists (Backend.MkLlmResponse (Some c) s), c; repeat split
             | reflexivity].
    + intros response E. injection E as <-. discriminate.
  - split; [reflexivity|]. split; [exists "error"; simpl; tauto|]. split.
    + split; [discriminate|]. intros (response & c & E & Hc & _).
      injection E as <-. discriminate Hc.
    + reflexivity.
  - split; [reflexivity|]. split; [exists "error"; simpl; tauto|]. split.
    + split; [discriminate|]. intros (response & c & E & _). discriminate E.
    + intros response E. discriminate E.
Qed.

(** ** The aggregator's settings *)

Lemma py_or_cases a b :
  Startup.py_or a b
  = if match a with Some v => negb (String.eqb v EmptyString) | None => false end
    then a else b.
Proof.
  unfold Startup.py_or. destruct a as [x|]; [|reflexivity].
  now destruct (String.eqb x EmptyString).
Qed.

(** X25.  Which key the aggregator starts with.  When neither
    [GEMINI_API_KEY] nor [GOOGLE_API_KEY] holds a value that is not empty the
    import fails for want of a key.  When it succeeds, the client holds the
    value of [GEMINI_API_KEY] if that is not empty, and the value of
    [GOOGLE_API_KEY] otherwise: an empty [GEMINI_API_KEY] counts as unset. *)
Theorem startup_key_selection :
  forall (w : Startup.World),
    (Startup.is_set w "GEMINI_API_KEY" || Startup.is_set w "GOOGLE_API_KEY" = false ->
     Startup.load w
     = Raise (MkExn OtherException
                "Please set GEMINI_API_KEY or GOOGLE_API_KEY environment variable"))
    /\ (forall settings,
          Startup.load w = Ok settings ->
          let key := Startup.google_api_key (Startup.llm settings) in
          key <> EmptyString
          /\ (if Startup.is_set w "GEMINI_API_KEY"
              then Startup.getenv w "GEMINI_API_KEY" = Some key
              else Startup.getenv w "GOOGLE_API_KEY" = Some key)).
Proof.
  intros w. unfold Startup.load, Startup.api_key, Startup.is_set.
  rewrite py_or_cases.
  destruct (Startup.getenv w "GEMINI_API_KEY") as [g|] eqn:Hg;
    [destruct (String.eqb g EmptyString) eqn:Hgne|];
    cbn [negb orb].
  1,3: destruct (Startup.getenv w "GOOGLE_API_KEY") as [k|] eqn:Hk;
       [destruct (String.eqb k EmptyString) eqn:Hkne|]; cbn [negb].
  all: rewrite ?Hgne, ?Hkne.
  all: split; [first [reflexivity | discriminate]|].
  all: try (intros settings E; discriminate E).
  all: intros settings; unfold Startup.new_llm; cbv zeta;
       repeat match goal with
       | |- context [Startup.ChatGoogleGenerativeAI ?x ?m ?k] =>
           destruct (Startup.ChatGoogleGenerativeAI x m k)
       end;
       intros E; try discriminate E; injection E as <-;
       cbn [Startup.llm Startup.google_api_key];
       (split; [|reflexivity]); intros ->; discriminate.
Qed.

Lemma startup_key_selection_witness :
  Startup.load Cases.startup
  = Ok (Startup.MkSettings (Startup.MkLlm "gemini-1.5-pro" "g-key") "http://localhost:8001")
  /\ Startup.is_set Cases.startup "GEMINI_API_KEY" = false
  /\ Startup.getenv Cases.startup "GOOGLE_API_KEY" = Some "g-key".
Proof.
  split; [reflexivity|]. split; [reflexivity|].
  exact (proj2 (proj2 (startup_key_selection Cases.startup) _ eq_refl)).
Defined.

(** X26.  Which model the aggregator starts with.  With a key, the client is
    built for the first of [gemini-1.5-flash], [gemini-1.5-pro] and
    [gemini-pro] whose constructor does not raise, and the failures before it
    are swallowed; when all three raise, the import fails with the exception
    of the last.  [MCP_URL] is the variable's value, also when that is
    empty, and the local default only when the variable is unset. *)
Theorem startup_model_fallback :
  forall (w : Startup.World) (key : string),
    Startup.api_key w = Some key ->
    key <> EmptyString ->
    match find (fun m => match Startup.ChatGoogleGenerativeAI w m key with
                         | None => true
                         | Some _ => false
                         end) Startup.models with
    | Some m =>
        Startup.load w
        = Ok (Startup.MkSettings (Startup.MkLlm m key)
                (match Startup.getenv w "MCP_URL" with
                 | Some v => v
                 | None => "http://localhost:8001"
                 end))
    | None =>
        exists e, Startup.ChatGoogleGenerativeAI w "gemini-pro" key = Some e
                  /\ Startup.load w = Raise e
    end.
Proof.
  intros w key Hkey Hne. unfold Startup.load. rewrite Hkey.
  destruct (String.eqb_spec key EmptyString) as [E|_]; [contradiction|].
  unfold Startup.models, Startup.new_llm. cbn [find].
  destruct (Startup.ChatGoogleGenerativeAI w "gemini-1.5-flash" key); [|reflexivity].
  destruct (Startup.ChatGoogleGenerativeAI w "gemini-1.5-pro" key); [|reflexivity].
  destruct (Startup.ChatGoogleGenerativeAI w "gemini-pro" key) as [last|]; [|reflexivity].
  exists last. split; reflexivity.
Qed.

Lemma startup_model_fallback_witness :
  Startup.api_key Cases.startup = Some "g-key"
  /\ Startup.load Cases.startup
     = Ok (Startup.MkSettings (Startup.MkLlm "gemini-1.5-pro" "g-key")
             "http://localhost:8001").
Proof.
  split; [reflexivity|].
  apply (startup_model_fallback Cases.startup "g-key" eq_refl). discriminate.
Defined.
